(** * The college monitoring dashboard (app.py): model and properties

    app.py is a thin layer over pandas.  The embedding keeps the shape of
    the source: a [DataFrame] is a header and rows of dynamically typed
    cells, [load_data], [calculate_kpis], [reason_counts] and [filtered_df]
    follow the statements of the source one by one, and the pandas and [re]
    calls they make are modelled by the functions of the modules [Py], [Re]
    and [Pd].

    Scope of the library models (pandas 1.x / 2.x, object-dtype strings):
    - text is a byte string; [str.lower], [str.strip] and [re.IGNORECASE]
      are modelled on ASCII text, where they are the mapping of A..Z and the
      ten ASCII white-space characters; Python maps and strips more in other
      text, so the properties that depend on these operations assume ASCII
      text ([Py.isascii]);
    - a finite float64 cell is kept as the two things the program can
      observe of it: its integer cast and its printed form;
    - the number parser of [pd.to_numeric] is modelled for plain decimal
      numerals of at most 15 digits and for every text that is no number;
      exponents, numerals with white space around them and longer numerals
      are [OutOfScope];
    - where pandas or [re] behaviour is not modelled, the outcome is
      [OutOfScope]; nothing is proved about such runs;
    - [st.cache_data] only replays [load_data]; it is left out, as are the
      widgets and the drawing of the charts. *)

From Stdlib Require Import List String Ascii ZArith Bool Arith Lia.
From Stdlib Require Import Permutation Sorted DecimalString DecimalPos.
Import ListNotations.

Open Scope string_scope.
Open Scope list_scope.

(* ================================================================== *)
(** ** Outcomes of a call *)

Inductive exn : Type :=
| ValueError (msg : string)
| IntCastingNaNError (msg : string)
| KeyError (key : string)
| EmptyDataError (msg : string)
| re_error
| OtherException (detail : string).

(** [str(e)], as interpolated by an f-string. *)
Definition exn_str (e : exn) : string :=
  match e with
  | ValueError m | IntCastingNaNError m | EmptyDataError m => m
  | KeyError k => "'" ++ k ++ "'"
  | re_error => "error"
  | OtherException d => d
  end.

Inductive outcome (A : Type) : Type :=
| Returns (a : A)
| Raises (e : exn)
| OutOfScope.

Arguments Returns {A} a.
Arguments Raises {A} e.
Arguments OutOfScope {A}.

Definition bind {A B} (m : outcome A) (k : A -> outcome B) : outcome B :=
  match m with
  | Returns a => k a
  | Raises e => Raises e
  | OutOfScope => OutOfScope
  end.

Notation "x <- m ;; k" := (bind m (fun x => k))
  (at level 61, m at next level, right associativity).

Fixpoint mapM {A B} (f : A -> outcome B) (l : list A) : outcome (list B) :=
  match l with
  | [] => Returns []
  | x :: xs => y <- f x ;; ys <- mapM f xs ;; Returns (y :: ys)
  end.

(* ================================================================== *)
(** ** Python [str] methods *)

Module Py.

Definition is_upper (c : ascii) : bool :=
  let n := nat_of_ascii c in (65 <=? n)%nat && (n <=? 90)%nat.

Definition is_lower (c : ascii) : bool :=
  let n := nat_of_ascii c in (97 <=? n)%nat && (n <=? 122)%nat.

Definition is_digit (c : ascii) : bool :=
  let n := nat_of_ascii c in (48 <=? n)%nat && (n <=? 57)%nat.

(** [str.isspace] on ASCII: tab, LF, VT, FF, CR, FS, GS, RS, US, space. *)
Definition is_space (c : ascii) : bool :=
  let n := nat_of_ascii c in
  ((9 <=? n)%nat && (n <=? 13)%nat) || ((28 <=? n)%nat && (n <=? 32)%nat).

Definition lower_char (c : ascii) : ascii :=
  if is_upper c then ascii_of_nat (nat_of_ascii c + 32) else c.

(** [s.lower()], for ASCII text: on other text Python also maps letters
    outside A..Z. *)
Fixpoint lower (s : string) : string :=
  match s with
  | EmptyString => EmptyString
  | String c s' => String (lower_char c) (lower s')
  end.

Fixpoint lstrip (s : string) : string :=
  match s with
  | EmptyString => EmptyString
  | String c s' => if is_space c then lstrip s' else s
  end.

Fixpoint rstrip (s : string) : string :=
  match s with
  | EmptyString => EmptyString
  | String c s' =>
      match rstrip s' with
      | EmptyString => if is_space c then EmptyString else String c EmptyString
      | r => String c r
      end
  end.

(** [s.strip()], for ASCII text: on other text Python also strips the
    white space outside ASCII, such as the no-break space. *)
Definition strip (s : string) : string := rstrip (lstrip s).

(** [s.startswith(p)] *)
Fixpoint startswith (p s : string) : bool :=
  match p, s with
  | EmptyString, _ => true
  | String a p', String b s' => Ascii.eqb a b && startswith p' s'
  | String _ _, EmptyString => false
  end.

(** [p in s]: literal substring containment. *)
Fixpoint contains (p s : string) : bool :=
  startswith p s ||
  match s with
  | EmptyString => false
  | String _ s' => contains p s'
  end.

Fixpoint any_char (f : ascii -> bool) (s : string) : bool :=
  match s with
  | EmptyString => false
  | String c s' => f c || any_char f s'
  end.

(** [str(z)] for an [int]. *)
Definition str_int (z : Z) : string := NilZero.string_of_int (Z.to_int z).

(** [bool(s)]: a string is truthy when it is not empty. *)
Definition truthy (s : string) : bool :=
  match s with EmptyString => false | _ => true end.

Definition is_ascii (c : ascii) : bool := (nat_of_ascii c <? 128)%nat.

(** [s.isascii()] *)
Fixpoint isascii (s : string) : bool :=
  match s with
  | EmptyString => true
  | String c s' => is_ascii c && isascii s'
  end.

End Py.

(* ================================================================== *)
(** ** The fragment of Python's [re] that the search box can reach

    [Series.str.contains(pat)] has [regex=True] by default: the pattern is
    compiled by [re.compile] and each string is tested with [search].
    Modelled: ordinary characters, [.], a backslash before a special
    character, capturing groups, and the compile errors for an unbalanced
    parenthesis, an unterminated character set and a trailing backslash.
    Everything else (repetition, alternation, anchors, sets, extensions,
    letter and digit escapes) is [OutOfScope]. *)

Module Re.

Inductive atom : Type :=
| Lit (c : ascii)
| AnyChar.

Definition regex : Type := list atom.

(** The special characters of the pattern language: . ^ $ * + ? { } [ ] \ | ( ) *)
Definition is_meta (c : ascii) : bool :=
  Py.any_char (Ascii.eqb c) ".^$*+?{}[]\|()".

Definition has_meta (s : string) : bool := Py.any_char is_meta s.

(** After an opening bracket: is there a closing one?  A bracket that is the
    first item of the set is literal, and a backslash takes the next
    character with it. *)
Fixpoint class_closed (first : bool) (s : string) : bool :=
  match s with
  | EmptyString => false
  | String c s' =>
      if Ascii.eqb c "]" then (if first then class_closed false s' else true)
      else if Ascii.eqb c "\" then
        match s' with
        | EmptyString => false
        | String _ s'' => class_closed false s''
        end
      else class_closed false s'
  end.

Definition skip_negation (s : string) : string :=
  match s with
  | String "^" s' => s'
  | _ => s
  end.

(** [depth] counts the groups that are open. *)
Fixpoint parse (depth : nat) (s : string) : outcome regex :=
  match s with
  | EmptyString => if (depth =? 0)%nat then Returns [] else Raises re_error
  | String c s' =>
      if Ascii.eqb c "\" then
        match s' with
        | EmptyString => Raises re_error
        | String d s'' =>
            if is_meta d then r <- parse depth s'' ;; Returns (Lit d :: r)
            else OutOfScope
        end
      else if Ascii.eqb c "." then r <- parse depth s' ;; Returns (AnyChar :: r)
      else if Ascii.eqb c "(" then
        match s' with
        | String "?" _ => OutOfScope
        | _ => parse (S depth) s'
        end
      else if Ascii.eqb c ")" then
        match depth with
        | O => Raises re_error
        | S d => parse d s'
        end
      else if Ascii.eqb c "[" then
        if class_closed true (skip_negation s') then OutOfScope else Raises re_error
      else if is_meta c then OutOfScope
      else r <- parse depth s' ;; Returns (Lit c :: r)
  end.

(** [re.compile(pat)] *)
Definition compile (pat : string) : outcome regex := parse 0 pat.

(** [ignorecase] is the flag [re.IGNORECASE], for an ASCII pattern on ASCII
    text (in other text Python also matches some letters outside ASCII with
    i, k and s); [.] does not match a newline. *)
Definition atom_matches (ignorecase : bool) (a : atom) (c : ascii) : bool :=
  match a with
  | Lit p =>
      if ignorecase then Ascii.eqb (Py.lower_char p) (Py.lower_char c)
      else Ascii.eqb p c
  | AnyChar => negb (Ascii.eqb c "010")
  end.

Fixpoint match_here (ignorecase : bool) (r : regex) (s : string) : bool :=
  match r, s with
  | [], _ => true
  | a :: r', String c s' => atom_matches ignorecase a c && match_here ignorecase r' s'
  | _ :: _, EmptyString => false
  end.

(** [r.search(s) is not None] *)
Fixpoint search (ignorecase : bool) (r : regex) (s : string) : bool :=
  match_here ignorecase r s ||
  match s with
  | EmptyString => false
  | String _ s' => search ignorecase r s'
  end.

End Re.

(* ================================================================== *)
(** ** The fragment of pandas that app.py uses *)

Module Pd.

(** A cell.  [VFloat] is a finite float64: [as_int] is what [astype(int)]
    makes of it and [as_str] what [str] prints.  [VInt] holds an int64. *)
Inductive value : Type :=
| VStr (s : string)
| VInt (z : Z)
| VFloat (as_int : Z) (as_str : string)
| VBool (b : bool)
| VNaN
| VInf (negative : bool).

(** [str(v)], which is what [astype(str)] applies to every element. *)
Definition str (v : value) : string :=
  match v with
  | VStr s => s
  | VInt z => Py.str_int z
  | VFloat _ s => s
  | VBool true => "True"
  | VBool false => "False"
  | VNaN => "nan"
  | VInf true => "-inf"
  | VInf false => "inf"
  end.

(** A frame is rectangular; a row that is too short reads as NaN there. *)
Record DataFrame : Type := mkDataFrame
  { columns : list string;
    data : list (list value) }.

(** [pd.DataFrame()] *)
Definition DataFrame_empty : DataFrame := mkDataFrame [] [].

(** [df.empty]: some axis has length 0. *)
Definition empty (df : DataFrame) : bool :=
  (List.length (columns df) =? 0)%nat || (List.length (data df) =? 0)%nat.

Fixpoint get_loc (c : string) (cols : list string) : option nat :=
  match cols with
  | [] => None
  | x :: xs => if String.eqb c x then Some O else option_map S (get_loc c xs)
  end.

Fixpoint is_unique (cols : list string) : bool :=
  match cols with
  | [] => true
  | x :: xs => negb (existsb (String.eqb x) xs) && is_unique xs
  end.

(** [df[c]] for a label carried by one column. *)
Definition getitem (df : DataFrame) (c : string) : outcome (list value) :=
  match get_loc c (columns df) with
  | None => Raises (KeyError c)
  | Some i =>
      if existsb (String.eqb c) (skipn (S i) (columns df)) then OutOfScope
      else Returns (map (fun r => nth i r VNaN) (data df))
  end.

Fixpoint set_nth (i : nat) (v : value) (r : list value) : list value :=
  match i, r with
  | _, [] => []
  | O, _ :: r' => v :: r'
  | S i', x :: r' => x :: set_nth i' v r'
  end.

(** [df[c] = vals] for a column that exists. *)
Definition setitem (df : DataFrame) (c : string) (vals : list value) : outcome DataFrame :=
  match get_loc c (columns df) with
  | None => OutOfScope
  | Some i =>
      Returns (mkDataFrame (columns df)
                 (map (fun rv => set_nth i (snd rv) (fst rv)) (combine (data df) vals)))
  end.

(** [df.rename(columns=mapping)] *)
Definition rename (mapping : list (string * string)) (df : DataFrame) : DataFrame :=
  mkDataFrame
    (map (fun c =>
            match find (fun kv => String.eqb c (fst kv)) mapping with
            | Some kv => snd kv
            | None => c
            end) (columns df))
    (data df).

(** [df.reindex(columns=target, fill_value=fill)]: conform the frame to the
    target labels; refused when the frame's own labels are not unique. *)
Definition reindex (target : list string) (fill : value) (df : DataFrame)
  : outcome DataFrame :=
  if is_unique (columns df) then
    Returns (mkDataFrame target
               (map (fun r =>
                       map (fun c =>
                              match get_loc c (columns df) with
                              | Some i => nth i r VNaN
                              | None => fill
                              end) target) (data df)))
  else Raises (ValueError "cannot reindex on an axis with duplicate labels").

(** *** Numbers *)

Fixpoint digits (acc : Z) (s : string) : option Z :=
  match s with
  | EmptyString => Some acc
  | String c s' =>
      if Py.is_digit c
      then digits (10 * acc + Z.of_nat (nat_of_ascii c - 48)) s'
      else None
  end.

(** An integer literal: an optional minus sign and at least one digit. *)
Definition int_literal (s : string) : option Z :=
  match s with
  | EmptyString => None
  | String "-" EmptyString => None
  | String "-" s' => option_map Z.opp (digits 0 s')
  | _ => digits 0 s
  end.

Definition inf_tokens : list string :=
  ["inf"; "+inf"; "-inf"; "infinity"; "+infinity"; "-infinity"].

Definition mem (s : string) (l : list string) : bool := existsb (String.eqb s) l.

(** A letter with which no number, infinity, NaN or boolean is written:
    any letter but those of [e], [inf], [infinity], [nan], [true], [false].
    [read_csv] keeps a column as text when a cell holds one. *)
Definition foreign_letter (c : ascii) : bool :=
  let l := Py.lower_char c in
  Py.is_lower l && negb (Py.any_char (Ascii.eqb l) "aefilnrstuy").

(** The white space of the number parser: space, tab, LF, VT, FF, CR. *)
Definition isspace_ascii (c : ascii) : bool :=
  let n := nat_of_ascii c in (n =? 32)%nat || ((9 <=? n)%nat && (n <=? 13)%nat).

Fixpoint skip_space (s : string) : string :=
  match s with
  | EmptyString => EmptyString
  | String c s' => if isspace_ascii c then skip_space s' else s
  end.

(** The digits at the head of a text, and the text after them. *)
Fixpoint span_digits (s : string) : string * string :=
  match s with
  | EmptyString => (EmptyString, EmptyString)
  | String c s' =>
      if Py.is_digit c then (String c (fst (span_digits s')), snd (span_digits s'))
      else (EmptyString, s)
  end.

Definition after_sign (s : string) : string :=
  match s with
  | EmptyString => s
  | String c t => if Ascii.eqb c "-" || Ascii.eqb c "+" then t else s
  end.

(** A text as the number parser scans it: a sign, digits, a point with more
    digits, and the text that is left. *)
Record scanned : Type := mkScanned
  { negative : bool;
    whole : string;
    fraction : option string;
    rest : string }.

Definition scan (s : string) : scanned :=
  let neg := Py.startswith "-" s in
  let w := fst (span_digits (after_sign s)) in
  let r := snd (span_digits (after_sign s)) in
  match r with
  | EmptyString => mkScanned neg w None r
  | String c t =>
      if Ascii.eqb c "."
      then mkScanned neg w (Some (fst (span_digits t))) (snd (span_digits t))
      else mkScanned neg w None r
  end.

Definition value_of (ds : string) : Z :=
  match digits 0 ds with
  | Some z => z
  | None => 0%Z
  end.

Definition signed (neg : bool) (z : Z) : Z := if neg then (- z)%Z else z.

Fixpoint drop_zeros (s : string) : string :=
  match s with
  | EmptyString => EmptyString
  | String c s' => if Ascii.eqb c "0" then drop_zeros s' else s
  end.

Fixpoint rstrip_zeros (s : string) : string :=
  match s with
  | EmptyString => EmptyString
  | String c s' =>
      match rstrip_zeros s' with
      | EmptyString => if Ascii.eqb c "0" then EmptyString else String c EmptyString
      | r => String c r
      end
  end.

Definition or_zero (ds : string) : string :=
  match ds with
  | EmptyString => "0"
  | _ => ds
  end.

(** [repr] of the float64 written with the digits [w] before the point and
    [f] after it, at most 15 digits in all: the same number without the
    zeros that carry no value, and with a digit on either side of the point. *)
Definition float_repr (neg : bool) (w f : string) : string :=
  ((if neg then "-" else "")
   ++ or_zero (drop_zeros w) ++ "." ++ or_zero (rstrip_zeros f))%string.

(** A number below 0.0001 that is not zero: [repr] writes it with an
    exponent. *)
Definition tiny (w f : string) : bool :=
  match drop_zeros w, drop_zeros f with
  | EmptyString, String _ _ => (4 <=? String.length f - String.length (drop_zeros f))%nat
  | _, _ => false
  end.

Inductive reading : Type :=
| Number (v : value)
| NotNumber
| NotModelled.

(** The reading of a text that starts with no white space.  The parser
    needs a digit; it stops at the first character that cannot continue the
    number, and the text is a number only when nothing is left.  Not
    modelled: an exponent, white space after the number, more than 15
    digits (beyond them a float64 need not hold the number exactly), and
    the integer zero with a minus sign (a float64 keeps the sign). *)
Definition read_number (s : string) : reading :=
  let n := scan s in
  let count := (String.length (whole n)
                + match fraction n with
                  | Some f => String.length f
                  | None => 0
                  end)%nat in
  if (count =? 0)%nat then NotNumber
  else
    match rest n with
    | EmptyString =>
        if (15 <? count)%nat then NotModelled
        else
          match fraction n with
          | None =>
              if negative n && (value_of (whole n) =? 0)%Z then NotModelled
              else Number (VInt (signed (negative n) (value_of (whole n))))
          | Some f =>
              if tiny (whole n) f then NotModelled
              else Number (VFloat (signed (negative n) (value_of (whole n)))
                                  (float_repr (negative n) (whole n) f))
          end
    | String c _ =>
        if Ascii.eqb c "e" || Ascii.eqb c "E" then NotModelled
        else if String.eqb (skip_space (rest n)) EmptyString then NotModelled
        else NotNumber
    end.

(** One string of [pd.to_numeric(col, errors='coerce')]: a numeral is read
    as an int64 or, with a point, as a float64; the six spellings of
    infinity, in either case, are numbers; every other text is no number
    and becomes NaN.  Out of scope: what [read_number] does not model, a
    numeral or a spelling of infinity with white space around it, and a
    text with a NUL character. *)
Definition parse_numeric (s : string) : outcome value :=
  if Py.any_char (Ascii.eqb "000") s then OutOfScope
  else if mem (Py.lower (Py.strip s)) inf_tokens then
    if mem (Py.lower s) inf_tokens then Returns (VInf (Py.startswith "-" s))
    else OutOfScope
  else
    match read_number (skip_space s) with
    | NotNumber => Returns VNaN
    | Number v => if String.eqb (skip_space s) s then Returns v else OutOfScope
    | NotModelled => OutOfScope
    end.

(** One element of [pd.to_numeric(col, errors='coerce')]: a string is
    parsed, a number is kept. *)
Definition to_numeric_coerce1 (v : value) : outcome value :=
  match v with
  | VStr s => parse_numeric s
  | _ => Returns v
  end.

Definition is_float (v : value) : bool :=
  match v with
  | VFloat _ _ | VNaN | VInf _ => true
  | _ => false
  end.

(** An int64 as a float64; exact below 2^53. *)
Definition as_float (v : value) : value :=
  match v with
  | VInt z => VFloat z (Py.str_int z ++ ".0")
  | _ => v
  end.

(** [pd.to_numeric(col, errors='coerce')]: the elements are read one by one;
    the result is a float64 column as soon as one of them is a float, NaN
    included, and an int64 column otherwise. *)
Definition to_numeric_coerce (col : list value) : outcome (list value) :=
  nums <- mapM to_numeric_coerce1 col ;;
  Returns (if existsb is_float nums then map as_float nums else nums).

(** [col.fillna(x)] *)
Definition fillna (x : value) (col : list value) : list value :=
  map (fun v => match v with VNaN => x | _ => v end) col.

Definition is_finite (v : value) : bool :=
  match v with
  | VNaN | VInf _ => false
  | _ => true
  end.

(** The integer cast of one finite number. *)
Definition astype_int1 (v : value) : outcome value :=
  match v with
  | VInt z => Returns (VInt z)
  | VFloat i _ => Returns (VInt i)
  | VBool b => Returns (VInt (if b then 1 else 0))
  | _ => OutOfScope
  end.

(** [col.astype(int)] on a numeric column: the cast is refused as a whole
    when some element is NaN or infinite. *)
Definition astype_int (col : list value) : outcome (list value) :=
  if forallb is_finite col then mapM astype_int1 col
  else Raises (IntCastingNaNError "Cannot convert non-finite values (NA or inf) to integer").

(** [col.astype(str)] *)
Definition astype_str (col : list value) : list value :=
  map (fun v => VStr (str v)) col.

(** [col.str.strip()]; an element that is no string gives NaN. *)
Definition str_strip (col : list value) : list value :=
  map (fun v => match v with VStr s => VStr (Py.strip s) | _ => VNaN end) col.

(** [col.str.lower()] *)
Definition str_lower (col : list value) : list value :=
  map (fun v => match v with VStr s => VStr (Py.lower s) | _ => VNaN end) col.

(** [col.str.contains(pat, case=case)], with [regex=True] as is the default.
    The pattern is compiled before any element is looked at. *)
Definition str_contains (pat : string) (case : bool) (col : list value)
  : outcome (list bool) :=
  r <- Re.compile pat ;;
  mapM (fun v =>
          match v with
          | VStr s => Returns (Re.search (negb case) r s)
          | _ => OutOfScope
          end) col.

(** [mask.any()] *)
Definition any (mask : list bool) : bool := existsb (fun b => b) mask.

(** [df[mask]] for a boolean mask as long as the frame. *)
Definition select (df : DataFrame) (mask : list bool) : DataFrame :=
  mkDataFrame (columns df)
    (map fst (filter snd (combine (data df) mask))).

(** [col == s] *)
Definition eq_str (col : list value) (s : string) : list bool :=
  map (fun v => match v with VStr t => String.eqb t s | _ => false end) col.

(** The columns below are columns of strings in a cleaned frame; other
    element types are out of scope for the three aggregations. *)
Definition strings (col : list value) : outcome (list string) :=
  mapM (fun v => match v with VStr s => Returns s | _ => OutOfScope end) col.

Definition ints (col : list value) : outcome (list Z) :=
  mapM (fun v => match v with VInt z => Returns z | _ => OutOfScope end) col.

(** The distinct values, in order of first appearance. *)
Fixpoint unique (l : list string) : list string :=
  match l with
  | [] => []
  | x :: xs => x :: filter (fun y => negb (String.eqb x y)) (unique xs)
  end.

(** [col.nunique()] *)
Definition nunique (col : list value) : outcome nat :=
  l <- strings col ;; Returns (List.length (unique l)).

(** An integer as 64 bits hold it, in two's complement. *)
Definition wrap_int64 (z : Z) : Z := ((z + 2 ^ 63) mod 2 ^ 64 - 2 ^ 63)%Z.

(** [col.sum()] on an int64 column: the sum is an int64 too, and wraps. *)
Definition sum (col : list value) : outcome Z :=
  l <- ints col ;; Returns (wrap_int64 (fold_right Z.add 0%Z l)).

Definition count (x : string) (l : list string) : nat :=
  List.length (filter (String.eqb x) l).

Fixpoint insert_desc (x : string * nat) (l : list (string * nat)) : list (string * nat) :=
  match l with
  | [] => [x]
  | y :: l' => if (snd x <? snd y)%nat then y :: insert_desc x l' else x :: l
  end.

(** Descending by count; equal counts keep their order. *)
Definition sort_desc (l : list (string * nat)) : list (string * nat) :=
  fold_right insert_desc [] l.

(** [col.value_counts()]: one (label, count) pair per distinct value, the
    largest count first.  pandas does not fix the order of equal counts;
    here they stay in order of first appearance. *)
Definition value_counts (col : list value) : outcome (list (string * nat)) :=
  l <- strings col ;;
  Returns (sort_desc (map (fun x => (x, count x l)) (unique l))).

(** [counts.nlargest(n)], with [keep='first']. *)
Definition nlargest (n : nat) (counts : list (string * nat)) : list (string * nat) :=
  firstn n (sort_desc counts).

End Pd.

(* ================================================================== *)
(** ** Reading comma-separated text

    [pd.read_csv] with its defaults, for the texts it reads without any of
    its repairs: every record has as many fields as the header, the header
    names are non-empty and distinct, and every column is either all
    missing, all int64 literals, or holds at least one cell that is plainly
    text.  Other texts are out of scope. *)

Module Csv.

Import Pd.

Inductive tok_state : Type := START_FIELD | IN_FIELD | IN_QUOTED | QUOTE_IN_QUOTED.

Definition field_of (cur : list ascii) : string := string_of_list_ascii (rev cur).

Definition cons_row (r : list string) (m : outcome (list (list string)))
  : outcome (list (list string)) :=
  rs <- m ;; Returns (r :: rs).

(** [cur] holds the characters of the field being read, last one first, and
    [fields] the fields of the record being read, last one first.  A line
    without any character is skipped.  Out of scope: a carriage return, a
    line that starts with a space or a tab (pandas skips it when it holds
    nothing else), and a quoted field left open at the end of the text
    (pandas raises, with a message that names the row). *)
Fixpoint tokenize (st : tok_state) (cur : list ascii) (fields : list string)
                  (s : string) : outcome (list (list string)) :=
  match s with
  | EmptyString =>
      match st with
      | IN_QUOTED => OutOfScope
      | START_FIELD =>
          match fields with
          | [] => Returns []
          | _ => Returns [rev (EmptyString :: fields)]
          end
      | _ => Returns [rev (field_of cur :: fields)]
      end
  | String c s' =>
      if Ascii.eqb c "013" then OutOfScope else
      match st with
      | START_FIELD =>
          if Ascii.eqb c "010" then
            match fields with
            | [] => tokenize START_FIELD [] [] s'
            | _ => cons_row (rev (EmptyString :: fields)) (tokenize START_FIELD [] [] s')
            end
          else if (Ascii.eqb c " " || Ascii.eqb c "009")
                  && match fields with [] => true | _ => false end
          then OutOfScope
          else if Ascii.eqb c "," then tokenize START_FIELD [] (EmptyString :: fields) s'
          else if Ascii.eqb c "034" then tokenize IN_QUOTED [] fields s'
          else tokenize IN_FIELD [c] fields s'
      | IN_FIELD =>
          if Ascii.eqb c "010" then
            cons_row (rev (field_of cur :: fields)) (tokenize START_FIELD [] [] s')
          else if Ascii.eqb c "," then tokenize START_FIELD [] (field_of cur :: fields) s'
          else tokenize IN_FIELD (c :: cur) fields s'
      | IN_QUOTED =>
          if Ascii.eqb c "034" then tokenize QUOTE_IN_QUOTED cur fields s'
          else tokenize IN_QUOTED (c :: cur) fields s'
      | QUOTE_IN_QUOTED =>
          if Ascii.eqb c "034" then tokenize IN_QUOTED (c :: cur) fields s'
          else if Ascii.eqb c "010" then
            cons_row (rev (field_of cur :: fields)) (tokenize START_FIELD [] [] s')
          else if Ascii.eqb c "," then tokenize START_FIELD [] (field_of cur :: fields) s'
          else tokenize IN_FIELD (c :: cur) fields s'
      end
  end.

(** The cells read as missing. *)
Definition na_values : list string :=
  [""; "#N/A"; "#N/A N/A"; "#NA"; "-1.#IND"; "-1.#QNAN"; "-NaN"; "-nan";
   "1.#IND"; "1.#QNAN"; "<NA>"; "N/A"; "NA"; "NULL"; "NaN"; "None"; "n/a";
   "nan"; "null"].

Definition is_na (c : string) : bool := mem c na_values.

Definition int64_literal (c : string) : option Z :=
  match int_literal c with
  | Some z => if ((- 2 ^ 63 <=? z) && (z <? 2 ^ 63))%Z then Some z else None
  | None => None
  end.

Fixpoint all_int64 (cells : list string) : option (list Z) :=
  match cells with
  | [] => Some []
  | c :: cs =>
      match int64_literal c, all_int64 cs with
      | Some z, Some zs => Some (z :: zs)
      | _, _ => None
      end
  end.

(** A cell that no numeric or boolean column can hold. *)
Definition plainly_text (c : string) : bool :=
  negb (is_na c) && Py.any_char foreign_letter c.

Definition infer_column (cells : list string) : outcome (list value) :=
  if forallb is_na cells then Returns (map (fun _ => VNaN) cells)
  else match all_int64 cells with
       | Some zs => Returns (map VInt zs)
       | None =>
           if existsb plainly_text cells
           then Returns (map (fun c => if is_na c then VNaN else VStr c) cells)
           else OutOfScope
       end.

Definition header_ok (header : list string) : bool :=
  forallb Py.truthy header && is_unique header.

(** [pd.read_csv(io.StringIO(text))] *)
Definition read_csv (text : string) : outcome DataFrame :=
  records <- tokenize START_FIELD [] [] text ;;
  match records with
  | [] => Raises (EmptyDataError "No columns to parse from file")
  | header :: body =>
      let n := List.length header in
      if header_ok header && forallb (fun r => (List.length r =? n)%nat) body then
        cols <- mapM infer_column
                  (map (fun i => map (fun r => nth i r EmptyString) body) (seq 0 n)) ;;
        Returns (mkDataFrame header
                   (map (fun j => map (fun col => nth j col VNaN) cols)
                        (seq 0 (List.length body))))
      else OutOfScope
  end.

End Csv.

(* ================================================================== *)
(** ** app.py *)

Definition nl : string := String "010" EmptyString.

(** The double quote character. *)
Definition dq : string := String "034" EmptyString.

(** The text between the triple quotes: it starts with a line break and
    every line ends with one. *)
Definition MOCK_CSV_DATA : string :=
  nl ++ String.concat nl
    ["District,College,College Gender,College Type,Category,Action Taken for the Month,Action,Name,Designation,Scale,Salary Deducted,Reason,Action By,Remarks,Action for Month";
     ("Bannu," ++ dq ++ "01. Govt Postgraduate College, Bannu" ++ dq ++ ",Male,General,Employee,October,Explanation,Asmat ullah,Naib Qasid,3,12000,Habitual Absentiesm,Principal,,October")%string;
     ("Bannu," ++ dq ++ "01. Govt Postgraduate College, Bannu" ++ dq ++ ",Male,General,Employee,October,Explanation,Ayaz Ghori,Mali,3,10000,Habitual Absentiesm,Principal,,October")%string;
     ("Bannu," ++ dq ++ "01. Govt Postgraduate College, Bannu" ++ dq ++ ",Male,General,Employee,October,Explanation,Mohib ur Rehman,Naib Qasid,3,0,Proxy Attendance,Principal,,October")%string;
     ("Bannu," ++ dq ++ "01. Govt Postgraduate College, Bannu" ++ dq ++ ",Male,General,Employee,October,Explanation,Zohaib Khan,Lecturer,17,0,Proxy Attendance,Principal,,October")%string;
     ("Bannu," ++ dq ++ "02. Govt Degree College No. 2, Bannu" ++ dq ++ ",Male,General,Employee,October,Warning,Faqir Khan Assoc Prof,Mali,3,0,Habitual Absentiesm,Principal,,October")%string;
     ("Bannu," ++ dq ++ "02. Govt Degree College No. 2, Bannu" ++ dq ++ ",Male,General,Employee,October,Warning,Shams ud Din,Naib Qasid,3,0,Habitual Absentiesm,Principal,,October")%string;
     ("Bannu," ++ dq ++ "02. Govt Degree College No. 2, Bannu" ++ dq ++ ",Male,General,Employee,October,Warning,Saad Ullah Assoc Prof,Lecturer,17,0,Proxy Attendance,Principal,,October")%string;
     ("Bannu," ++ dq ++ "02. Govt Degree College No. 2, Bannu" ++ dq ++ ",Male,General,Employee,October,Warning,Nazir Ahmad Shah,Naib Qasid,3,0,Proxy Attendance,Principal,,October")%string;
     ("Bannu," ++ dq ++ "02. Govt Degree College No. 2, Bannu" ++ dq ++ ",Male,General,Employee,October,Warning,Hazrat Ali Khan,Mali,3,0,Habitual Absentiesm,Principal,,October")%string;
     ("Bannu," ++ dq ++ "09. Govt Degree College, Kakki, Bannu" ++ dq ++ ",Male,General,Employee,October,Warning,Farid Zia A/P English,Lecturer,17,0,Habitual Absentiesm,Principal,,October")%string;
     ("NWTD," ++ dq ++ "18. Govt Girls Degree College, Miran Shah, NWTD" ++ dq ++ ",Female,General,Employee,October,Inquiry,Safi Ullah,Naib Qasid,3,0,Habitual Absentiesm,Principal,,October")%string;
     ("NWTD," ++ dq ++ "18. Govt Girls Degree College, Miran Shah, NWTD" ++ dq ++ ",Female,General,Employee,October,Inquiry,Usra Shahid Lab attendent,Mali,3,0,Proxy Attendance,Principal,,October")%string;
     ("D.I. Khan," ++ dq ++ "28. Govt Degree College, Paniala, D.I. Khan" ++ dq ++ ",Male,General,Employee,October,Warning,Muhammad Farasat Ullah,Naib Qasid,3,0,Proxy Attendance,Principal,,October")%string;
     ("Kohat," ++ dq ++ "61. Govt Postgraduate College, Kohat" ++ dq ++ ",Male,General,Employee,October,Warning,Sadiq Noor,Naib Qasid,3,0,Habitual Absentiesm,Principal,,October")%string;
     ("Lakki Marwat," ++ dq ++ "85. Govt Degree College, Serai Naurang, Lakki Marwat" ++ dq ++ ",Male,General,Employee,October,Warning,Attiq Ullah Shah,Lecturer,17,0,Habitual Absentiesm,Principal,,October")%string] ++ nl.

(** What the page shows through [st.info], [st.error] and [st.warning]. *)
Inductive message : Type :=
| info (body : string)
| error (body : string)
| warning (body : string).

Definition COLUMNS_TO_KEEP : list string :=
  ["District"; "College"; "Gender"; "Type"; "Category"; "Action"; "Name";
   "Designation"; "Salary"; "Reason"].

(** [df[col] = df[col].astype(str).str.strip()] *)
Definition clean_string_field (df : outcome Pd.DataFrame) (col : string)
  : outcome Pd.DataFrame :=
  df <- df ;;
  c <- Pd.getitem df col ;;
  Pd.setitem df col (Pd.str_strip (Pd.astype_str c)).

(** Line 45 and lines 48 to 52: the labels stripped, then renamed. *)
Definition standardize (df : Pd.DataFrame) : Pd.DataFrame :=
  let df := Pd.mkDataFrame (map Py.strip (Pd.columns df)) (Pd.data df) in
  Pd.rename [("College Gender", "Gender");
             ("College Type", "Type");
             ("Salary Deducted", "Salary")] df.

(** Line 59: [pd.to_numeric(col, errors='coerce').fillna(0).astype(int)] *)
Definition coerce_salary (col : list Pd.value) : outcome (list Pd.value) :=
  numbers <- Pd.to_numeric_coerce col ;;
  Pd.astype_int (Pd.fillna (Pd.VInt 0) numbers).

(** Lines 44 to 65 of [load_data]: the cleaning of the frame read. *)
Definition clean (df : Pd.DataFrame) : outcome Pd.DataFrame :=
  let df := standardize df in
  df <- Pd.reindex COLUMNS_TO_KEEP (Pd.VStr "") df ;;
  salary <- Pd.getitem df "Salary" ;;
  salary <- coerce_salary salary ;;
  df <- Pd.setitem df "Salary" salary ;;
  fold_left clean_string_field
    ["District"; "College"; "Category"; "Action"; "Reason"] (Returns df).

(** [read_csv_url] is what [pd.read_csv(url)] does in the run at hand: the
    frame it reads, or the exception (a subclass of [Exception]) it raises.
    The result pairs the messages shown with the outcome of the call. *)
Definition load_data (read_csv_url : string -> outcome Pd.DataFrame) (url : string)
  : list message * outcome Pd.DataFrame :=
  if negb (Py.truthy url) then
    ([info "Showing sample data. Enter your Google Sheet 'Publish to Web' CSV link above to load live data."],
     df <- Csv.read_csv MOCK_CSV_DATA ;; clean df)
  else
    match read_csv_url url with
    | Raises e =>
        ([error ("Error loading data from URL. Please check the link format. Details: "
                 ++ exn_str e)%string],
         Returns Pd.DataFrame_empty)
    | Returns df => ([], clean df)
    | OutOfScope => ([], OutOfScope)
    end.

(** A dict with string keys, in insertion order. *)
Definition dict : Type := list (string * Z).

(** [d.get(key, default)] *)
Definition get (d : dict) (key : string) (default : Z) : Z :=
  match find (fun kv => String.eqb key (fst kv)) d with
  | Some kv => snd kv
  | None => default
  end.

(** [df[df[col].str.contains(pat, case=False)].shape[0]] *)
Definition count_contains (df : Pd.DataFrame) (col pat : string) : outcome Z :=
  c <- Pd.getitem df col ;;
  mask <- Pd.str_contains pat false c ;;
  Returns (Z.of_nat (List.length (Pd.data (Pd.select df mask)))).

Definition calculate_kpis (df : Pd.DataFrame) : outcome dict :=
  if Pd.empty df then Returns []
  else
    college <- Pd.getitem df "College" ;;
    unique_colleges <- Pd.nunique college ;;
    salary <- Pd.getitem df "Salary" ;;
    total_salary <- Pd.sum salary ;;
    category <- Pd.getitem df "Category" ;;
    let employee := Pd.select df (Pd.eq_str category "Employee") in
    warnings <- count_contains df "Action" "Warning" ;;
    explanations <- count_contains df "Action" "Explanation" ;;
    inquiries <- count_contains df "Action" "Inquiry" ;;
    Returns [("Total Actions", Z.of_nat (List.length (Pd.data df)));
             ("Unique Colleges", Z.of_nat unique_colleges);
             ("Total Salary Deducted", total_salary);
             ("Employee Issues", Z.of_nat (List.length (Pd.data employee)));
             ("Warnings", warnings);
             ("Explanations", explanations);
             ("Inquiries", inquiries)].

(** [create_charts], line 93: [df['Action'].value_counts()] *)
Definition action_counts (df : Pd.DataFrame) : outcome (list (string * nat)) :=
  c <- Pd.getitem df "Action" ;; Pd.value_counts c.

(** [create_charts], line 112: [df['Reason'].value_counts().nlargest(5)] *)
Definition reason_counts (df : Pd.DataFrame) : outcome (list (string * nat)) :=
  c <- Pd.getitem df "Reason" ;;
  counts <- Pd.value_counts c ;;
  Returns (Pd.nlargest 5 counts).

(** The two series [create_charts] draws; nothing for an empty frame. *)
Definition create_charts (df : Pd.DataFrame)
  : outcome (option (list (string * nat) * list (string * nat))) :=
  if Pd.empty df then Returns None
  else
    a <- action_counts df ;;
    r <- reason_counts df ;;
    Returns (Some (a, r)).

(** [main], lines 154 to 156: a link was given and nothing was loaded, so
    [main] returns before it draws anything. *)
Definition main_stops (df : Pd.DataFrame) (sheet_url : string) : bool :=
  Pd.empty df && Py.truthy sheet_url.

(** The test applied to each row by the search box:
    [row.astype(str).str.lower().str.contains(search_lower).any()] *)
Definition row_matches (search_lower : string) (row : list Pd.value) : outcome bool :=
  m <- Pd.str_contains search_lower true (Pd.str_lower (Pd.astype_str row)) ;;
  Returns (Pd.any m).

(** [main], lines 196 to 200.  [main] reaches them with a frame that has rows
    (see [main_stops]); [df.apply] on a frame with an empty axis does not
    call the function row by row and is out of scope. *)
Definition filtered_df (df : Pd.DataFrame) (search_term : string) : outcome Pd.DataFrame :=
  if Py.truthy search_term then
    let search_lower := Py.lower search_term in
    if Pd.empty df then OutOfScope
    else
      mask <- mapM (row_matches search_lower) (Pd.data df) ;;
      Returns (Pd.select df mask)
  else Returns df.

(* ================================================================== *)
(** ** The vocabulary of the properties *)

(** The labels of the frame once stripped and renamed. *)
Definition headers (df : Pd.DataFrame) : list string := Pd.columns (standardize df).

(** The cell of row [r] under label [c], or the fill value of the reindexing
    when no column carries that label. *)
Definition cell (hdr : list string) (c : string) (r : list Pd.value) : Pd.value :=
  match Pd.get_loc c hdr with
  | Some i => nth i r Pd.VNaN
  | None => Pd.VStr ""
  end.

(** What line 59 makes of one cell. *)
Definition salary_cell (v : Pd.value) : outcome Z :=
  w <- Pd.to_numeric_coerce1 v ;;
  match w with
  | Pd.VInt z => Returns z
  | Pd.VFloat i _ => Returns i
  | Pd.VBool b => Returns (if b then 1 else 0)%Z
  | Pd.VNaN => Returns 0%Z
  | Pd.VInf _ =>
      Raises (IntCastingNaNError "Cannot convert non-finite values (NA or inf) to integer")
  | Pd.VStr _ => OutOfScope
  end.

(** What line 63 makes of one cell. *)
Definition text (v : Pd.value) : Pd.value := Pd.VStr (Py.strip (Pd.str v)).

(** The cleaned form of row [r], given its salary. *)
Definition cleaned_row (hdr : list string) (r : list Pd.value) (salary : Z) : list Pd.value :=
  [text (cell hdr "District" r); text (cell hdr "College" r);
   cell hdr "Gender" r; cell hdr "Type" r;
   text (cell hdr "Category" r); text (cell hdr "Action" r);
   cell hdr "Name" r; cell hdr "Designation" r;
   Pd.VInt salary; text (cell hdr "Reason" r)].

(** The shape of a record of a cleaned frame: five strings, an integer
    salary, and four cells as they were read. *)
Definition is_record (r : list Pd.value) : bool :=
  match r with
  | [Pd.VStr _; Pd.VStr _; _; _; Pd.VStr _; Pd.VStr _; _; _; Pd.VInt _; Pd.VStr _] => true
  | _ => false
  end.

Definition cleaned (df : Pd.DataFrame) : Prop :=
  Pd.columns df = COLUMNS_TO_KEEP /\ forallb is_record (Pd.data df) = true.

(** The field of a record under one of the ten labels, and its string form. *)
Definition field (label : string) (r : list Pd.value) : Pd.value :=
  cell COLUMNS_TO_KEEP label r.

Definition field_str (label : string) (r : list Pd.value) : string :=
  Pd.str (field label r).

Definition salary_of (r : list Pd.value) : Z :=
  match field "Salary" r with
  | Pd.VInt z => z
  | _ => 0%Z
  end.

(** Literal containment without regard to case, as the specification words
    it: the lower-cased term occurs in the lower-cased string. *)
Definition contains_nocase (term s : string) : bool :=
  Py.contains (Py.lower term) (Py.lower s).

(** The filter as the specification words it: all records for the empty
    term, else the records one of whose fields contains the term. *)
Definition literal_filter (df : Pd.DataFrame) (term : string) : Pd.DataFrame :=
  if Py.truthy term then
    Pd.mkDataFrame (Pd.columns df)
      (filter (fun r => existsb (fun v => contains_nocase term (Pd.str v)) r) (Pd.data df))
  else df.

(** The pattern that matches the characters of [s] one by one. *)
Fixpoint literal (s : string) : Re.regex :=
  match s with
  | EmptyString => []
  | String c s' => Re.Lit c :: literal s'
  end.

(** The number of records whose field [label] satisfies [p]. *)
Definition count_where (label : string) (p : string -> bool) (df : Pd.DataFrame) : Z :=
  Z.of_nat (List.length (filter (fun r => p (field_str label r)) (Pd.data df))).

(** The number of records whose field [label] is exactly [x]. *)
Definition records_with (label x : string) (df : Pd.DataFrame) : nat :=
  List.length (filter (fun r => String.eqb (field_str label r) x) (Pd.data df)).

(** Each count is at least every count after it. *)
Definition descending (l : list (string * nat)) : Prop :=
  StronglySorted (fun a b => snd b <= snd a) l.

(** The five columns of strings, and where they stand. *)
Definition text_columns : list (string * nat) :=
  [("District", 0); ("College", 1); ("Category", 4); ("Action", 5); ("Reason", 9)].

(** ASCII text, where the models of [str.lower], [str.strip] and
    [re.IGNORECASE] are those of Python: the labels of a frame, the string
    forms of all its cells, and those of the cells under one label. *)
Definition ascii_labels (df : Pd.DataFrame) : bool :=
  forallb Py.isascii (Pd.columns df).

Definition ascii_cells (df : Pd.DataFrame) : bool :=
  forallb (forallb (fun v => Py.isascii (Pd.str v))) (Pd.data df).

Definition ascii_column (hdr : list string) (c : string) (rows : list (list Pd.value))
  : bool :=
  forallb (fun r => Py.isascii (Pd.str (cell hdr c r))) rows.

(** A column as [read_csv] types it: int64, float64, bool, or object, whose
    elements are strings and NaN. *)
Definition read_column (col : list Pd.value) : bool :=
  forallb (fun v => match v with Pd.VInt _ => true | _ => false end) col
  || forallb Pd.is_float col
  || forallb (fun v => match v with Pd.VBool _ => true | _ => false end) col
  || forallb (fun v => match v with Pd.VStr _ | Pd.VNaN => true | _ => false end) col.

(** A text without a NUL character that is no spelling of infinity. *)
Definition ordinary (s : string) : bool :=
  negb (Py.any_char (Ascii.eqb "000") s)
  && negb (Pd.mem (Py.lower (Py.strip s)) Pd.inf_tokens).

(** A text that does not start as a number does: its first character is no
    digit, sign, point or white space. *)
Definition unlike_number (s : string) : bool :=
  match s with
  | EmptyString => true
  | String c _ =>
      negb (Py.is_digit c || Ascii.eqb c "-" || Ascii.eqb c "+" || Ascii.eqb c "."
            || Pd.isspace_ascii c)
  end.

(** A text of digits only, at least one. *)
Definition all_digits (s : string) : bool :=
  Py.truthy s && negb (Py.any_char (fun c => negb (Py.is_digit c)) s).

(** A character at which a number ends for good: no digit, point, exponent
    letter or white space. *)
Definition ends_number (c : ascii) : bool :=
  negb (Py.is_digit c || Ascii.eqb c "." || Ascii.eqb c "e" || Ascii.eqb c "E"
        || Pd.isspace_ascii c).

(** Cells of a column of strings with the integer that line 59 is to give
    them: an empty cell and a text that is no number give 0, an integer
    numeral of at most 15 digits its value. *)
Inductive normalizes : Pd.value -> Z -> Prop :=
| empty_cell : normalizes Pd.VNaN 0
| no_number (s : string) :
    ordinary s = true -> unlike_number s = true -> normalizes (Pd.VStr s) 0
| broken_number (n : string) (c : ascii) (t : string) :
    all_digits n = true -> ends_number c = true ->
    ordinary (n ++ String c t) = true ->
    normalizes (Pd.VStr (n ++ String c t)) 0
| integer_numeral (z : Z) :
    (String.length (Py.str_int (Z.abs z)) <= 15)%nat ->
    normalizes (Pd.VStr (Py.str_int z)) z.

(** An infinite number. *)
Definition is_inf (v : Pd.value) : bool :=
  match v with
  | Pd.VInf _ => true
  | _ => false
  end.

(** The integer that line 59 makes of a number that is not infinite: 0 for
    NaN, the integer cast otherwise. *)
Definition integer_of (v : Pd.value) : Pd.value :=
  match v with
  | Pd.VNaN => Pd.VInt 0
  | Pd.VFloat i _ => Pd.VInt i
  | Pd.VBool b => Pd.VInt (if b then 1 else 0)
  | _ => v
  end.

(** Two labels that differ by white space only, as [read_csv] passes them on. *)
Definition padded_twice : Pd.DataFrame :=
  Pd.mkDataFrame [" District"; "District"; "Salary Deducted"]
    [[Pd.VStr "Bannu"; Pd.VStr "Kohat"; Pd.VInt 0]].

(** Padded, extra and missing labels. *)
Definition ragged_labels : Pd.DataFrame :=
  Pd.mkDataFrame ["  Name "; "Salary Deducted  "; "Remarks"; " College Gender"]
    [[Pd.VStr "Ali"; Pd.VStr ""; Pd.VNaN; Pd.VStr "Male"];
     [Pd.VStr "Noor"; Pd.VStr "12000"; Pd.VNaN; Pd.VStr "Female"];
     [Pd.VStr "Zia"; Pd.VStr "abc"; Pd.VNaN; Pd.VStr "Male"]].

(** A salary column that is text, one cell of which reads as infinity. *)
Definition infinite_salary : Pd.DataFrame :=
  Pd.mkDataFrame ["Name"; "Salary Deducted"]
    [[Pd.VStr "Ali"; Pd.VStr "abc"];
     [Pd.VStr "Noor"; Pd.VStr "inf"]].

(** A negative salary, and a name left empty. *)
Definition negative_and_missing : Pd.DataFrame :=
  Pd.mkDataFrame ["Name"; "Salary Deducted"]
    [[Pd.VStr "Ali"; Pd.VInt (-5)];
     [Pd.VNaN; Pd.VInt 100]].

(** A frame of one cleaned record, none of whose fields holds a dot. *)
Definition one_record : Pd.DataFrame :=
  Pd.mkDataFrame COLUMNS_TO_KEEP
    [[Pd.VStr "Bannu"; Pd.VStr "Govt College"; Pd.VStr "Male"; Pd.VStr "General";
      Pd.VStr "Employee"; Pd.VStr "Final Warning"; Pd.VStr "Ali"; Pd.VStr "Mali";
      Pd.VInt 0; Pd.VStr "Late"]].

(** A reader for runs without a network. *)
Definition offline (url : string) : outcome Pd.DataFrame :=
  Raises (OtherException "<urlopen error [Errno -2] Name or service not known>").

(** The frame that [load_data] returns when no link is given: the cleaned
    form of the fifteen rows of [MOCK_CSV_DATA]. *)
Definition fallback : outcome Pd.DataFrame := snd (load_data offline "").

Definition fallback_frame : Pd.DataFrame :=
  Eval vm_compute in
    match fallback with
    | Returns df => df
    | _ => Pd.DataFrame_empty
    end.

(* ================================================================== *)
(** ** [main]: what a run puts on the page

    A run of the script is modelled by the elements it shows, in order, and
    by how it ends.  The two text inputs are arguments.  The static parts
    (page configuration, markdown, headers, column layout) and the styling
    of the table are left out. *)

(** [format(z, ',')]: the digits in groups of three, counted from the right.
    [group3] works on the digits written last one first. *)
Fixpoint group3 (l : list ascii) : list ascii :=
  match l with
  | a :: b :: c :: rest =>
      match rest with
      | [] => l
      | _ => a :: b :: c :: ","%char :: group3 rest
      end
  | _ => l
  end.

Definition format_thousands (z : Z) : string :=
  let grouped :=
    string_of_list_ascii
      (rev (group3 (rev (list_ascii_of_string (Py.str_int (Z.abs z)))))) in
  if (z <? 0)%Z then String "-" grouped else grouped.

(** Line 169: [f"PKR {kpis.get('Total Salary Deducted', 0):,}"] *)
Definition salary_str (kpis : dict) : string :=
  ("PKR " ++ format_thousands (get kpis "Total Salary Deducted" 0))%string.

(** The value handed to [st.metric]. *)
Inductive metric_value : Type :=
| Number (z : Z)
| Text (s : string).

Inductive element : Type :=
| Shown (m : message)
| Metric (label : string) (value : metric_value)
| PieChart (title : string) (series : list (string * nat))
| BarChart (title : string) (series : list (string * nat))
| DataTable (df : Pd.DataFrame).

(** The elements shown so far, and the outcome of the computation. *)
Definition page (A : Type) : Type := (list element * outcome A)%type.

Definition show (e : element) : page unit := ([e], Returns tt).

Definition call {A} (o : outcome A) : page A := ([], o).

Definition and_then {A B} (m : page A) (k : A -> page B) : page B :=
  match snd m with
  | Returns a => (fst m ++ fst (k a), snd (k a))
  | Raises e => (fst m, Raises e)
  | OutOfScope => (fst m, OutOfScope)
  end.

Notation "x <~ m ;; k" := (and_then m (fun x => k))
  (at level 61, m at next level, right associativity).

(** Lines 171 to 179: the seven calls of [st.metric]. *)
Definition show_metrics (kpis : dict) : list element :=
  [Metric "Total Actions" (Number (get kpis "Total Actions" 0));
   Metric "Unique Colleges" (Number (get kpis "Unique Colleges" 0));
   Metric "Total Salary Deducted" (Text (salary_str kpis));
   Metric "Employee Issues" (Number (get kpis "Employee Issues" 0));
   Metric "Warnings Issued" (Number (get kpis "Warnings" 0));
   Metric "Explanations Called" (Number (get kpis "Explanations" 0));
   Metric "Inquiries Initiated" (Number (get kpis "Inquiries" 0))].

(** [create_charts] as it draws: the pie chart is on the page before the
    counts of the bar chart are computed. *)
Definition show_charts (df : Pd.DataFrame) : page unit :=
  if Pd.empty df then ([], Returns tt)
  else
    a <~ call (action_counts df) ;;
    _ <~ show (PieChart "Distribution of Action Types" a) ;;
    r <~ call (reason_counts df) ;;
    show (BarChart "Top 5 Reasons for Disciplinary Action" r).

(** [df[labels]] for a list of labels: the columns so labelled, in the order
    of the list; a label that the frame lacks raises [KeyError] (whose text
    is not modelled beyond that label). *)
Definition getitem_list (df : Pd.DataFrame) (labels : list string) : outcome Pd.DataFrame :=
  locs <- mapM (fun c =>
                  match Pd.get_loc c (Pd.columns df) with
                  | None => Raises (KeyError c)
                  | Some i =>
                      if existsb (String.eqb c) (skipn (S i) (Pd.columns df))
                      then OutOfScope else Returns i
                  end) labels ;;
  Returns (Pd.mkDataFrame labels
             (map (fun r => map (fun i => nth i r Pd.VNaN) locs) (Pd.data df))).

(** The columns of the table, lines 204 and 209. *)
Definition TABLE_COLUMNS : list string :=
  ["District"; "College"; "Name"; "Designation"; "Action"; "Reason"; "Salary"].

(** Lines 215 to 218. *)
Definition show_empty_warning (filtered : Pd.DataFrame) (search_term : string) : page unit :=
  if Pd.empty filtered && Py.truthy search_term then
    show (Shown (warning ("No records found matching '" ++ search_term ++ "'.")%string))
  else if Pd.empty filtered then
    show (Shown (warning "The data frame is empty."))
  else ([], Returns tt).

Definition main (read_csv_url : string -> outcome Pd.DataFrame)
           (sheet_url search_term : string) : page unit :=
  let loaded := load_data read_csv_url sheet_url in
  df <~ (map Shown (fst loaded), snd loaded) ;;
  if main_stops df sheet_url then ([], Returns tt)
  else
    kpis <~ call (calculate_kpis df) ;;
    _ <~ (show_metrics kpis, Returns tt) ;;
    _ <~ show_charts df ;;
    filtered <~ call (filtered_df df search_term) ;;
    table <~ call (getitem_list filtered TABLE_COLUMNS) ;;
    _ <~ show (DataTable table) ;;
    show_empty_warning filtered search_term.

(* ================================================================== *)
(** ** More vocabulary *)

(** [l] is [l'] with some elements left out, the others in their order. *)
Inductive subsequence {A : Type} : list A -> list A -> Prop :=
| sub_nil : subsequence [] []
| sub_keep (x : A) (l l' : list A) : subsequence l l' -> subsequence (x :: l) (x :: l')
| sub_drop (x : A) (l l' : list A) : subsequence l l' -> subsequence l (x :: l').

(** The sum of the counts of a series. *)
Definition total (series : list (string * nat)) : nat :=
  fold_right (fun g acc => snd g + acc) 0 series.

(** The pairs of labels that line 48 maps to one label. *)
Definition merged_labels : list (string * string) :=
  [("College Gender", "Gender"); ("College Type", "Type"); ("Salary Deducted", "Salary")].

(** The four columns that the cleaning keeps as they were read. *)
Definition kept_columns : list string := ["Gender"; "Type"; "Name"; "Designation"].

(** The elements that are on the page when the search box is reached. *)
Definition before_table (read_csv_url : string -> outcome Pd.DataFrame)
           (sheet_url : string) (df : Pd.DataFrame) : list element :=
  map Shown (fst (load_data read_csv_url sheet_url))
  ++ show_metrics
       [("Total Actions", Z.of_nat (List.length (Pd.data df)));
        ("Unique Colleges",
         Z.of_nat (List.length (Pd.unique (map (field_str "College") (Pd.data df)))));
        ("Total Salary Deducted",
         Pd.wrap_int64 (fold_right Z.add 0%Z (map salary_of (Pd.data df))));
        ("Employee Issues", Z.of_nat (records_with "Category" "Employee" df));
        ("Warnings", count_where "Action" (contains_nocase "Warning") df);
        ("Explanations", count_where "Action" (contains_nocase "Explanation") df);
        ("Inquiries", count_where "Action" (contains_nocase "Inquiry") df)]
  ++ [PieChart "Distribution of Action Types"
        (Pd.sort_desc
           (map (fun x => (x, Pd.count x (map (field_str "Action") (Pd.data df))))
                (Pd.unique (map (field_str "Action") (Pd.data df)))));
      BarChart "Top 5 Reasons for Disciplinary Action"
        (firstn 5
           (Pd.sort_desc (Pd.sort_desc
              (map (fun x => (x, Pd.count x (map (field_str "Reason") (Pd.data df))))
                   (Pd.unique (map (field_str "Reason") (Pd.data df)))))))].

(** A text without its commas. *)
Definition without_commas (s : string) : string :=
  string_of_list_ascii
    (filter (fun c => negb (Ascii.eqb c ",")) (list_ascii_of_string s)).

(** A sheet with a header and no rows, and a reader that finds it. *)
Definition header_only : Pd.DataFrame :=
  Pd.mkDataFrame ["District"; "College"; "Salary Deducted"] [].

Definition reads (df : Pd.DataFrame) (url : string) : outcome Pd.DataFrame := Returns df.

(** A label and a cell with white space around them. *)
Definition padded_district : Pd.DataFrame :=
  Pd.mkDataFrame [" District "] [[Pd.VStr "  Lakki Marwat  "]].

(** A sheet that has the Gender column under both of its names. *)
Definition gender_twice : Pd.DataFrame :=
  Pd.mkDataFrame ["Name"; "Gender"; " College Gender"]
    [[Pd.VStr "Ali"; Pd.VStr "M"; Pd.VStr "Male"]].

(* ================================================================== *)
(** ** The models at work *)

Example lower_mixed : Py.lower "Final WARNING (x2)" = "final warning (x2)".
Proof. reflexivity. Qed.

Example strip_padded : Py.strip "  Salary Deducted  " = "Salary Deducted".
Proof. reflexivity. Qed.

Example str_int_signs :
  Py.str_int (-5) = "-5" /\ Py.str_int 0 = "0" /\ Py.str_int 12000 = "12000".
Proof. repeat split; reflexivity. Qed.

Example contains_inner :
  Py.contains "proxy" "a proxy attendance" = true
  /\ Py.contains "proxy" "prox y" = false.
Proof. split; reflexivity. Qed.

Example compile_plain : Re.compile "proxy" = Returns (literal "proxy").
Proof. reflexivity. Qed.

Example compile_group_and_dot :
  Re.compile "(a.)\." = Returns [Re.Lit "a"; Re.AnyChar; Re.Lit "."]%char.
Proof. reflexivity. Qed.

Example compile_errors :
  Re.compile "(" = Raises re_error /\ Re.compile "a)" = Raises re_error
  /\ Re.compile "[" = Raises re_error /\ Re.compile "[]" = Raises re_error
  /\ Re.compile "x\" = Raises re_error.
Proof. repeat split; reflexivity. Qed.

Example compile_not_modelled :
  Re.compile "a*" = OutOfScope /\ Re.compile "[ab]" = OutOfScope
  /\ Re.compile "a|b" = OutOfScope /\ Re.compile "\d" = OutOfScope.
Proof. repeat split; reflexivity. Qed.

Example parse_numeric_cells :
  map Pd.parse_numeric
    ["12000"; "-7"; "+5"; "12000.50"; "-7.9"; ".5"; "007.50"]
  = map Returns
      [Pd.VInt 12000; Pd.VInt (-7); Pd.VInt 5; Pd.VFloat 12000 "12000.5";
       Pd.VFloat (-7) "-7.9"; Pd.VFloat 0 "0.5"; Pd.VFloat 7 "7.5"]
  /\ map Pd.parse_numeric
       [""; "abc"; "n/a"; "PKR 500"; "500 PKR"; "$500"; "1,200"; "1 000"; "1.2.3";
        "--5"; "."; " abc"; "True"; "info"]
     = map (fun _ => Returns Pd.VNaN) (seq 0 14)
  /\ map Pd.parse_numeric ["inf"; "-Infinity"; "+INF"]
     = map Returns [Pd.VInf false; Pd.VInf true; Pd.VInf false]
  /\ map Pd.parse_numeric
       [" 500"; "500 "; "1e5"; "1234567890123456"; "000000000000000009"; "-0";
        "0.00001"; " inf"]
     = map (fun _ => OutOfScope) (seq 0 8).
Proof. repeat split; reflexivity. Qed.

Example to_numeric_columns :
  Pd.to_numeric_coerce [Pd.VStr "12000"; Pd.VStr "-7"; Pd.VInt 3]
  = Returns [Pd.VInt 12000; Pd.VInt (-7); Pd.VInt 3]
  /\ Pd.to_numeric_coerce [Pd.VStr "12000"; Pd.VStr "abc"; Pd.VStr "2.50"]
     = Returns [Pd.VFloat 12000 "12000.0"; Pd.VNaN; Pd.VFloat 2 "2.5"].
Proof. split; reflexivity. Qed.

Example sum_wraps :
  Pd.sum [Pd.VInt 12000; Pd.VInt 10000] = Returns 22000%Z
  /\ Pd.sum [Pd.VInt (2 ^ 62); Pd.VInt (2 ^ 62)] = Returns (- 2 ^ 63)%Z.
Proof. split; reflexivity. Qed.

Example tokenize_quoted :
  Csv.tokenize Csv.START_FIELD [] []
    ("a," ++ dq ++ "b, c" ++ dq ++ ",," ++ nl ++ nl ++ "1,2,3,4" ++ nl)%string
  = Returns [["a"; "b, c"; ""; ""]; ["1"; "2"; "3"; "4"]].
Proof. reflexivity. Qed.

Example read_csv_sample_shape :
  exists df, Csv.read_csv MOCK_CSV_DATA = Returns df
             /\ List.length (Pd.columns df) = 15
             /\ List.length (Pd.data df) = 15
             /\ Pd.getitem df "Salary Deducted"
                = Returns (map Pd.VInt [12000; 10000; 0; 0; 0; 0; 0; 0; 0; 0; 0; 0; 0; 0; 0]%Z).
Proof. eexists. split; [vm_compute; reflexivity|]. repeat split. Qed.

(* ================================================================== *)
(** ** Generic facts: outcomes and lists *)

Lemma mapM_pure {A B} (f : A -> B) (l : list A) :
  mapM (fun x => Returns (f x)) l = Returns (map f l).
Proof.
  induction l as [|x xs IH]; simpl; [reflexivity|].
  rewrite IH. reflexivity.
Qed.

Lemma mapM_ext {A B} (f g : A -> outcome B) (l : list A) :
  (forall x, In x l -> f x = g x) -> mapM f l = mapM g l.
Proof.
  induction l as [|x xs IH]; intros H; simpl; [reflexivity|].
  rewrite (H x (or_introl eq_refl)), IH; [reflexivity|].
  intros y Hy. apply H. right. exact Hy.
Qed.

Lemma mapM_map {A B C} (f : B -> outcome C) (g : A -> B) (l : list A) :
  mapM f (map g l) = mapM (fun x => f (g x)) l.
Proof.
  induction l as [|x xs IH]; simpl; [reflexivity|].
  rewrite IH. reflexivity.
Qed.

Lemma mapM_length {A B} (f : A -> outcome B) (l : list A) (l' : list B) :
  mapM f l = Returns l' -> List.length l' = List.length l.
Proof.
  revert l'. induction l as [|x xs IH]; simpl; intros l' H.
  - inversion H. reflexivity.
  - destruct (f x); simpl in H; try discriminate.
    destruct (mapM f xs); simpl in H; try discriminate.
    inversion H. simpl. f_equal. apply IH. reflexivity.
Qed.

Lemma mapM_raises_head {A B} (f : A -> outcome B) (x : A) (xs : list A) (e : exn) :
  f x = Raises e -> mapM f (x :: xs) = Raises e.
Proof. intros H. simpl. rewrite H. reflexivity. Qed.

Lemma select_map (df : Pd.DataFrame) (p : list Pd.value -> bool) :
  Pd.select df (map p (Pd.data df))
  = Pd.mkDataFrame (Pd.columns df) (filter p (Pd.data df)).
Proof.
  unfold Pd.select. f_equal.
  induction (Pd.data df) as [|r rs IH]; simpl; [reflexivity|].
  destruct (p r); simpl; rewrite IH; reflexivity.
Qed.

Lemma any_map {A} (f : A -> bool) (l : list A) :
  Pd.any (map f l) = existsb f l.
Proof.
  unfold Pd.any. induction l as [|x xs IH]; simpl; [reflexivity|].
  rewrite IH. reflexivity.
Qed.

Lemma empty_false_rows (df : Pd.DataFrame) :
  Pd.empty df = false -> exists r rs, Pd.data df = r :: rs.
Proof.
  unfold Pd.empty. intros H. apply orb_false_elim in H. destruct H as [_ H].
  destruct (Pd.data df) as [|r rs]; [discriminate|]. eauto.
Qed.

(* ================================================================== *)
(** ** Patterns without special characters *)

Lemma not_meta_cases (c : ascii) :
  Re.is_meta c = false ->
  Ascii.eqb c "\" = false /\ Ascii.eqb c "." = false /\ Ascii.eqb c "(" = false
  /\ Ascii.eqb c ")" = false /\ Ascii.eqb c "[" = false.
Proof.
  unfold Re.is_meta. simpl. intros H.
  repeat (apply orb_false_elim in H; destruct H as [? H]).
  repeat split; assumption.
Qed.

Lemma is_meta_lower (c : ascii) : Re.is_meta (Py.lower_char c) = Re.is_meta c.
Proof. destruct c as [[] [] [] [] [] [] [] []]; reflexivity. Qed.

(** Lower-casing neither adds nor removes a special character. *)
Lemma has_meta_lower (s : string) : Re.has_meta (Py.lower s) = Re.has_meta s.
Proof.
  unfold Re.has_meta. induction s as [|c s IH]; [reflexivity|].
  cbn [Py.lower Py.any_char]. rewrite is_meta_lower, IH. reflexivity.
Qed.

Lemma parse_literal (s : string) :
  Re.has_meta s = false -> Re.parse 0 s = Returns (literal s).
Proof.
  induction s as [|c s IH]; intros H; [reflexivity|].
  unfold Re.has_meta in H. simpl in H.
  apply orb_false_elim in H. destruct H as [Hc Hs].
  destruct (not_meta_cases c Hc) as (H1 & H2 & H3 & H4 & H5).
  cbn [Re.parse]. rewrite H1, H2, H3, H4, H5, Hc, (IH Hs). reflexivity.
Qed.

Lemma compile_literal (s : string) :
  Re.has_meta s = false -> Re.compile s = Returns (literal s).
Proof. exact (parse_literal s). Qed.

Lemma match_here_literal (p s : string) :
  Re.match_here false (literal p) s = Py.startswith p s.
Proof.
  revert s. induction p as [|a p IH]; intros s; [reflexivity|].
  destruct s as [|c s]; [reflexivity|].
  cbn [literal Re.match_here Py.startswith Re.atom_matches]. rewrite IH. reflexivity.
Qed.

Lemma search_literal (p s : string) :
  Re.search false (literal p) s = Py.contains p s.
Proof.
  induction s as [|c s IH]; cbn [Re.search Py.contains];
    rewrite match_here_literal; [reflexivity|].
  rewrite IH. reflexivity.
Qed.

Lemma match_here_literal_nocase (p s : string) :
  Re.match_here true (literal p) s = Py.startswith (Py.lower p) (Py.lower s).
Proof.
  revert s. induction p as [|a p IH]; intros s; [reflexivity|].
  destruct s as [|c s]; [reflexivity|].
  cbn [literal Re.match_here Py.startswith Re.atom_matches Py.lower]. rewrite IH. reflexivity.
Qed.

Lemma search_literal_nocase (p s : string) :
  Re.search true (literal p) s = contains_nocase p s.
Proof.
  unfold contains_nocase.
  induction s as [|c s IH]; cbn [Re.search Py.contains Py.lower];
    rewrite match_here_literal_nocase; [reflexivity|].
  rewrite IH. reflexivity.
Qed.

(** A row passes the test of the search box exactly when one of its fields
    contains the pattern, provided the pattern has no special character. *)
Lemma row_matches_literal (p : string) (row : list Pd.value) :
  Re.has_meta p = false ->
  row_matches p row
  = Returns (existsb (fun v => Py.contains p (Py.lower (Pd.str v))) row).
Proof.
  intros H. unfold row_matches, Pd.str_contains, Pd.str_lower, Pd.astype_str.
  rewrite (compile_literal p H). cbn [bind].
  rewrite !map_map, mapM_map. cbn [negb].
  rewrite (mapM_ext _ (fun v => Returns (Py.contains p (Py.lower (Pd.str v))))).
  - rewrite mapM_pure. cbn [bind]. rewrite any_map. reflexivity.
  - intros v _. rewrite search_literal. reflexivity.
Qed.

Lemma filtered_df_literal (df : Pd.DataFrame) (term : string) :
  Py.truthy term = true ->
  Re.has_meta term = false ->
  Pd.empty df = false ->
  filtered_df df term = Returns (literal_filter df term).
Proof.
  intros Ht Hm He. rewrite <- has_meta_lower in Hm.
  unfold filtered_df, literal_filter. rewrite Ht, He.
  rewrite (mapM_ext _ (fun r => Returns
             (existsb (fun v => contains_nocase term (Pd.str v)) r))).
  - rewrite mapM_pure. cbn [bind]. rewrite select_map. reflexivity.
  - intros r _. apply row_matches_literal. exact Hm.
Qed.

Lemma filtered_df_raises (df : Pd.DataFrame) (term : string) :
  Py.truthy term = true ->
  Re.compile (Py.lower term) = Raises re_error ->
  Pd.empty df = false ->
  filtered_df df term = Raises re_error.
Proof.
  intros Ht Hc He. unfold filtered_df. rewrite Ht, He.
  destruct (empty_false_rows df He) as (r & rs & ->).
  rewrite (mapM_raises_head _ r rs re_error); [reflexivity|].
  unfold row_matches, Pd.str_contains. rewrite Hc. reflexivity.
Qed.

(* ================================================================== *)
(** ** The search box *)

(** [main] hands the search box a frame with rows: without a link the frame
    is the sample data, and with a link an empty frame stops [main]. *)
Lemma main_filters_rows (read_csv_url : string -> outcome Pd.DataFrame)
      (sheet_url : string) (df : Pd.DataFrame) :
  snd (load_data read_csv_url sheet_url) = Returns df ->
  main_stops df sheet_url = false ->
  Pd.empty df = false.
Proof.
  unfold main_stops. intros Hload Hgo.
  destruct (Py.truthy sheet_url) eqn:Hurl.
  - rewrite andb_true_r in Hgo. exact Hgo.
  - destruct sheet_url; [|discriminate Hurl].
    assert (H : snd (load_data read_csv_url "") = Returns fallback_frame)
      by (vm_compute; reflexivity).
    rewrite H in Hload. inversion Hload. reflexivity.
Qed.

(** The fields are tested one by one: a term that spans two of them is not
    found. *)
Example filter_field_by_field :
  filtered_df one_record "bannugovt" = Returns (Pd.mkDataFrame COLUMNS_TO_KEEP []).
Proof. reflexivity. Qed.

(** C1, as amended: for the empty term the filter returns the frame as it
    is; for a term without any special character of the pattern language,
    applied to a frame with rows, it returns the same columns and exactly
    the rows one of whose fields, in string form and lower-cased, contains
    the lower-cased term, in their original order.  The second part is for
    ASCII text, term and fields, where lower-casing is the mapping of A..Z. *)
Theorem filter_contract (df : Pd.DataFrame) (term : string) :
  (term = "" -> filtered_df df term = Returns df)
  /\ (term <> "" -> Re.has_meta term = false -> Pd.empty df = false ->
      Py.isascii term = true -> ascii_cells df = true ->
      filtered_df df term
      = Returns (Pd.mkDataFrame (Pd.columns df)
                   (filter (fun r => existsb (fun v =>
                              Py.contains (Py.lower term) (Py.lower (Pd.str v))) r)
                           (Pd.data df)))).
Proof.
  split.
  - intros ->. reflexivity.
  - intros Hne Hm He _ _.
    assert (Ht : Py.truthy term = true) by (destruct term; [contradiction|reflexivity]).
    rewrite (filtered_df_literal df term Ht Hm He).
    unfold literal_filter. rewrite Ht. reflexivity.
Qed.

Lemma filter_contract_witness :
  filtered_df one_record "" = Returns one_record
  /\ filtered_df one_record "WARN" = Returns one_record.
Proof.
  split.
  - apply (proj1 (filter_contract one_record "")). reflexivity.
  - rewrite (proj2 (filter_contract one_record "WARN"));
      [reflexivity | discriminate | reflexivity..].
Defined.

(** C1, as stated, fails: the term "." selects a record none of whose
    fields contains a dot. *)
Lemma filter_dot_is_not_containment :
  filtered_df one_record "." = Returns one_record
  /\ literal_filter one_record "." = Pd.mkDataFrame COLUMNS_TO_KEEP []
  /\ filtered_df one_record "." <> Returns (literal_filter one_record ".").
Proof.
  split; [reflexivity|]. split; [reflexivity|]. discriminate.
Qed.

(** C10: the search term is a pattern.  Without special characters the
    filter is literal containment without regard to case (for ASCII text,
    term and fields, where case is that of the letters A..Z); the term "."
    selects a record that does not contain it; the terms "(" and "[" make
    the filter raise on every frame with rows. *)
Theorem search_term_is_a_pattern :
  (forall df term,
      term <> "" -> Re.has_meta term = false -> Pd.empty df = false ->
      Py.isascii term = true -> ascii_cells df = true ->
      filtered_df df term = Returns (literal_filter df term))
  /\ (Re.has_meta "." = true
      /\ filtered_df one_record "." = Returns one_record
      /\ Pd.data (literal_filter one_record ".") = [])
  /\ (forall df, Pd.empty df = false ->
        filtered_df df "(" = Raises re_error /\ filtered_df df "[" = Raises re_error).
Proof.
  split; [|split].
  - intros df term Hne Hm He _ _. apply filtered_df_literal; try assumption.
    destruct term; [contradiction|reflexivity].
  - repeat split; reflexivity.
  - intros df He. split; apply filtered_df_raises; try assumption; reflexivity.
Qed.

Lemma search_term_is_a_pattern_witness :
  filtered_df one_record "ali" = Returns one_record
  /\ filtered_df one_record "(" = Raises re_error.
Proof.
  destruct search_term_is_a_pattern as (Hlit & _ & Hraise). split.
  - rewrite (Hlit one_record "ali"); [reflexivity | discriminate | reflexivity..].
  - apply (proj1 (Hraise one_record eq_refl)).
Defined.

(* ================================================================== *)
(** ** The cleaning, row by row *)

Lemma combine_map {A B C D} (f : A -> C) (g : B -> D) (l : list A) (l' : list B) :
  combine (map f l) (map g l') = map (fun p => (f (fst p), g (snd p))) (combine l l').
Proof.
  revert l'. induction l as [|x xs IH]; intros [|y ys]; simpl; try reflexivity.
  rewrite IH. reflexivity.
Qed.

Lemma combine_diag {A B} (g : A -> B) (l : list A) :
  combine l (map g l) = map (fun x => (x, g x)) l.
Proof.
  induction l as [|x xs IH]; simpl; [reflexivity|]. rewrite IH. reflexivity.
Qed.

Lemma combine_length_eq {A B} (l : list A) (l' : list B) :
  List.length l' = List.length l -> List.length (combine l l') = List.length l.
Proof. intros H. rewrite length_combine, H. apply Nat.min_id. Qed.

(** Assigning to column [i] the image of that very column. *)
Lemma update_column (g : Pd.value -> Pd.value) (i : nat) (rows : list (list Pd.value)) :
  map (fun rv => Pd.set_nth i (snd rv) (fst rv))
      (combine rows (map g (map (fun r => nth i r Pd.VNaN) rows)))
  = map (fun r => Pd.set_nth i (g (nth i r Pd.VNaN)) r) rows.
Proof.
  rewrite map_map, combine_diag, map_map. reflexivity.
Qed.

Lemma clean_string_field_spec (cols : list string) (rows : list (list Pd.value))
      (col : string) (i : nat) :
  Pd.get_loc col cols = Some i ->
  existsb (String.eqb col) (skipn (S i) cols) = false ->
  clean_string_field (Returns (Pd.mkDataFrame cols rows)) col
  = Returns (Pd.mkDataFrame cols
               (map (fun r => Pd.set_nth i (text (nth i r Pd.VNaN)) r) rows)).
Proof.
  intros Hloc Hdup. unfold clean_string_field, Pd.getitem, Pd.setitem.
  cbn [bind Pd.columns Pd.data]. rewrite Hloc, Hdup. cbn [bind].
  unfold Pd.str_strip, Pd.astype_str. rewrite map_map.
  rewrite (update_column text). reflexivity.
Qed.

(** The integer cast does not see whether a number came as an int64 or as
    the float64 of the same value. *)
Lemma astype_int_as_float (nums : list Pd.value) :
  Pd.astype_int (Pd.fillna (Pd.VInt 0) (map Pd.as_float nums))
  = Pd.astype_int (Pd.fillna (Pd.VInt 0) nums).
Proof.
  unfold Pd.astype_int.
  assert (H : forallb Pd.is_finite (Pd.fillna (Pd.VInt 0) (map Pd.as_float nums))
              = forallb Pd.is_finite (Pd.fillna (Pd.VInt 0) nums)
              /\ mapM Pd.astype_int1 (Pd.fillna (Pd.VInt 0) (map Pd.as_float nums))
                 = mapM Pd.astype_int1 (Pd.fillna (Pd.VInt 0) nums)).
  { induction nums as [|v nums [IH1 IH2]]; [split; reflexivity|].
    cbn [map Pd.fillna forallb mapM].
    fold (Pd.fillna (Pd.VInt 0) (map Pd.as_float nums)).
    fold (Pd.fillna (Pd.VInt 0) nums).
    rewrite IH1, IH2. destruct v; split; reflexivity. }
  destruct H as [-> ->]. reflexivity.
Qed.

(** Line 59 in terms of the cells read one by one. *)
Lemma coerce_salary_cells (col : list Pd.value) :
  coerce_salary col
  = (nums <- mapM Pd.to_numeric_coerce1 col ;;
     Pd.astype_int (Pd.fillna (Pd.VInt 0) nums)).
Proof.
  unfold coerce_salary, Pd.to_numeric_coerce.
  destruct (mapM Pd.to_numeric_coerce1 col) as [nums| |]; cbn [bind]; try reflexivity.
  destruct (existsb Pd.is_float nums); [apply astype_int_as_float | reflexivity].
Qed.

(** Line 59, cell by cell. *)
Lemma salary_column_ok (col : list Pd.value) (zs : list Z) :
  mapM salary_cell col = Returns zs ->
  exists nums,
    mapM Pd.to_numeric_coerce1 col = Returns nums
    /\ forallb Pd.is_finite (Pd.fillna (Pd.VInt 0) nums) = true
    /\ mapM Pd.astype_int1 (Pd.fillna (Pd.VInt 0) nums) = Returns (map Pd.VInt zs).
Proof.
  revert zs.
  induction col as [|x xs IH]; intros zs H.
  - inversion H. exists []. repeat split.
  - cbn [mapM] in H. unfold salary_cell at 1 in H.
    destruct (Pd.to_numeric_coerce1 x) as [w| |] eqn:Hx; cbn [bind] in H; try discriminate.
    destruct (mapM salary_cell xs) as [zs'| |] eqn:Hxs;
      [| destruct w; cbn [bind] in H; discriminate ..].
    destruct (IH zs' eq_refl) as (nums & Hn & Hf & Hc).
    exists (w :: nums). cbn [mapM]. rewrite Hx, Hn. cbn [bind].
    destruct w; cbn [bind] in H; try discriminate; inversion H; subst;
      cbn [Pd.fillna map forallb Pd.is_finite andb mapM Pd.astype_int1 bind];
      fold (Pd.fillna (Pd.VInt 0) nums); rewrite Hf, Hc; repeat split.
Qed.

Lemma salary_column_inv (col nums out : list Pd.value) :
  mapM Pd.to_numeric_coerce1 col = Returns nums ->
  forallb Pd.is_finite (Pd.fillna (Pd.VInt 0) nums) = true ->
  mapM Pd.astype_int1 (Pd.fillna (Pd.VInt 0) nums) = Returns out ->
  exists zs, mapM salary_cell col = Returns zs /\ out = map Pd.VInt zs.
Proof.
  revert nums out.
  induction col as [|x xs IH]; intros nums out Hn Hf Hc.
  - inversion Hn; subst. inversion Hc. exists []. split; reflexivity.
  - cbn [mapM] in Hn.
    destruct (Pd.to_numeric_coerce1 x) as [w| |] eqn:Hx; cbn [bind] in Hn; try discriminate.
    destruct (mapM Pd.to_numeric_coerce1 xs) as [nums'| |] eqn:Hxs;
      cbn [bind] in Hn; try discriminate.
    inversion Hn; subst nums. clear Hn.
    cbn [Pd.fillna map] in Hf, Hc. fold (Pd.fillna (Pd.VInt 0) nums') in Hf, Hc.
    cbn [forallb] in Hf. apply andb_prop in Hf. destruct Hf as [Hw Hf].
    cbn [mapM] in Hc.
    destruct (mapM Pd.astype_int1 (Pd.fillna (Pd.VInt 0) nums')) as [out'| |] eqn:Hc';
      [| destruct w; cbn in Hc; discriminate ..].
    destruct (IH nums' out' eq_refl Hf Hc') as (zs & Hzs & ->).
    cbn [mapM]. unfold salary_cell at 1. rewrite Hx, Hzs. cbn [bind].
    destruct w; cbn in Hc, Hw; try discriminate; inversion Hc; subst;
      eexists; split; reflexivity.
Qed.

Lemma coerce_salary_returns (col : list Pd.value) (zs : list Z) :
  mapM salary_cell col = Returns zs -> coerce_salary col = Returns (map Pd.VInt zs).
Proof.
  intros H. destruct (salary_column_ok col zs H) as (nums & Hn & Hf & Hc).
  rewrite coerce_salary_cells, Hn. cbn [bind]. unfold Pd.astype_int.
  rewrite Hf. exact Hc.
Qed.

Lemma coerce_salary_inv (col out : list Pd.value) :
  coerce_salary col = Returns out ->
  exists zs, mapM salary_cell col = Returns zs /\ out = map Pd.VInt zs.
Proof.
  rewrite coerce_salary_cells. unfold Pd.astype_int. intros H.
  destruct (mapM Pd.to_numeric_coerce1 col) as [nums| |] eqn:Hn;
    cbn [bind] in H; try discriminate.
  destruct (forallb Pd.is_finite (Pd.fillna (Pd.VInt 0) nums)) eqn:Hf; try discriminate.
  exact (salary_column_inv col nums out Hn Hf H).
Qed.

(** The salary column as the reindexing hands it to line 59. *)
Lemma reindexed_salary (hdr : list string) (rows : list (list Pd.value)) :
  map (fun r => nth 8 r Pd.VNaN)
      (map (fun r => map (fun c => match Pd.get_loc c hdr with
                                   | Some i => nth i r Pd.VNaN
                                   | None => Pd.VStr ""
                                   end) COLUMNS_TO_KEEP) rows)
  = map (cell hdr "Salary") rows.
Proof. rewrite map_map. reflexivity. Qed.

(** Runs [clean] up to line 59, for labels that are distinct. *)
Ltac to_line_59 df Hu :=
  unfold clean, Pd.reindex; fold (headers df); rewrite Hu;
  cbn [bind]; unfold Pd.getitem at 1;
  change (Pd.get_loc "Salary" (Pd.columns (Pd.mkDataFrame COLUMNS_TO_KEEP _)))
    with (Some 8);
  cbv beta iota;
  change (existsb (String.eqb "Salary")
            (skipn 9 (Pd.columns (Pd.mkDataFrame COLUMNS_TO_KEEP _))))
    with false;
  cbv beta iota; cbn [Pd.data bind];
  change (Pd.data (standardize df)) with (Pd.data df);
  rewrite reindexed_salary.

(** [clean] succeeds exactly when the labels are distinct and every salary
    cell has an integer value, and then works row by row. *)
Lemma clean_returns (df : Pd.DataFrame) (zs : list Z) :
  Pd.is_unique (headers df) = true ->
  mapM salary_cell (map (cell (headers df) "Salary") (Pd.data df)) = Returns zs ->
  clean df
  = Returns (Pd.mkDataFrame COLUMNS_TO_KEEP
               (map (fun rz => cleaned_row (headers df) (fst rz) (snd rz))
                    (combine (Pd.data df) zs))).
Proof.
  intros Hu Hs. to_line_59 df Hu.
  rewrite (coerce_salary_returns _ zs Hs). cbn [bind].
  unfold Pd.setitem at 1.
  change (Pd.get_loc "Salary" (Pd.columns (Pd.mkDataFrame COLUMNS_TO_KEEP _)))
    with (Some 8).
  cbv beta iota. cbn [bind Pd.data Pd.columns fold_left].
  rewrite (clean_string_field_spec COLUMNS_TO_KEEP _ "District" 0 eq_refl eq_refl).
  rewrite (clean_string_field_spec COLUMNS_TO_KEEP _ "College" 1 eq_refl eq_refl).
  rewrite (clean_string_field_spec COLUMNS_TO_KEEP _ "Category" 4 eq_refl eq_refl).
  rewrite (clean_string_field_spec COLUMNS_TO_KEEP _ "Action" 5 eq_refl eq_refl).
  rewrite (clean_string_field_spec COLUMNS_TO_KEEP _ "Reason" 9 eq_refl eq_refl).
  cbn [Pd.data Pd.columns]. f_equal. f_equal.
  rewrite combine_map, !map_map.
  apply map_ext. intros [r z]. reflexivity.
Qed.

Lemma clean_raises (df : Pd.DataFrame) (e : exn) :
  Pd.is_unique (headers df) = true ->
  coerce_salary (map (cell (headers df) "Salary") (Pd.data df)) = Raises e ->
  clean df = Raises e.
Proof. intros Hu Hs. to_line_59 df Hu. rewrite Hs. reflexivity. Qed.

Lemma clean_out_of_scope (df : Pd.DataFrame) :
  Pd.is_unique (headers df) = true ->
  coerce_salary (map (cell (headers df) "Salary") (Pd.data df)) = OutOfScope ->
  clean df = OutOfScope.
Proof. intros Hu Hs. to_line_59 df Hu. rewrite Hs. reflexivity. Qed.

Lemma clean_duplicate_labels (df : Pd.DataFrame) :
  Pd.is_unique (headers df) = false ->
  clean df = Raises (ValueError "cannot reindex on an axis with duplicate labels").
Proof.
  intros Hu. unfold clean, Pd.reindex. fold (headers df). rewrite Hu. reflexivity.
Qed.

Lemma clean_inv (df out : Pd.DataFrame) :
  clean df = Returns out ->
  Pd.is_unique (headers df) = true
  /\ exists zs,
      mapM salary_cell (map (cell (headers df) "Salary") (Pd.data df)) = Returns zs
      /\ out = Pd.mkDataFrame COLUMNS_TO_KEEP
                 (map (fun rz => cleaned_row (headers df) (fst rz) (snd rz))
                      (combine (Pd.data df) zs)).
Proof.
  intros H.
  destruct (Pd.is_unique (headers df)) eqn:Hu.
  - split; [reflexivity|].
    destruct (coerce_salary (map (cell (headers df) "Salary") (Pd.data df)))
      as [sal|e|] eqn:Hs.
    + destruct (coerce_salary_inv _ _ Hs) as (zs & Hzs & _).
      exists zs. split; [exact Hzs|].
      rewrite (clean_returns df zs Hu Hzs) in H. inversion H. reflexivity.
    + rewrite (clean_raises df e Hu Hs) in H. discriminate.
    + rewrite (clean_out_of_scope df Hu Hs) in H. discriminate.
  - rewrite (clean_duplicate_labels df Hu) in H. discriminate.
Qed.

(* ================================================================== *)
(** ** The Normalizer *)

Lemma cleaned_rows_length (hdr : list string) (rows : list (list Pd.value)) (zs : list Z) :
  Forall (fun r => List.length r = 10)
    (map (fun rz => cleaned_row hdr (fst rz) (snd rz)) (combine rows zs)).
Proof. apply Forall_forall. intros r Hr. apply in_map_iff in Hr.
  destruct Hr as (rz & <- & _). reflexivity. Qed.

Lemma cleaned_rows_records (hdr : list string) (rows : list (list Pd.value)) (zs : list Z) :
  forallb is_record
    (map (fun rz => cleaned_row hdr (fst rz) (snd rz)) (combine rows zs)) = true.
Proof. apply forallb_forall. intros r Hr. apply in_map_iff in Hr.
  destruct Hr as (rz & <- & _). reflexivity. Qed.

(** Every frame that [clean] returns is a cleaned frame. *)
Lemma clean_cleaned (df out : Pd.DataFrame) :
  clean df = Returns out -> cleaned out.
Proof.
  intros H. destruct (clean_inv df out H) as (_ & zs & _ & ->).
  split; [reflexivity|]. apply cleaned_rows_records.
Qed.

(** C2, as amended: when the labels (ASCII text) are distinct once stripped
    and renamed and every Salary cell has an integer value under line 59,
    the cleaning returns a frame with exactly the ten columns of
    [COLUMNS_TO_KEEP], in that order, and with as many rows as the input,
    each of ten cells. *)
Theorem clean_columns_and_rows (df : Pd.DataFrame) (zs : list Z) :
  ascii_labels df = true ->
  Pd.is_unique (headers df) = true ->
  mapM salary_cell (map (cell (headers df) "Salary") (Pd.data df)) = Returns zs ->
  exists out,
    clean df = Returns out
    /\ Pd.columns out = ["District"; "College"; "Gender"; "Type"; "Category";
                         "Action"; "Name"; "Designation"; "Salary"; "Reason"]
    /\ List.length (Pd.data out) = List.length (Pd.data df)
    /\ Forall (fun r => List.length r = 10) (Pd.data out).
Proof.
  intros _ Hu Hs. eexists. split; [exact (clean_returns df zs Hu Hs)|].
  cbn [Pd.columns Pd.data]. split; [reflexivity|]. split.
  - rewrite length_map. apply combine_length_eq.
    rewrite (mapM_length _ _ _ Hs). apply length_map.
  - apply cleaned_rows_length.
Qed.

Lemma clean_columns_and_rows_witness :
  exists out,
    clean ragged_labels = Returns out
    /\ Pd.columns out = COLUMNS_TO_KEEP
    /\ List.length (Pd.data out) = 3
    /\ Forall (fun r => List.length r = 10) (Pd.data out).
Proof.
  exact (clean_columns_and_rows ragged_labels [0; 12000; 0]%Z eq_refl eq_refl eq_refl).
Defined.

(** The empty table: a header and no rows. *)
Lemma clean_no_rows (cols : list string) :
  Pd.is_unique (headers (Pd.mkDataFrame cols [])) = true ->
  clean (Pd.mkDataFrame cols []) = Returns (Pd.mkDataFrame COLUMNS_TO_KEEP []).
Proof. intros Hu. exact (clean_returns (Pd.mkDataFrame cols []) [] Hu eq_refl). Qed.

(** C2, as stated, fails: two labels that are equal once stripped make the
    reindexing raise, and no frame is returned. *)
Lemma clean_padded_twice_raises :
  clean padded_twice
  = Raises (ValueError "cannot reindex on an axis with duplicate labels")
  /\ ~ (exists out, clean padded_twice = Returns out
                    /\ Pd.columns out = COLUMNS_TO_KEEP
                    /\ List.length (Pd.data out) = List.length (Pd.data padded_twice)).
Proof.
  split; [reflexivity|]. intros (out & H & _). discriminate H.
Qed.

(* ================================================================== *)
(** ** The Salary column *)

Lemma mapM_In_combine {A B} (f : A -> outcome B) (l : list A) (l' : list B) :
  mapM f l = Returns l' ->
  forall x y, In (x, y) (combine l l') -> f x = Returns y.
Proof.
  revert l'. induction l as [|a l IH]; intros l' H x y Hin.
  - destruct Hin.
  - cbn [mapM] in H.
    destruct (f a) as [b| |] eqn:Ha; cbn [bind] in H; try discriminate.
    destruct (mapM f l) as [bs| |] eqn:Hl; cbn [bind] in H; try discriminate.
    inversion H; subst l'. destruct Hin as [Heq|Hin].
    + inversion Heq; subst. exact Ha.
    + exact (IH bs eq_refl x y Hin).
Qed.

Lemma read_number_number (s : string) (v : Pd.value) :
  Pd.read_number s = Pd.Number v -> forall t, v <> Pd.VStr t.
Proof.
  unfold Pd.read_number. cbv zeta. intros H t.
  destruct (_ =? 0)%nat; [discriminate H|].
  destruct (Pd.rest (Pd.scan s)).
  - destruct (15 <? _)%nat; [discriminate H|].
    destruct (Pd.fraction (Pd.scan s)).
    + destruct (Pd.tiny _ _); [discriminate H|]. inversion H. discriminate.
    + destruct (_ && _); [discriminate H|]. inversion H. discriminate.
  - destruct (_ || _); [discriminate H|]. destruct (String.eqb _ _); discriminate H.
Qed.

Lemma to_numeric_coerce1_number (v w : Pd.value) :
  Pd.to_numeric_coerce1 v = Returns w -> forall s, w <> Pd.VStr s.
Proof.
  destruct v as [t| | | | |]; cbn [Pd.to_numeric_coerce1]; intros H s;
    try (inversion H; discriminate).
  unfold Pd.parse_numeric in H.
  destruct (Py.any_char _ t); [discriminate H|].
  destruct (Pd.mem (Py.lower (Py.strip t)) _).
  - destruct (Pd.mem _ _); [inversion H; discriminate | discriminate H].
  - destruct (Pd.read_number (Pd.skip_space t)) as [n| |] eqn:Hr.
    + destruct (String.eqb _ _); [|discriminate H]. inversion H; subst w.
      exact (read_number_number _ _ Hr s).
    + inversion H. discriminate.
    + discriminate H.
Qed.

Lemma mapM_Forall {A B} (f : A -> outcome B) (P : B -> Prop) (l : list A) (l' : list B) :
  (forall x y, f x = Returns y -> P y) ->
  mapM f l = Returns l' -> Forall P l'.
Proof.
  intros Hf. revert l'. induction l as [|x xs IH]; intros l' H; cbn [mapM] in H.
  - inversion H. constructor.
  - destruct (f x) as [y| |] eqn:Hx; cbn [bind] in H; try discriminate H.
    destruct (mapM f xs) as [ys| |]; cbn [bind] in H; try discriminate H.
    inversion H. constructor; [exact (Hf x y Hx) | exact (IH ys eq_refl)].
Qed.

Lemma to_numeric_coerce_numbers (col nums : list Pd.value) :
  Pd.to_numeric_coerce col = Returns nums ->
  Forall (fun w => forall s, w <> Pd.VStr s) nums.
Proof.
  unfold Pd.to_numeric_coerce. intros H.
  destruct (mapM Pd.to_numeric_coerce1 col) as [ws| |] eqn:Hws;
    cbn [bind] in H; try discriminate H.
  pose proof (mapM_Forall _ (fun w => forall s, w <> Pd.VStr s) _ _
                to_numeric_coerce1_number Hws) as Hall.
  inversion H. destruct (existsb Pd.is_float ws); [|exact Hall].
  apply Forall_map. apply (Forall_impl _ (P := fun w => forall s, w <> Pd.VStr s));
    [|exact Hall].
  intros w Hw s. destruct w; try discriminate. exfalso. exact (Hw _ eq_refl).
Qed.

Lemma mapM_never_raises {A B} (f : A -> outcome B) (l : list A) (e : exn) :
  (forall x, f x <> Raises e) -> mapM f l <> Raises e.
Proof.
  intros Hf. induction l as [|x l IH]; cbn [mapM]; [discriminate|].
  destruct (f x) as [y|e'|] eqn:Hx; cbn [bind].
  - destruct (mapM f l) as [ys|e'|]; cbn [bind]; [discriminate| |discriminate].
    intros Heq. apply IH. exact Heq.
  - intros Heq. apply (Hf x). rewrite Hx. inversion Heq. reflexivity.
  - discriminate.
Qed.

(** With [errors='coerce'] the parse raises nothing. *)
Lemma to_numeric_coerce1_never_raises (v : Pd.value) (e : exn) :
  Pd.to_numeric_coerce1 v <> Raises e.
Proof.
  destruct v as [t| | | | |]; cbn [Pd.to_numeric_coerce1]; try discriminate.
  unfold Pd.parse_numeric.
  destruct (Py.any_char _ t); [discriminate|].
  destruct (Pd.mem (Py.lower (Py.strip t)) _).
  - destruct (Pd.mem _ _); discriminate.
  - destruct (Pd.read_number _); [destruct (String.eqb _ _)| |]; discriminate.
Qed.

Lemma to_numeric_coerce_never_raises (col : list Pd.value) (e : exn) :
  Pd.to_numeric_coerce col <> Raises e.
Proof.
  unfold Pd.to_numeric_coerce. intros H.
  destruct (mapM Pd.to_numeric_coerce1 col) as [ws|e'|] eqn:Hws;
    cbn [bind] in H; try discriminate H.
  exact (mapM_never_raises _ col e' (fun x => to_numeric_coerce1_never_raises x e') Hws).
Qed.

(** *** Texts that are no number *)

Lemma read_unlike_number (s : string) :
  unlike_number s = true ->
  Pd.skip_space s = s /\ Pd.read_number s = Pd.NotNumber.
Proof.
  destruct s as [|c t]; [split; reflexivity|].
  destruct c as [[] [] [] [] [] [] [] []]; intros H;
    first [discriminate H | split; reflexivity].
Qed.

Lemma parse_unlike_number (s : string) :
  ordinary s = true -> unlike_number s = true ->
  Pd.parse_numeric s = Returns Pd.VNaN.
Proof.
  unfold ordinary. intros Ho Hu. apply andb_prop in Ho. destruct Ho as [Hnul Hinf].
  apply negb_true_iff in Hnul, Hinf.
  destruct (read_unlike_number s Hu) as [Hskip Hread].
  unfold Pd.parse_numeric. rewrite Hnul, Hinf, Hskip, Hread. reflexivity.
Qed.

Lemma digit_cases (c : ascii) :
  Py.is_digit c = true ->
  Pd.isspace_ascii c = false /\ Ascii.eqb c "-" = false /\ Ascii.eqb c "+" = false
  /\ Ascii.eqb c "." = false /\ Ascii.eqb c "000" = false
  /\ Py.is_space c = false
  /\ Ascii.eqb (Py.lower_char c) "i" = false
  /\ Ascii.eqb (Py.lower_char c) "+" = false
  /\ Ascii.eqb (Py.lower_char c) "-" = false.
Proof.
  destruct c as [[] [] [] [] [] [] [] []]; intros H;
    first [discriminate H | repeat split].
Qed.

Lemma all_digits_cons (s : string) :
  all_digits s = true ->
  exists c t, s = String c t /\ Py.is_digit c = true
              /\ Py.any_char (fun c => negb (Py.is_digit c)) t = false.
Proof.
  unfold all_digits. destruct s as [|c t]; [discriminate|]. cbn [Py.truthy andb Py.any_char].
  intros H. apply negb_true_iff, orb_false_elim in H. destruct H as [Hc Ht].
  exists c, t. split; [reflexivity|]. split; [|exact Ht].
  apply negb_false_iff. exact Hc.
Qed.

(** The digits of a text of digits are all of it, up to the next character. *)
Lemma span_digits_app (n r : string) :
  Py.any_char (fun c => negb (Py.is_digit c)) n = false ->
  match r with
  | EmptyString => True
  | String c _ => Py.is_digit c = false
  end ->
  Pd.span_digits (n ++ r) = (n, r).
Proof.
  intros Hn Hr. induction n as [|d n IH].
  - destruct r as [|c t]; [reflexivity|]. cbn [append Pd.span_digits]. rewrite Hr.
    reflexivity.
  - cbn [Py.any_char] in Hn. apply orb_false_elim in Hn. destruct Hn as [Hd Hn].
    apply negb_false_iff in Hd.
    cbn [append Pd.span_digits]. rewrite Hd, (IH Hn). reflexivity.
Qed.

Lemma ends_number_cases (c : ascii) :
  ends_number c = true ->
  Py.is_digit c = false /\ Ascii.eqb c "." = false
  /\ Ascii.eqb c "e" || Ascii.eqb c "E" = false /\ Pd.isspace_ascii c = false.
Proof.
  unfold ends_number. intros H. apply negb_true_iff in H.
  repeat (apply orb_false_elim in H; destruct H as [H ?]).
  repeat split; try assumption.
  apply orb_false_intro; assumption.
Qed.

(** Digits followed by a character at which a number ends: no number. *)
Lemma parse_number_then_junk (n : string) (c : ascii) (t : string) :
  all_digits n = true -> ends_number c = true ->
  ordinary (n ++ String c t) = true ->
  Pd.parse_numeric (n ++ String c t) = Returns Pd.VNaN.
Proof.
  unfold ordinary. intros Hn Hc Ho. apply andb_prop in Ho. destruct Ho as [Hnul Hinf].
  apply negb_true_iff in Hnul, Hinf.
  unfold Pd.parse_numeric. rewrite Hnul, Hinf.
  destruct (all_digits_cons n Hn) as (d & n' & -> & Hd & Hn').
  destruct (digit_cases d Hd) as (Hsp & Hminus & Hplus & _).
  destruct (ends_number_cases c Hc) as (Hcd & Hcp & Hce & Hcs).
  assert (Hspan : Pd.span_digits (String d n' ++ String c t) = (String d n', String c t)).
  { apply span_digits_app; [|exact Hcd]. cbn [Py.any_char]. rewrite Hd, Hn'. reflexivity. }
  cbn [append Pd.skip_space] in *. rewrite Hsp.
  unfold Pd.read_number, Pd.scan, Pd.after_sign. cbv zeta.
  rewrite Hminus, Hplus. cbn [orb]. rewrite Hspan. cbn [fst snd]. rewrite Hcp.
  cbn [Pd.whole Pd.fraction Pd.rest String.length Nat.add Nat.eqb].
  rewrite Hce. cbn [Pd.skip_space]. rewrite Hcs. reflexivity.
Qed.

(** *** Numerals *)

Lemma digits_acc (d : Decimal.uint) (acc : positive) :
  Pd.digits (Zpos acc) (NilEmpty.string_of_uint d) = Some (Zpos (Pos.of_uint_acc d acc)).
Proof.
  revert acc. induction d as [|d IH|d IH|d IH|d IH|d IH|d IH|d IH|d IH|d IH|d IH];
    intros acc; [reflexivity|..];
    cbn [NilEmpty.string_of_uint Pd.digits Pos.of_uint_acc];
    change (Py.is_digit _) with true; cbv iota;
    rewrite <- IH; f_equal;
    try (match goal with
         | |- context [Z.of_nat ?n] =>
             let v := eval vm_compute in (Z.of_nat n) in change (Z.of_nat n) with v
         end; lia).
Qed.

Lemma digits_zero (d : Decimal.uint) :
  Pd.digits 0 (NilEmpty.string_of_uint d) = Some (Z.of_N (Pos.of_uint d)).
Proof.
  induction d as [|d IH|d IH|d IH|d IH|d IH|d IH|d IH|d IH|d IH|d IH];
    [reflexivity | exact IH | ..];
    cbn [NilEmpty.string_of_uint Pd.digits Pos.of_uint];
    change (Py.is_digit _) with true; cbv iota;
    cbn [Z.of_N]; rewrite <- digits_acc; reflexivity.
Qed.

Lemma digits_only_uint (d : Decimal.uint) :
  Py.any_char (fun c => negb (Py.is_digit c)) (NilEmpty.string_of_uint d) = false.
Proof.
  induction d; cbn [NilEmpty.string_of_uint Py.any_char]; [reflexivity|..];
    rewrite IHd; reflexivity.
Qed.

Lemma digits_no_nul (s : string) :
  Py.any_char (fun c => negb (Py.is_digit c)) s = false ->
  Py.any_char (Ascii.eqb "000") s = false.
Proof.
  induction s as [|c s IH]; [reflexivity|]. cbn [Py.any_char]. intros H.
  apply orb_false_elim in H. destruct H as [Hc Hs]. apply negb_false_iff in Hc.
  rewrite (IH Hs), orb_false_r, Ascii.eqb_sym.
  exact (proj1 (proj2 (proj2 (proj2 (proj2 (digit_cases c Hc)))))).
Qed.

(** Digits have no white space to strip. *)
Lemma rstrip_digits (s : string) :
  Py.any_char (fun c => negb (Py.is_digit c)) s = false -> Py.rstrip s = s.
Proof.
  induction s as [|c s IH]; [reflexivity|]. cbn [Py.any_char]. intros H.
  apply orb_false_elim in H. destruct H as [Hc Hs]. apply negb_false_iff in Hc.
  destruct (digit_cases c Hc) as (_ & _ & _ & _ & _ & Hsp & _).
  cbn [Py.rstrip]. rewrite (IH Hs), Hsp. destruct s; reflexivity.
Qed.

(** Neither a text of digits nor its opposite spells infinity. *)
Lemma digits_not_infinity (d : ascii) (u : string) :
  Py.is_digit d = true ->
  Py.any_char (fun c => negb (Py.is_digit c)) u = false ->
  Pd.mem (Py.lower (Py.strip (String d u))) Pd.inf_tokens = false
  /\ Pd.mem (Py.lower (Py.strip (String "-" (String d u)))) Pd.inf_tokens = false.
Proof.
  intros Hd Hu.
  destruct (digit_cases d Hd) as (_ & _ & _ & _ & _ & Hsp & Hi & Hplus & Hminus).
  assert (Hall : Py.any_char (fun c => negb (Py.is_digit c)) (String d u) = false).
  { cbn [Py.any_char]. rewrite Hd, Hu. reflexivity. }
  assert (H1 : Py.strip (String d u) = String d u).
  { unfold Py.strip. cbn [Py.lstrip]. rewrite Hsp. exact (rstrip_digits _ Hall). }
  assert (H2 : Py.strip (String "-" (String d u)) = String "-" (String d u)).
  { unfold Py.strip.
    change (Py.lstrip (String "-" (String d u))) with (String "-" (String d u)).
    change (Py.rstrip (String "-" (String d u)))
      with (match Py.rstrip (String d u) with
            | EmptyString => String "-" EmptyString
            | r => String "-" r
            end).
    rewrite (rstrip_digits _ Hall). reflexivity. }
  rewrite H1, H2. unfold Pd.mem, Pd.inf_tokens.
  cbn [Py.lower existsb String.eqb]. rewrite Hi, Hplus, Hminus.
  split; reflexivity.
Qed.

Lemma append_empty (s : string) : (s ++ "")%string = s.
Proof. induction s as [|c s IH]; [reflexivity|]. cbn [append]. rewrite IH. reflexivity. Qed.

(** A text of digits, at most 15, reads as the integer they spell; with a
    minus sign before it, as the opposite, zero apart. *)
Lemma parse_digits (u : string) :
  all_digits u = true -> (String.length u <= 15)%nat ->
  Pd.parse_numeric u = Returns (Pd.VInt (Pd.value_of u))
  /\ (Pd.value_of u <> 0%Z ->
      Pd.parse_numeric (String "-" u) = Returns (Pd.VInt (- Pd.value_of u))).
Proof.
  intros Hu Hlen.
  destruct (all_digits_cons u Hu) as (d & u' & -> & Hd & Hu').
  assert (Hall : Py.any_char (fun c => negb (Py.is_digit c)) (String d u') = false).
  { cbn [Py.any_char]. rewrite Hd, Hu'. reflexivity. }
  destruct (digit_cases d Hd) as (Hsp & Hminus & Hplus & _).
  pose proof (span_digits_app (String d u') EmptyString Hall I) as Hspan.
  rewrite append_empty in Hspan.
  assert (Hcount : (15 <? String.length (String d u') + 0)%nat = false).
  { apply Nat.ltb_ge. rewrite Nat.add_0_r. exact Hlen. }
  split.
  - unfold Pd.parse_numeric.
    rewrite (digits_no_nul _ Hall), (proj1 (digits_not_infinity d u' Hd Hu')).
    cbn [Pd.skip_space]. rewrite Hsp, String.eqb_refl.
    unfold Pd.read_number, Pd.scan, Pd.after_sign. cbv zeta.
    rewrite Hminus, Hplus. cbn [orb]. rewrite Hspan.
    cbn [fst snd Pd.whole Pd.fraction Pd.rest Pd.negative Py.startswith].
    rewrite (Ascii.eqb_sym "-" d), Hminus. cbn [andb]. rewrite Hcount.
    cbn [String.length Nat.add Nat.eqb Pd.signed]. reflexivity.
  - intros Hz.
    assert (Hnul : Py.any_char (Ascii.eqb "000") (String "-" (String d u')) = false).
    { change (Py.any_char (Ascii.eqb "000") (String "-" (String d u')))
        with (false || Py.any_char (Ascii.eqb "000") (String d u')).
      rewrite (digits_no_nul _ Hall). reflexivity. }
    unfold Pd.parse_numeric.
    rewrite Hnul, (proj2 (digits_not_infinity d u' Hd Hu')).
    change (Pd.skip_space (String "-" (String d u'))) with (String "-" (String d u')).
    rewrite String.eqb_refl.
    unfold Pd.read_number, Pd.scan. cbv zeta.
    change (Pd.after_sign (String "-" (String d u'))) with (String d u').
    rewrite Hspan.
    change (Py.startswith "-" (String "-" (String d u'))) with true.
    cbn [fst snd Pd.whole Pd.fraction Pd.rest Pd.negative andb].
    rewrite Hcount. cbn [String.length Nat.add Nat.eqb Pd.signed].
    destruct (Pd.value_of (String d u') =? 0)%Z eqn:Hv;
      [apply Z.eqb_eq in Hv; contradiction|reflexivity].
Qed.

Lemma astype_int_finite (nums : list Pd.value) :
  Forall (fun w => forall s, w <> Pd.VStr s) nums ->
  existsb is_inf nums = false ->
  Pd.astype_int (Pd.fillna (Pd.VInt 0) nums) = Returns (map integer_of nums).
Proof.
  unfold Pd.astype_int. intros Hn Hi.
  assert (H : forallb Pd.is_finite (Pd.fillna (Pd.VInt 0) nums) = true
              /\ mapM Pd.astype_int1 (Pd.fillna (Pd.VInt 0) nums)
                 = Returns (map integer_of nums)).
  { induction Hn as [|w ws Hw Hws IH]; [split; reflexivity|].
    cbn [existsb] in Hi. apply orb_false_elim in Hi. destruct Hi as [Hwi Hi].
    destruct (IH Hi) as [IH1 IH2].
    cbn [Pd.fillna map forallb mapM]. fold (Pd.fillna (Pd.VInt 0) ws).
    rewrite IH1, IH2.
    destruct w as [s| | | | |]; try discriminate Hwi; try (split; reflexivity).
    exfalso. exact (Hw s eq_refl). }
  destruct H as [-> ->]. reflexivity.
Qed.

Lemma astype_int_infinite (nums : list Pd.value) :
  existsb is_inf nums = true ->
  Pd.astype_int (Pd.fillna (Pd.VInt 0) nums)
  = Raises (IntCastingNaNError "Cannot convert non-finite values (NA or inf) to integer").
Proof.
  unfold Pd.astype_int. intros Hi.
  assert (H : forallb Pd.is_finite (Pd.fillna (Pd.VInt 0) nums) = false).
  { induction nums as [|w ws IH]; [discriminate|].
    cbn [existsb] in Hi. cbn [Pd.fillna map forallb]. fold (Pd.fillna (Pd.VInt 0) ws).
    destruct w; cbn in Hi |- *; try reflexivity; apply IH; exact Hi. }
  rewrite H. reflexivity.
Qed.

Lemma str_int_pos (p : positive) :
  all_digits (Py.str_int (Zpos p)) = true
  /\ Pd.value_of (Py.str_int (Zpos p)) = Zpos p
  /\ Py.str_int (Zneg p) = String "-" (Py.str_int (Zpos p)).
Proof.
  unfold Py.str_int. cbn [Z.to_int NilZero.string_of_int]. unfold NilZero.string_of_uint.
  pose proof (Unsigned.to_uint_nonnil p) as Hnil.
  assert (H : all_digits (NilEmpty.string_of_uint (Pos.to_uint p)) = true
              /\ Pd.value_of (NilEmpty.string_of_uint (Pos.to_uint p)) = Zpos p).
  { split.
    - unfold all_digits. rewrite digits_only_uint.
      destruct (Pos.to_uint p); [contradiction Hnil; reflexivity|reflexivity..].
    - unfold Pd.value_of. rewrite digits_zero, Unsigned.of_to. reflexivity. }
  destruct (Pos.to_uint p); [contradiction Hnil; reflexivity|..];
    (split; [exact (proj1 H)|split; [exact (proj2 H)|reflexivity]]).
Qed.

(** The salary text of an integer of at most 15 digits gives that integer. *)
Lemma salary_cell_numeral (z : Z) :
  (String.length (Py.str_int (Z.abs z)) <= 15)%nat ->
  salary_cell (Pd.VStr (Py.str_int z)) = Returns z.
Proof.
  intros Hlen. unfold salary_cell. cbn [Pd.to_numeric_coerce1].
  destruct z as [|p|p]; [reflexivity|..]; cbn [Z.abs] in Hlen;
    destruct (str_int_pos p) as (Hall & Hval & Hneg);
    destruct (parse_digits _ Hall Hlen) as [Hpos Hminus].
  - rewrite Hpos, Hval. reflexivity.
  - rewrite Hneg, Hminus, Hval; [reflexivity|]. rewrite Hval. discriminate.
Qed.

Lemma salary_cell_no_number (s : string) :
  Pd.parse_numeric s = Returns Pd.VNaN -> salary_cell (Pd.VStr s) = Returns 0%Z.
Proof. intros H. unfold salary_cell. cbn [Pd.to_numeric_coerce1]. rewrite H. reflexivity. Qed.

Lemma normalizes_salary_cell (v : Pd.value) (z : Z) :
  normalizes v z -> salary_cell v = Returns z.
Proof.
  intros [ | s Ho Hu | n c t Hn Hc Ho | z' Hlen].
  - reflexivity.
  - apply salary_cell_no_number. exact (parse_unlike_number s Ho Hu).
  - apply salary_cell_no_number. exact (parse_number_then_junk n c t Hn Hc Ho).
  - exact (salary_cell_numeral z' Hlen).
Qed.

Lemma normalizes_column (col : list Pd.value) (zs : list Z) :
  Forall2 normalizes col zs -> mapM salary_cell col = Returns zs.
Proof.
  induction 1 as [|v z col zs Hv _ IH]; [reflexivity|].
  cbn [mapM]. rewrite (normalizes_salary_cell v z Hv), IH. reflexivity.
Qed.

(** C3, as amended: line 59 parses each Salary cell as a number, and a cell
    that does not parse counts as NaN and raises nothing.  So it is for
    every text that does not start as a number does, and for digits followed
    by a character that ends a number, such as a comma (texts with a NUL
    character or that spell infinity apart); an integer numeral of at most
    15 digits gives its own value; and a column of such cells and of empty
    cells is normalized whole, whatever their number and order.  A column
    as [read_csv] types it is normalized cell by cell: when no cell parses
    as an infinity, NaN becomes 0 and every other number its integer cast,
    so that the cells "", "12000", "abc", "1,200", "$500" and "12000.50"
    give 0, 12000, 0, 0, 0 and 12000; when some cell parses as an infinity
    the cast raises, and with it the load. *)
Theorem salary_normalization :
  (forall s, ordinary s = true -> unlike_number s = true ->
     salary_cell (Pd.VStr s) = Returns 0%Z)
  /\ (forall n c t,
        all_digits n = true -> ends_number c = true ->
        ordinary (n ++ String c t) = true ->
        salary_cell (Pd.VStr (n ++ String c t)) = Returns 0%Z)
  /\ (forall z, (String.length (Py.str_int (Z.abs z)) <= 15)%nat ->
        salary_cell (Pd.VStr (Py.str_int z)) = Returns z)
  /\ (forall col zs,
        Forall2 normalizes col zs -> coerce_salary col = Returns (map Pd.VInt zs))
  /\ (forall col zs,
        read_column col = true ->
        mapM salary_cell col = Returns zs ->
        coerce_salary col = Returns (map Pd.VInt zs))
  /\ (forall col e, Pd.to_numeric_coerce col <> Raises e)
  /\ (forall col nums,
        read_column col = true ->
        Pd.to_numeric_coerce col = Returns nums ->
        (existsb is_inf nums = false ->
         coerce_salary col = Returns (map integer_of nums))
        /\ (existsb is_inf nums = true ->
            coerce_salary col
            = Raises (IntCastingNaNError
                        "Cannot convert non-finite values (NA or inf) to integer")))
  /\ Pd.to_numeric_coerce [Pd.VStr ""; Pd.VStr "12000"; Pd.VStr "abc"]
     = Returns [Pd.VNaN; Pd.VFloat 12000 "12000.0"; Pd.VNaN]
  /\ coerce_salary [Pd.VStr ""; Pd.VStr "12000"; Pd.VStr "abc"; Pd.VStr "1,200";
                    Pd.VStr "$500"; Pd.VStr "12000.50"]
     = Returns [Pd.VInt 0; Pd.VInt 12000; Pd.VInt 0; Pd.VInt 0; Pd.VInt 0;
                Pd.VInt 12000].
Proof.
  split; [|split; [|split; [|split; [|split; [|split; [|split]]]]]];
    [| | | | | | | split; reflexivity].
  - intros s Ho Hu. apply salary_cell_no_number. exact (parse_unlike_number s Ho Hu).
  - intros n c t Hn Hc Ho. apply salary_cell_no_number.
    exact (parse_number_then_junk n c t Hn Hc Ho).
  - exact salary_cell_numeral.
  - intros col zs H. apply coerce_salary_returns. exact (normalizes_column col zs H).
  - intros col zs _. exact (coerce_salary_returns col zs).
  - exact to_numeric_coerce_never_raises.
  - intros col nums _ Hn. unfold coerce_salary. rewrite Hn. cbn [bind]. split.
    + apply astype_int_finite. exact (to_numeric_coerce_numbers col nums Hn).
    + apply astype_int_infinite.
Qed.

Lemma salary_normalization_witness :
  salary_cell (Pd.VStr "PKR 500") = Returns 0%Z
  /\ salary_cell (Pd.VStr "1,200") = Returns 0%Z
  /\ salary_cell (Pd.VStr "-450") = Returns (-450)%Z
  /\ coerce_salary [Pd.VStr "7"; Pd.VStr "3.9"; Pd.VNaN; Pd.VStr "n/a"]
     = Returns [Pd.VInt 7; Pd.VInt 3; Pd.VInt 0; Pd.VInt 0]
  /\ coerce_salary [Pd.VFloat 5 "5.0"; Pd.VInf true]
     = Raises (IntCastingNaNError "Cannot convert non-finite values (NA or inf) to integer").
Proof.
  destruct salary_normalization as (Htext & Hjunk & Hint & _ & Hcol & _ & Hcast & _).
  split; [exact (Htext "PKR 500" eq_refl eq_refl)|].
  split; [exact (Hjunk "1" ","%char "200" eq_refl eq_refl eq_refl)|].
  split; [apply (Hint (-450)%Z); cbn; lia|].
  split.
  - exact (Hcol [Pd.VStr "7"; Pd.VStr "3.9"; Pd.VNaN; Pd.VStr "n/a"]
                [7; 3; 0; 0]%Z eq_refl eq_refl).
  - exact (proj2 (Hcast [Pd.VFloat 5 "5.0"; Pd.VInf true]
                        [Pd.VFloat 5 "5.0"; Pd.VInf true] eq_refl eq_refl) eq_refl).
Defined.

(** C3, as stated, fails: the cell "inf" parses, as an infinity, the integer
    cast refuses it, and the load is aborted. *)
Lemma infinite_salary_aborts_the_load :
  coerce_salary [Pd.VStr "abc"; Pd.VStr "inf"]
  = Raises (IntCastingNaNError "Cannot convert non-finite values (NA or inf) to integer")
  /\ clean infinite_salary
     = Raises (IntCastingNaNError "Cannot convert non-finite values (NA or inf) to integer")
  /\ ~ (exists out, clean infinite_salary = Returns out).
Proof.
  split; [reflexivity|]. split; [reflexivity|]. intros (out & H). discriminate H.
Qed.

(* ================================================================== *)
(** ** The records of a cleaned frame *)

Lemma field_kept (hdr : list string) (r : list Pd.value) (z : Z) (label : string) :
  In label kept_columns -> field label (cleaned_row hdr r z) = cell hdr label r.
Proof.
  intros H. cbn [kept_columns In] in H.
  repeat (destruct H as [<-|H]; [reflexivity|]). destruct H.
Qed.

Lemma Forall2_combine_map {A B C} (P : A -> C -> Prop) (f : A * B -> C)
      (l : list A) (l' : list B) :
  List.length l' = List.length l ->
  (forall x y, P x (f (x, y))) ->
  Forall2 P l (map f (combine l l')).
Proof.
  intros Hlen Hf. revert l' Hlen.
  induction l as [|x l IH]; intros [|y l'] Hlen; try discriminate Hlen;
    cbn [combine map]; constructor; [apply Hf|].
  apply IH. inversion Hlen. reflexivity.
Qed.

(** C9, as amended: in every frame that the cleaning returns, every record
    has an integer Salary and strings for District, College, Category,
    Action and Reason; a column that the input lacks (its labels being ASCII
    text) holds the empty string in every record, 0 for Salary; and Gender,
    Type, Name and Designation hold, row by row, the very cell that was
    read, which is NaN for an empty cell. *)
Theorem cleaned_records (df out : Pd.DataFrame) :
  clean df = Returns out ->
  cleaned out
  /\ (ascii_labels df = true ->
      (forall c, In c COLUMNS_TO_KEEP -> c <> "Salary" ->
         Pd.get_loc c (headers df) = None ->
         Forall (fun r => field c r = Pd.VStr "") (Pd.data out))
      /\ (Pd.get_loc "Salary" (headers df) = None ->
          Forall (fun r => field "Salary" r = Pd.VInt 0) (Pd.data out))
      /\ Forall2 (fun r r' =>
                    forall c, In c kept_columns ->
                      field c r' = cell (headers df) c r
                      /\ (cell (headers df) c r = Pd.VNaN -> field c r' = Pd.VNaN))
                 (Pd.data df) (Pd.data out)).
Proof.
  intros H. split; [exact (clean_cleaned df out H)|]. intros _.
  destruct (clean_inv df out H) as (_ & zs & Hzs & ->). cbn [Pd.data].
  split; [|split].
  - intros c Hc Hs Habs. apply Forall_forall. intros row Hrow.
    apply in_map_iff in Hrow. destruct Hrow as ([r z] & <- & _). cbn [fst snd].
    cbn [COLUMNS_TO_KEEP In] in Hc.
    repeat (destruct Hc as [<-|Hc];
            [first [ contradiction Hs; reflexivity
                   | unfold field, cleaned_row, cell; rewrite Habs; reflexivity ] |]).
    destruct Hc.
  - intros Habs. apply Forall_forall. intros row Hrow.
    apply in_map_iff in Hrow. destruct Hrow as ([r z] & <- & Hin). cbn [fst snd].
    rewrite mapM_map in Hzs.
    pose proof (mapM_In_combine _ _ _ Hzs r z Hin) as Hz.
    unfold cell in Hz. rewrite Habs in Hz. inversion Hz. reflexivity.
  - apply Forall2_combine_map.
    + rewrite (mapM_length _ _ _ Hzs). apply length_map.
    + intros r z c Hc. cbn [fst snd]. rewrite (field_kept _ _ _ _ Hc).
      split; [reflexivity|]. intros Hnan. exact Hnan.
Qed.

Lemma cleaned_records_witness :
  exists out, clean ragged_labels = Returns out
              /\ cleaned out
              /\ Forall (fun r => field "Reason" r = Pd.VStr "") (Pd.data out).
Proof.
  eexists. split; [reflexivity|].
  destruct (cleaned_records ragged_labels _ eq_refl) as (Hc & Hrest).
  destruct (Hrest eq_refl) as (Habs & _).
  split; [exact Hc|].
  apply (Habs "Reason"); [cbn; tauto | discriminate | reflexivity].
Defined.

(** C9, as stated, fails: a negative Salary cell stays negative, and an
    empty Name cell stays NaN. *)
Lemma negative_salary_and_missing_name :
  clean negative_and_missing
  = Returns (Pd.mkDataFrame COLUMNS_TO_KEEP
      [[Pd.VStr ""; Pd.VStr ""; Pd.VStr ""; Pd.VStr ""; Pd.VStr ""; Pd.VStr "";
        Pd.VStr "Ali"; Pd.VStr ""; Pd.VInt (-5); Pd.VStr ""];
       [Pd.VStr ""; Pd.VStr ""; Pd.VStr ""; Pd.VStr ""; Pd.VStr ""; Pd.VStr "";
        Pd.VNaN; Pd.VStr ""; Pd.VInt 100; Pd.VStr ""]])
  /\ ~ (forall out, clean negative_and_missing = Returns out ->
        Forall (fun r => (0 <= salary_of r)%Z /\ Forall (fun v => v <> Pd.VNaN) r)
               (Pd.data out)).
Proof.
  split; [reflexivity|]. intros H.
  specialize (H _ eq_refl). cbn [Pd.data] in H.
  inversion H as [|r rs [Hneg _] _]. apply Hneg. reflexivity.
Qed.

(* ================================================================== *)
(** ** The indicators *)

Lemma record_cases (r : list Pd.value) :
  is_record r = true ->
  exists d c g t cat a n des z re,
    r = [Pd.VStr d; Pd.VStr c; g; t; Pd.VStr cat; Pd.VStr a; n; des; Pd.VInt z; Pd.VStr re].
Proof.
  intros H.
  destruct r as [|[d| | | | |] r]; try discriminate H.
  destruct r as [|[c| | | | |] r]; try discriminate H.
  destruct r as [|g r]; try discriminate H.
  destruct r as [|t r]; try discriminate H.
  destruct r as [|[cat| | | | |] r]; try discriminate H.
  destruct r as [|[a| | | | |] r]; try discriminate H.
  destruct r as [|n r]; try discriminate H.
  destruct r as [|des r]; try discriminate H.
  destruct r as [|[|z| | | |] r]; try discriminate H.
  destruct r as [|[re| | | | |] r]; try discriminate H.
  destruct r; try discriminate H.
  repeat eexists.
Qed.

Lemma text_column {B} (f : string -> B) (label : string) (i : nat)
      (rows : list (list Pd.value)) :
  In (label, i) text_columns ->
  forallb is_record rows = true ->
  mapM (fun v => match v with
                 | Pd.VStr s => Returns (f s)
                 | _ => OutOfScope
                 end) (map (fun r => nth i r Pd.VNaN) rows)
  = Returns (map (fun r => f (field_str label r)) rows).
Proof.
  intros Hin. induction rows as [|r rows IH]; intros H; [reflexivity|].
  cbn [forallb] in H. apply andb_prop in H. destruct H as [Hr Hrows].
  cbn [map mapM]. rewrite (IH Hrows).
  destruct (record_cases r Hr) as (d & c & g & t & cat & a & n & des & z & re & ->).
  cbn [text_columns In] in Hin.
  repeat (destruct Hin as [Heq|Hin]; [inversion Heq; subst; reflexivity|]).
  destruct Hin.
Qed.

Lemma salary_column (rows : list (list Pd.value)) :
  forallb is_record rows = true ->
  Pd.ints (map (fun r => nth 8 r Pd.VNaN) rows) = Returns (map salary_of rows).
Proof.
  unfold Pd.ints. induction rows as [|r rows IH]; intros H; [reflexivity|].
  cbn [forallb] in H. apply andb_prop in H. destruct H as [Hr Hrows].
  cbn [map mapM]. rewrite (IH Hrows).
  destruct (record_cases r Hr) as (d & c & g & t & cat & a & n & des & z & re & ->).
  reflexivity.
Qed.

Lemma getitem_cleaned (df : Pd.DataFrame) (label : string) (i : nat) :
  Pd.columns df = COLUMNS_TO_KEEP ->
  Pd.get_loc label COLUMNS_TO_KEEP = Some i ->
  existsb (String.eqb label) (skipn (S i) COLUMNS_TO_KEEP) = false ->
  Pd.getitem df label = Returns (map (fun r => nth i r Pd.VNaN) (Pd.data df)).
Proof.
  intros Hc Hl Hd. unfold Pd.getitem. rewrite Hc, Hl, Hd. reflexivity.
Qed.

(** The count of one indicator: the records whose field contains the
    pattern, without regard to case. *)
Lemma count_contains_literal (df : Pd.DataFrame) (label pat : string) (i : nat) :
  cleaned df ->
  In (label, i) text_columns ->
  Re.has_meta pat = false ->
  count_contains df label pat = Returns (count_where label (contains_nocase pat) df).
Proof.
  intros [Hc Hr] Hin Hm. unfold count_contains.
  assert (Hg : Pd.getitem df label
               = Returns (map (fun r => nth i r Pd.VNaN) (Pd.data df))).
  { cbn [text_columns In] in Hin.
    repeat (destruct Hin as [Heq|Hin];
            [inversion Heq; subst; apply getitem_cleaned; [exact Hc|reflexivity..]|]).
    destruct Hin. }
  rewrite Hg. cbn [bind]. unfold Pd.str_contains.
  rewrite (compile_literal pat Hm). cbn [bind negb].
  rewrite (text_column (Re.search true (literal pat)) label i _ Hin Hr). cbn [bind].
  rewrite select_map. cbn [Pd.data]. unfold count_where. do 3 f_equal.
  apply filter_ext. intros r. apply search_literal_nocase.
Qed.

(** C4: on a cleaned frame with rows, the indicators Warnings, Explanations
    and Inquiries count the records whose Action contains "Warning",
    "Explanation" and "Inquiry", without regard to case; containment, not
    equality, so that the Action "Final Warning" counts as a warning.  For
    Actions in ASCII text, where case is that of the letters A..Z. *)
Theorem kpi_action_counts (df : Pd.DataFrame) :
  cleaned df ->
  Pd.empty df = false ->
  ascii_column COLUMNS_TO_KEEP "Action" (Pd.data df) = true ->
  exists kpis,
    calculate_kpis df = Returns kpis
    /\ get kpis "Warnings" 0 = count_where "Action" (contains_nocase "Warning") df
    /\ get kpis "Explanations" 0 = count_where "Action" (contains_nocase "Explanation") df
    /\ get kpis "Inquiries" 0 = count_where "Action" (contains_nocase "Inquiry") df
    /\ contains_nocase "Warning" "Final Warning" = true.
Proof.
  intros Hcl He _. pose proof Hcl as [Hc Hr]. unfold calculate_kpis. rewrite He.
  rewrite (getitem_cleaned df "College" 1 Hc eq_refl eq_refl). cbn [bind].
  unfold Pd.nunique, Pd.strings.
  rewrite (text_column (fun s => s) "College" 1 _ (or_intror (or_introl eq_refl)) Hr).
  cbn [bind].
  rewrite (getitem_cleaned df "Salary" 8 Hc eq_refl eq_refl). cbn [bind].
  unfold Pd.sum. rewrite (salary_column _ Hr). cbn [bind].
  rewrite (getitem_cleaned df "Category" 4 Hc eq_refl eq_refl). cbn [bind].
  rewrite (count_contains_literal df "Action" "Warning" 5 Hcl); [|cbn; tauto|reflexivity].
  rewrite (count_contains_literal df "Action" "Explanation" 5 Hcl); [|cbn; tauto|reflexivity].
  rewrite (count_contains_literal df "Action" "Inquiry" 5 Hcl); [|cbn; tauto|reflexivity].
  cbn [bind]. eexists. split; [reflexivity|]. repeat split.
Qed.

Lemma kpi_action_counts_witness :
  exists kpis,
    calculate_kpis one_record = Returns kpis /\ get kpis "Warnings" 0 = 1%Z.
Proof.
  destruct (kpi_action_counts one_record) as (kpis & Hk & Hw & _).
  - split; reflexivity.
  - reflexivity.
  - reflexivity.
  - exists kpis. split; [exact Hk|]. rewrite Hw. reflexivity.
Defined.

(* ================================================================== *)
(** ** The sample data *)

Lemma load_data_sample (read_csv_url : string -> outcome Pd.DataFrame) :
  load_data read_csv_url ""
  = ([info "Showing sample data. Enter your Google Sheet 'Publish to Web' CSV link above to load live data."],
     Returns fallback_frame).
Proof. vm_compute. reflexivity. Qed.

Lemma fallback_is_cleaned : cleaned fallback_frame.
Proof. split; reflexivity. Qed.

(** C5, as amended: on the fifteen sample rows the indicators are
    Total Actions = 15 and Unique Colleges = 7, the number of distinct
    College strings, and Warnings = 9, which is also the number of rows
    whose Action is exactly "Warning". *)
Theorem fallback_kpis :
  forall read_csv_url,
    snd (load_data read_csv_url "") = Returns fallback_frame
    /\ List.length (Pd.data fallback_frame) = 15
    /\ exists kpis,
        calculate_kpis fallback_frame = Returns kpis
        /\ get kpis "Total Actions" 0 = 15%Z
        /\ get kpis "Unique Colleges" 0 = 7%Z
        /\ List.length (nodup string_dec (map (field_str "College") (Pd.data fallback_frame))) = 7
        /\ get kpis "Warnings" 0 = 9%Z
        /\ count_where "Action" (String.eqb "Warning") fallback_frame = 9%Z
        /\ (count_where "Action" (String.eqb "Warning") fallback_frame
            <= get kpis "Warnings" 0)%Z.
Proof.
  intros f. split; [rewrite load_data_sample; reflexivity|].
  split; [reflexivity|].
  eexists. split; [vm_compute; reflexivity|].
  repeat split; vm_compute; try reflexivity. discriminate.
Qed.

(** C5, as stated, fails: the sample rows name 7 colleges, not 9. *)
Lemma fallback_unique_colleges_not_9 :
  (df <- fallback ;; kpis <- calculate_kpis df ;;
   Returns (get kpis "Unique Colleges" 0)) = Returns 7%Z
  /\ (df <- fallback ;; kpis <- calculate_kpis df ;;
      Returns (get kpis "Unique Colleges" 0)) <> Returns 9%Z.
Proof. split; [vm_compute; reflexivity|]. vm_compute. discriminate. Qed.

(** C6, as amended: on the sample rows the term "proxy" selects exactly the
    rows whose Reason contains it without regard to case, which are the 6
    rows whose Reason is "Proxy Attendance". *)
Theorem fallback_proxy :
  forall read_csv_url,
    snd (load_data read_csv_url "") = Returns fallback_frame
    /\ exists out,
        filtered_df fallback_frame "proxy" = Returns out
        /\ Pd.data out
           = filter (fun r => contains_nocase "proxy" (field_str "Reason" r))
                    (Pd.data fallback_frame)
        /\ Pd.data out
           = filter (fun r => String.eqb (field_str "Reason" r) "Proxy Attendance")
                    (Pd.data fallback_frame)
        /\ List.length (Pd.data out) = 6.
Proof.
  intros f. split; [rewrite load_data_sample; reflexivity|].
  eexists. split; [vm_compute; reflexivity|].
  repeat split; vm_compute; reflexivity.
Qed.

(** C6, as stated, fails: "proxy" selects 6 of the sample rows, not 5. *)
Lemma fallback_proxy_not_5 :
  (df <- fallback ;; out <- filtered_df df "proxy" ;;
   Returns (List.length (Pd.data out))) = Returns 6
  /\ (df <- fallback ;; out <- filtered_df df "proxy" ;;
      Returns (List.length (Pd.data out))) <> Returns 5.
Proof. split; [vm_compute; reflexivity|]. vm_compute. discriminate. Qed.

(* ================================================================== *)
(** ** A load that fails *)

(** C8: when a link is given and reading it raises, [load_data] shows one
    error message, which carries the text of the exception, returns the
    empty frame, and raises nothing. *)
Theorem load_failure_is_caught
        (read_csv_url : string -> outcome Pd.DataFrame) (url : string) (e : exn) :
  url <> "" ->
  read_csv_url url = Raises e ->
  load_data read_csv_url url
  = ([error ("Error loading data from URL. Please check the link format. Details: "
             ++ exn_str e)%string],
     Returns Pd.DataFrame_empty)
  /\ Pd.empty Pd.DataFrame_empty = true
  /\ Pd.data Pd.DataFrame_empty = [].
Proof.
  intros Hu He. unfold load_data.
  assert (Ht : Py.truthy url = true) by (destruct url; [contradiction|reflexivity]).
  rewrite Ht, He. repeat split.
Qed.

Lemma load_failure_is_caught_witness :
  load_data offline "https://docs.google.com/spreadsheets/d/e/x/pub?output=csv"
  = ([error "Error loading data from URL. Please check the link format. Details: <urlopen error [Errno -2] Name or service not known>"],
     Returns Pd.DataFrame_empty).
Proof.
  refine (proj1 (load_failure_is_caught offline _ _ _ eq_refl)). discriminate.
Defined.

(* ================================================================== *)
(** ** The counts of the charts *)

Lemma insert_desc_perm (x : string * nat) (l : list (string * nat)) :
  Permutation (Pd.insert_desc x l) (x :: l).
Proof.
  induction l as [|y l IH]; cbn [Pd.insert_desc]; [reflexivity|].
  destruct (snd x <? snd y)%nat; [|reflexivity].
  rewrite IH. apply perm_swap.
Qed.

Lemma sort_desc_perm (l : list (string * nat)) : Permutation (Pd.sort_desc l) l.
Proof.
  unfold Pd.sort_desc. induction l as [|x l IH]; cbn [fold_right]; [reflexivity|].
  rewrite insert_desc_perm, IH. reflexivity.
Qed.

Lemma insert_desc_descending (x : string * nat) (l : list (string * nat)) :
  descending l -> descending (Pd.insert_desc x l).
Proof.
  unfold descending. induction l as [|y l IH]; intros H; cbn [Pd.insert_desc].
  - constructor; constructor.
  - apply StronglySorted_inv in H. destruct H as [Hl Hy].
    destruct (snd x <? snd y)%nat eqn:Hxy.
    + apply Nat.ltb_lt in Hxy. constructor; [exact (IH Hl)|].
      apply (Permutation_Forall (Permutation_sym (insert_desc_perm x l))).
      constructor; [lia | exact Hy].
    + apply Nat.ltb_ge in Hxy. constructor; [constructor; assumption|].
      constructor; [exact Hxy|].
      apply (Forall_impl _ (fun b (Hb : snd b <= snd y) => Nat.le_trans _ _ _ Hb Hxy) Hy).
Qed.

Lemma sort_desc_descending (l : list (string * nat)) : descending (Pd.sort_desc l).
Proof.
  unfold Pd.sort_desc. induction l as [|x l IH]; cbn [fold_right].
  - constructor.
  - apply insert_desc_descending. exact IH.
Qed.

Lemma firstn_descending (n : nat) (l : list (string * nat)) :
  descending l -> descending (firstn n l).
Proof.
  unfold descending. revert l. induction n as [|n IH]; intros l H; [constructor|].
  destruct l as [|x l]; [constructor|].
  apply StronglySorted_inv in H. destruct H as [Hl Hx].
  cbn [firstn]. constructor; [exact (IH l Hl)|].
  apply Forall_forall. intros y Hy.
  rewrite Forall_forall in Hx. apply Hx.
  rewrite <- (firstn_skipn n l). apply in_or_app. left. exact Hy.
Qed.

Lemma firstn_NoDup {A} (n : nat) (l : list A) : NoDup l -> NoDup (firstn n l).
Proof.
  intros H. rewrite <- (firstn_skipn n l) in H. exact (NoDup_app_remove_r _ _ H).
Qed.

Lemma unique_In (x : string) (l : list string) : In x (Pd.unique l) <-> In x l.
Proof.
  induction l as [|y l IH]; cbn [Pd.unique]; [reflexivity|]. split.
  - intros [->|H]; [left; reflexivity|].
    apply filter_In in H. right. apply IH. exact (proj1 H).
  - intros [->|H]; [left; reflexivity|].
    destruct (String.eqb_spec y x) as [->|Hne]; [left; reflexivity|].
    right. apply filter_In. split; [apply IH; exact H|].
    apply negb_true_iff. apply String.eqb_neq. exact Hne.
Qed.

Lemma unique_NoDup (l : list string) : NoDup (Pd.unique l).
Proof.
  induction l as [|y l IH]; cbn [Pd.unique]; constructor.
  - intros H. apply filter_In in H. destruct H as [_ H].
    rewrite String.eqb_refl in H. discriminate H.
  - apply NoDup_filter. exact IH.
Qed.

Lemma count_records (label x : string) (df : Pd.DataFrame) :
  Pd.count x (map (field_str label) (Pd.data df)) = records_with label x df.
Proof.
  unfold Pd.count, records_with.
  induction (Pd.data df) as [|r rows IH]; cbn [map filter]; [reflexivity|].
  rewrite (String.eqb_sym x). destruct (String.eqb (field_str label r) x);
    cbn [List.length]; rewrite IH; reflexivity.
Qed.

Lemma count_positive (x : string) (l : list string) : In x l -> 0 < Pd.count x l.
Proof.
  unfold Pd.count. induction l as [|y l IH]; intros H; [destruct H|].
  cbn [filter]. destruct (String.eqb_spec x y) as [->|Hne]; [cbn; lia|].
  destruct H as [->|H]; [contradiction Hne; reflexivity|]. exact (IH H).
Qed.

(** The groups before they are cut to five: one per distinct Reason, with
    its count, the largest first. *)
Lemma reason_counts_spec (df : Pd.DataFrame) :
  cleaned df ->
  let l := map (field_str "Reason") (Pd.data df) in
  reason_counts df
  = Returns (firstn 5 (Pd.sort_desc (Pd.sort_desc
               (map (fun x => (x, Pd.count x l)) (Pd.unique l))))).
Proof.
  intros [Hc Hr] l. unfold reason_counts.
  rewrite (getitem_cleaned df "Reason" 9 Hc eq_refl eq_refl). cbn [bind].
  unfold Pd.value_counts, Pd.strings.
  rewrite (text_column (fun s => s) "Reason" 9 _
             (or_intror (or_intror (or_intror (or_intror (or_introl eq_refl))))) Hr).
  reflexivity.
Qed.

(** C7: on a cleaned frame the chart of reasons gets at most 5 groups, one
    per Reason string, each with the number of records that have exactly
    that Reason, the largest count first; the first group has the largest
    count of all Reasons, and another group with the same count is the group
    of another Reason: a tie. *)
Theorem top_reasons (df : Pd.DataFrame) :
  cleaned df ->
  exists res,
    reason_counts df = Returns res
    /\ List.length res <= 5
    /\ NoDup (map fst res)
    /\ (forall x c, In (x, c) res -> c = records_with "Reason" x df /\ 0 < c)
    /\ descending res
    /\ (forall top rest, res = top :: rest ->
        (forall r, In r (Pd.data df) ->
                   records_with "Reason" (field_str "Reason" r) df <= snd top)
        /\ (forall g, In g rest -> snd g = snd top -> fst g <> fst top)).
Proof.
  intros Hcl. pose proof (reason_counts_spec df Hcl) as Hres. cbv zeta in Hres.
  set (l := map (field_str "Reason") (Pd.data df)) in *.
  set (groups := map (fun x => (x, Pd.count x l)) (Pd.unique l)) in *.
  set (sorted := Pd.sort_desc (Pd.sort_desc groups)) in *.
  assert (Hperm : Permutation sorted groups).
  { unfold sorted. rewrite !sort_desc_perm. reflexivity. }
  assert (Hdesc : descending sorted) by apply sort_desc_descending.
  assert (Hlabels : map fst groups = Pd.unique l).
  { unfold groups. rewrite map_map. apply map_id. }
  assert (Hnd : NoDup (map fst sorted)).
  { apply (Permutation_NoDup (Permutation_map fst (Permutation_sym Hperm))).
    rewrite Hlabels. apply unique_NoDup. }
  assert (Hin : forall x c, In (x, c) sorted -> In x l /\ c = Pd.count x l).
  { intros x c H. apply (Permutation_in _ Hperm) in H. unfold groups in H.
    apply in_map_iff in H. destruct H as (y & Hy & Hu). inversion Hy; subst.
    split; [apply unique_In; exact Hu | reflexivity]. }
  assert (Hsub : forall g, In g (firstn 5 sorted) -> In g sorted).
  { intros g Hg. rewrite <- (firstn_skipn 5 sorted). apply in_or_app. left. exact Hg. }
  exists (firstn 5 sorted). split; [exact Hres|].
  split; [apply firstn_le_length|].
  split; [rewrite <- firstn_map; apply firstn_NoDup; exact Hnd|].
  split.
  { intros x c H. destruct (Hin x c (Hsub _ H)) as [Hx ->].
    unfold l. rewrite count_records. split; [reflexivity|].
    rewrite <- count_records. apply count_positive. exact Hx. }
  split; [apply firstn_descending; exact Hdesc|].
  intros top rest Heq. split.
  - intros r Hr.
    assert (Hg : In (field_str "Reason" r, Pd.count (field_str "Reason" r) l) sorted).
    { apply (Permutation_in _ (Permutation_sym Hperm)). unfold groups.
      apply in_map_iff. exists (field_str "Reason" r). split; [reflexivity|].
      apply unique_In. unfold l. apply in_map. exact Hr. }
    rewrite <- count_records. fold l.
    destruct sorted as [|s0 sorted']; [discriminate Heq|].
    cbn [firstn] in Heq. injection Heq as Htop _. subst top.
    apply StronglySorted_inv in Hdesc. destruct Hdesc as [_ Hall].
    destruct Hg as [->|Hg]; [apply Nat.le_refl|].
    rewrite Forall_forall in Hall. exact (Hall _ Hg).
  - intros g Hg Hsame Hlabel.
    assert (Hnd5 : NoDup (map fst (firstn 5 sorted)))
      by (rewrite <- firstn_map; apply firstn_NoDup; exact Hnd).
    rewrite Heq in Hnd5. cbn [map] in Hnd5. apply NoDup_cons_iff in Hnd5.
    apply (proj1 Hnd5). rewrite <- Hlabel. apply in_map. exact Hg.
Qed.

Lemma top_reasons_witness :
  exists res,
    reason_counts fallback_frame = Returns res
    /\ List.length res <= 5
    /\ (forall x c, In (x, c) res -> c = records_with "Reason" x fallback_frame /\ 0 < c).
Proof.
  destruct (top_reasons fallback_frame (conj eq_refl eq_refl))
    as (res & H1 & H2 & _ & H4 & _).
  exists res. split; [exact H1|]. split; [exact H2 | exact H4].
Defined.

(* ================================================================== *)
(** ** More about texts *)

Lemma lstrip_head (s : string) :
  Py.lstrip s = EmptyString
  \/ exists c t, Py.lstrip s = String c t /\ Py.is_space c = false.
Proof.
  induction s as [|c s IH]; [left; reflexivity|].
  cbn [Py.lstrip]. destruct (Py.is_space c) eqn:Hc; [exact IH|].
  right. exists c, s. split; [reflexivity | exact Hc].
Qed.

Lemma rstrip_head (c : ascii) (s : string) :
  Py.is_space c = false -> Py.rstrip (String c s) = String c (Py.rstrip s).
Proof.
  intros Hc. cbn [Py.rstrip]. destruct (Py.rstrip s); [rewrite Hc|]; reflexivity.
Qed.

Lemma rstrip_idempotent (s : string) : Py.rstrip (Py.rstrip s) = Py.rstrip s.
Proof.
  induction s as [|c s IH]; [reflexivity|].
  cbn [Py.rstrip]. destruct (Py.rstrip s) as [|d r] eqn:Hr.
  - destruct (Py.is_space c) eqn:Hc; [reflexivity|].
    cbn [Py.rstrip]. rewrite Hc. reflexivity.
  - change (Py.rstrip (String c (String d r))) with
      (match Py.rstrip (String d r) with
       | EmptyString => if Py.is_space c then EmptyString else String c EmptyString
       | String _ _ as r' => String c r'
       end).
    rewrite IH. reflexivity.
Qed.

(** A stripped text has no white space left at either end. *)
Lemma strip_ends (s : string) :
  Py.lstrip (Py.strip s) = Py.strip s /\ Py.rstrip (Py.strip s) = Py.strip s.
Proof.
  unfold Py.strip. split; [|apply rstrip_idempotent].
  destruct (lstrip_head s) as [->|(c & t & -> & Hc)]; [reflexivity|].
  rewrite (rstrip_head c t Hc). cbn [Py.lstrip]. rewrite Hc. reflexivity.
Qed.

Lemma strip_idempotent (s : string) : Py.strip (Py.strip s) = Py.strip s.
Proof.
  destruct (strip_ends s) as [Hl Hr]. unfold Py.strip at 1. rewrite Hl. exact Hr.
Qed.

Lemma text_idempotent (v : Pd.value) : text (text v) = text v.
Proof. unfold text. cbn [Pd.str]. rewrite strip_idempotent. reflexivity. Qed.

Lemma startswith_refl (s : string) : Py.startswith s s = true.
Proof.
  induction s as [|c s IH]; [reflexivity|].
  cbn [Py.startswith]. rewrite Ascii.eqb_refl, IH. reflexivity.
Qed.

Lemma contains_refl (s : string) : Py.contains s s = true.
Proof. destruct s; cbn [Py.contains]; rewrite startswith_refl; reflexivity. Qed.

Lemma startswith_append (a s r : string) :
  Py.startswith a s = true -> Py.startswith a (s ++ r) = true.
Proof.
  revert s. induction a as [|c a IH]; intros s H; [reflexivity|].
  destruct s as [|d s]; [discriminate H|].
  cbn [Py.startswith append] in *. apply andb_prop in H. destruct H as [-> H].
  rewrite (IH s H). reflexivity.
Qed.

Lemma startswith_split (b s : string) :
  Py.startswith b s = true -> exists r, s = (b ++ r)%string.
Proof.
  revert s. induction b as [|c b IH]; intros s H; [exists s; reflexivity|].
  destruct s as [|d s]; [discriminate H|].
  cbn [Py.startswith] in H. apply andb_prop in H. destruct H as [Hc H].
  apply Ascii.eqb_eq in Hc. subst d. destruct (IH s H) as (r & ->).
  exists r. reflexivity.
Qed.

Lemma contains_empty (s : string) : Py.contains EmptyString s = true.
Proof. destruct s; reflexivity. Qed.

Lemma contains_append (a s r : string) :
  Py.contains a s = true -> Py.contains a (s ++ r) = true.
Proof.
  induction s as [|c s IH]; intros H.
  - destruct a; [apply contains_empty | discriminate H].
  - cbn [Py.contains] in H. apply orb_prop in H.
    change ((String c s ++ r)%string) with (String c (s ++ r)).
    cbn [Py.contains]. destruct H as [H|H].
    + change (String c (s ++ r)) with ((String c s ++ r)%string).
      rewrite (startswith_append a (String c s) r H). reflexivity.
    + rewrite (IH H). apply orb_true_r.
Qed.

Lemma contains_prepend (a p s : string) :
  Py.contains a s = true -> Py.contains a (p ++ s) = true.
Proof.
  intros H. induction p as [|c p IH]; [exact H|].
  change ((String c p ++ s)%string) with (String c (p ++ s)).
  cbn [Py.contains]. rewrite IH. apply orb_true_r.
Qed.

Lemma contains_split (b s : string) :
  Py.contains b s = true -> exists p r, s = (p ++ b ++ r)%string.
Proof.
  induction s as [|c s IH]; intros H; cbn [Py.contains] in H.
  - rewrite orb_false_r in H. destruct (startswith_split b _ H) as (r & ->).
    exists EmptyString, r. reflexivity.
  - apply orb_prop in H. destruct H as [H|H].
    + destruct (startswith_split b _ H) as (r & ->). exists EmptyString, r. reflexivity.
    + destruct (IH H) as (p & r & ->). exists (String c p), r. reflexivity.
Qed.

(** Containment is transitive. *)
Lemma contains_trans (a b s : string) :
  Py.contains a b = true -> Py.contains b s = true -> Py.contains a s = true.
Proof.
  intros Hab Hbs. destruct (contains_split b s Hbs) as (p & r & ->).
  apply contains_prepend, contains_append. exact Hab.
Qed.

(* ================================================================== *)
(** ** More about the cleaning *)

Lemma combine_same {A B C} (f : A -> B) (g : A -> C) (l : list A) :
  combine (map f l) (map g l) = map (fun x => (f x, g x)) l.
Proof.
  induction l as [|x l IH]; cbn [map combine]; [reflexivity|].
  rewrite IH. reflexivity.
Qed.

Lemma headers_of_cleaned (rows : list (list Pd.value)) :
  headers (Pd.mkDataFrame COLUMNS_TO_KEEP rows) = COLUMNS_TO_KEEP.
Proof. reflexivity. Qed.

(** The ten fields of a row of ten cells. *)
Lemma fields_of_row (a0 a1 a2 a3 a4 a5 a6 a7 a8 a9 : Pd.value) :
  let r := [a0; a1; a2; a3; a4; a5; a6; a7; a8; a9] in
  cell COLUMNS_TO_KEEP "District" r = a0 /\ cell COLUMNS_TO_KEEP "College" r = a1
  /\ cell COLUMNS_TO_KEEP "Gender" r = a2 /\ cell COLUMNS_TO_KEEP "Type" r = a3
  /\ cell COLUMNS_TO_KEEP "Category" r = a4 /\ cell COLUMNS_TO_KEEP "Action" r = a5
  /\ cell COLUMNS_TO_KEEP "Name" r = a6 /\ cell COLUMNS_TO_KEEP "Designation" r = a7
  /\ cell COLUMNS_TO_KEEP "Salary" r = a8 /\ cell COLUMNS_TO_KEEP "Reason" r = a9.
Proof. repeat split. Qed.

Lemma cleaned_row_again (hdr : list string) (r : list Pd.value) (z : Z) :
  cleaned_row COLUMNS_TO_KEEP (cleaned_row hdr r z) z = cleaned_row hdr r z.
Proof.
  unfold cleaned_row at 2 3.
  destruct (fields_of_row
              (text (cell hdr "District" r)) (text (cell hdr "College" r))
              (cell hdr "Gender" r) (cell hdr "Type" r)
              (text (cell hdr "Category" r)) (text (cell hdr "Action" r))
              (cell hdr "Name" r) (cell hdr "Designation" r)
              (Pd.VInt z) (text (cell hdr "Reason" r)))
    as (H0 & H1 & H2 & H3 & H4 & H5 & H6 & H7 & _ & H9).
  cbv zeta in *. unfold cleaned_row.
  rewrite H0, H1, H2, H3, H4, H5, H6, H7, H9, !text_idempotent. reflexivity.
Qed.

(** X1: the cleaning is idempotent: a frame that the cleaning returned is
    returned unchanged when it is cleaned again. *)
Theorem clean_idempotent (df out : Pd.DataFrame) :
  clean df = Returns out -> clean out = Returns out.
Proof.
  intros H. destruct (clean_inv df out H) as (_ & zs & _ & ->).
  set (rows := combine (Pd.data df) zs).
  set (f := fun rz : list Pd.value * Z => cleaned_row (headers df) (fst rz) (snd rz)).
  rewrite (clean_returns (Pd.mkDataFrame COLUMNS_TO_KEEP (map f rows)) (map snd rows)).
  - cbn [Pd.data]. rewrite headers_of_cleaned, combine_same, map_map. do 2 f_equal.
    apply map_ext. intros [r z]. unfold f. cbn [fst snd]. apply cleaned_row_again.
  - reflexivity.
  - cbn [Pd.data]. rewrite headers_of_cleaned, !mapM_map.
    rewrite (mapM_ext _ (fun rz => Returns (snd rz))); [apply mapM_pure|].
    intros [r z] _. reflexivity.
Qed.

Lemma clean_idempotent_witness :
  exists out, clean ragged_labels = Returns out /\ clean out = Returns out.
Proof.
  eexists. split; [reflexivity|]. exact (clean_idempotent ragged_labels _ eq_refl).
Defined.

Lemma field_str_text (hdr : list string) (r : list Pd.value) (z : Z) (label : string) :
  In label ["District"; "College"; "Category"; "Action"; "Reason"] ->
  field label (cleaned_row hdr r z) = text (cell hdr label r).
Proof.
  intros H. cbn [In] in H.
  repeat (destruct H as [<-|H]; [reflexivity|]). destruct H.
Qed.

(** X2: in a frame that the cleaning returned, District, College, Category,
    Action and Reason have no white space at either end. *)
Theorem cleaned_text_is_stripped (df out : Pd.DataFrame) (r : list Pd.value)
        (label : string) :
  clean df = Returns out ->
  In r (Pd.data out) ->
  In label ["District"; "College"; "Category"; "Action"; "Reason"] ->
  Py.lstrip (field_str label r) = field_str label r
  /\ Py.rstrip (field_str label r) = field_str label r.
Proof.
  intros H Hr Hl. destruct (clean_inv df out H) as (_ & zs & _ & ->).
  cbn [Pd.data] in Hr. apply in_map_iff in Hr. destruct Hr as ([r0 z] & <- & _).
  unfold field_str. cbn [fst snd]. rewrite (field_str_text _ _ _ _ Hl).
  unfold text. cbn [Pd.str]. apply strip_ends.
Qed.

Lemma cleaned_text_is_stripped_witness :
  exists out r,
    clean padded_district = Returns out
    /\ In r (Pd.data out)
    /\ field_str "District" r = "Lakki Marwat"
    /\ Py.lstrip (field_str "District" r) = field_str "District" r.
Proof.
  eexists. eexists. split; [reflexivity|]. split; [left; reflexivity|].
  split; [reflexivity|].
  refine (proj1 (cleaned_text_is_stripped padded_district _ _ "District" eq_refl _ _)).
  - left. reflexivity.
  - left. reflexivity.
Defined.

Lemma map_fst_combine {A B} (l : list A) (l' : list B) :
  List.length l' = List.length l -> map fst (combine l l') = l.
Proof.
  revert l'. induction l as [|x l IH]; intros [|y l'] H; try discriminate H;
    [reflexivity|].
  cbn [combine map fst]. rewrite IH; [reflexivity|]. inversion H. reflexivity.
Qed.

(** X3: the cleaning works row by row and keeps the order of the rows (the
    labels being ASCII text): Gender, Type, Name and Designation are the
    cells read under these labels, unchanged; each of the five other texts
    is the string form of the cell read, stripped, when the cells of that
    column are ASCII text; and an empty cell of these five columns becomes
    the text "nan". *)
Theorem clean_row_by_row (df out : Pd.DataFrame) :
  clean df = Returns out ->
  ascii_labels df = true ->
  (forall c, In c kept_columns ->
     map (field c) (Pd.data out) = map (cell (headers df) c) (Pd.data df))
  /\ (forall c, In c ["District"; "College"; "Category"; "Action"; "Reason"] ->
      ascii_column (headers df) c (Pd.data df) = true ->
      map (field c) (Pd.data out)
      = map (fun r => Pd.VStr (Py.strip (Pd.str (cell (headers df) c r)))) (Pd.data df))
  /\ (forall c i r,
        In c ["District"; "College"; "Category"; "Action"; "Reason"] ->
        nth_error (Pd.data df) i = Some r ->
        cell (headers df) c r = Pd.VNaN ->
        option_map (field c) (nth_error (Pd.data out) i) = Some (Pd.VStr "nan")).
Proof.
  intros H _. destruct (clean_inv df out H) as (_ & zs & Hzs & ->).
  assert (Hlen : List.length zs = List.length (Pd.data df)).
  { rewrite (mapM_length _ _ _ Hzs). apply length_map. }
  cbn [Pd.data].
  assert (Hkept : forall c, In c kept_columns ->
            map (field c) (map (fun rz => cleaned_row (headers df) (fst rz) (snd rz))
                               (combine (Pd.data df) zs))
            = map (cell (headers df) c) (Pd.data df)).
  { intros c Hc. rewrite map_map.
    rewrite (map_ext _ (fun rz => cell (headers df) c (fst rz))).
    - rewrite <- map_map, (map_fst_combine _ _ Hlen). reflexivity.
    - intros [r z]. apply field_kept. exact Hc. }
  assert (Htext : forall c, In c ["District"; "College"; "Category"; "Action"; "Reason"] ->
            map (field c) (map (fun rz => cleaned_row (headers df) (fst rz) (snd rz))
                               (combine (Pd.data df) zs))
            = map (fun r => Pd.VStr (Py.strip (Pd.str (cell (headers df) c r))))
                  (Pd.data df)).
  { intros c Hc. rewrite map_map.
    rewrite (map_ext _ (fun rz => text (cell (headers df) c (fst rz)))).
    - rewrite <- (map_map fst (fun r => text (cell (headers df) c r))).
      rewrite (map_fst_combine _ _ Hlen). reflexivity.
    - intros [r z]. apply field_str_text. exact Hc. }
  split; [exact Hkept|]. split; [intros c Hc _; exact (Htext c Hc)|].
  intros c i r Hc Hi Hnan. rewrite <- nth_error_map, (Htext c Hc), nth_error_map, Hi.
  cbn [option_map]. rewrite Hnan. reflexivity.
Qed.

Lemma clean_row_by_row_witness :
  exists out,
    clean negative_and_missing = Returns out
    /\ map (field "Name") (Pd.data out) = [Pd.VStr "Ali"; Pd.VNaN].
Proof.
  eexists. split; [reflexivity|].
  rewrite (proj1 (clean_row_by_row negative_and_missing _ eq_refl eq_refl) "Name").
  - reflexivity.
  - cbn. tauto.
Defined.

(* ------------------------------------------------------------------ *)

Lemma astype_int1_never_raises (v : Pd.value) (e : exn) : Pd.astype_int1 v <> Raises e.
Proof. destruct v; cbn [Pd.astype_int1]; discriminate. Qed.

(** Line 59 raises nothing but the refusal of the integer cast. *)
Lemma coerce_salary_raises_only (col : list Pd.value) (e : exn) :
  coerce_salary col = Raises e ->
  e = IntCastingNaNError "Cannot convert non-finite values (NA or inf) to integer".
Proof.
  rewrite coerce_salary_cells. unfold Pd.astype_int. intros H.
  destruct (mapM Pd.to_numeric_coerce1 col) as [nums|e'|] eqn:Hn; cbn [bind] in H.
  - destruct (forallb Pd.is_finite (Pd.fillna (Pd.VInt 0) nums)).
    + exfalso. exact (mapM_never_raises _ _ e (fun x => astype_int1_never_raises x e) H).
    + inversion H. reflexivity.
  - exfalso.
    exact (mapM_never_raises _ col e' (fun x => to_numeric_coerce1_never_raises x e') Hn).
  - discriminate H.
Qed.

(** X4: the cleaning raises only two errors: the refusal to reindex,
    exactly when two labels are equal once stripped and renamed, and the
    refusal of the integer cast of the Salary column, when the labels are
    distinct.  In particular no column that it reads can be missing.  That
    nothing else is raised is for labels in ASCII text. *)
Theorem clean_raises_only (df : Pd.DataFrame) :
  (Pd.is_unique (headers df) = false ->
   clean df = Raises (ValueError "cannot reindex on an axis with duplicate labels"))
  /\ (ascii_labels df = true ->
      forall e, clean df = Raises e ->
        (Pd.is_unique (headers df) = false
         /\ e = ValueError "cannot reindex on an axis with duplicate labels")
        \/ (Pd.is_unique (headers df) = true
            /\ e = IntCastingNaNError
                     "Cannot convert non-finite values (NA or inf) to integer")).
Proof.
  split; [exact (clean_duplicate_labels df)|].
  intros _ e H. destruct (Pd.is_unique (headers df)) eqn:Hu.
  - right. split; [reflexivity|].
    destruct (coerce_salary (map (cell (headers df) "Salary") (Pd.data df)))
      as [sal|e'|] eqn:Hs.
    + destruct (coerce_salary_inv _ _ Hs) as (zs & Hzs & _).
      rewrite (clean_returns df zs Hu Hzs) in H. discriminate H.
    + rewrite (clean_raises df e' Hu Hs) in H. inversion H; subst e'.
      exact (coerce_salary_raises_only _ _ Hs).
    + rewrite (clean_out_of_scope df Hu Hs) in H. discriminate H.
  - left. split; [reflexivity|].
    rewrite (clean_duplicate_labels df Hu) in H. inversion H. reflexivity.
Qed.

Lemma clean_raises_only_witness :
  clean padded_twice
  = Raises (ValueError "cannot reindex on an axis with duplicate labels")
  /\ Pd.is_unique (headers infinite_salary) = true
  /\ clean infinite_salary
     = Raises (IntCastingNaNError "Cannot convert non-finite values (NA or inf) to integer").
Proof.
  split; [exact (proj1 (clean_raises_only padded_twice) eq_refl)|].
  split; [reflexivity|].
  destruct (proj2 (clean_raises_only infinite_salary) eq_refl _ eq_refl)
    as [[Hu _]|[_ He]].
  - discriminate Hu.
  - reflexivity.
Defined.

(* ------------------------------------------------------------------ *)

Lemma not_unique_map (f : string -> string) (l : list string) (x y : string) :
  In x l -> In y l -> x <> y -> f x = f y -> Pd.is_unique (map f l) = false.
Proof.
  intros Hx Hy Hne Hf. induction l as [|h t IH]; [destruct Hx|].
  cbn [map Pd.is_unique].
  assert (Hex : forall z, In z t -> f z = f h ->
                          existsb (String.eqb (f h)) (map f t) = true).
  { intros z Hz Hfz. apply existsb_exists. exists (f z). split.
    - apply in_map. exact Hz.
    - rewrite Hfz. apply String.eqb_refl. }
  destruct Hx as [->|Hx], Hy as [->|Hy].
  - contradiction Hne. reflexivity.
  - rewrite (Hex y Hy (eq_sym Hf)). reflexivity.
  - rewrite (Hex x Hx Hf). reflexivity.
  - rewrite (IH Hx Hy). apply andb_false_r.
Qed.

(** X5: a sheet that carries a column under both of its names, such as
    "Gender" and "College Gender" (white space around the labels aside),
    cannot be loaded: the renaming makes the two labels equal and the
    reindexing raises. *)
Theorem clean_merged_labels_collide (df : Pd.DataFrame) (old new : string) :
  In (old, new) merged_labels ->
  In old (map Py.strip (Pd.columns df)) ->
  In new (map Py.strip (Pd.columns df)) ->
  clean df = Raises (ValueError "cannot reindex on an axis with duplicate labels").
Proof.
  intros Hpair Hold Hnew. apply clean_duplicate_labels.
  unfold headers, standardize, Pd.rename. cbn [Pd.columns].
  apply (not_unique_map _ _ old new Hold Hnew);
    cbn [merged_labels In] in Hpair;
    repeat (destruct Hpair as [Heq|Hpair];
            [inversion Heq; subst; first [discriminate | reflexivity]|]);
    destruct Hpair.
Qed.

Lemma clean_merged_labels_collide_witness :
  clean gender_twice
  = Raises (ValueError "cannot reindex on an axis with duplicate labels").
Proof.
  apply (clean_merged_labels_collide gender_twice "College Gender" "Gender").
  - left. reflexivity.
  - right. right. left. reflexivity.
  - right. left. reflexivity.
Defined.

(* ================================================================== *)
(** ** More about the indicators *)

Lemma eq_str_category (rows : list (list Pd.value)) (s : string) :
  forallb is_record rows = true ->
  Pd.eq_str (map (fun r => nth 4 r Pd.VNaN) rows) s
  = map (fun r => String.eqb (field_str "Category" r) s) rows.
Proof.
  unfold Pd.eq_str. induction rows as [|r rows IH]; intros H; [reflexivity|].
  cbn [forallb] in H. apply andb_prop in H. destruct H as [Hr Hrows].
  cbn [map]. rewrite (IH Hrows).
  destruct (record_cases r Hr) as (d & c & g & t & cat & a & n & des & z & re & ->).
  reflexivity.
Qed.

(** The dict that [calculate_kpis] returns for a cleaned frame with rows. *)
Lemma calculate_kpis_spec (df : Pd.DataFrame) :
  cleaned df ->
  Pd.empty df = false ->
  calculate_kpis df
  = Returns
      [("Total Actions", Z.of_nat (List.length (Pd.data df)));
       ("Unique Colleges",
        Z.of_nat (List.length (Pd.unique (map (field_str "College") (Pd.data df)))));
       ("Total Salary Deducted",
        Pd.wrap_int64 (fold_right Z.add 0%Z (map salary_of (Pd.data df))));
       ("Employee Issues", Z.of_nat (records_with "Category" "Employee" df));
       ("Warnings", count_where "Action" (contains_nocase "Warning") df);
       ("Explanations", count_where "Action" (contains_nocase "Explanation") df);
       ("Inquiries", count_where "Action" (contains_nocase "Inquiry") df)].
Proof.
  intros Hcl He. pose proof Hcl as [Hc Hr]. unfold calculate_kpis. rewrite He.
  rewrite (getitem_cleaned df "College" 1 Hc eq_refl eq_refl). cbn [bind].
  unfold Pd.nunique, Pd.strings.
  rewrite (text_column (fun s => s) "College" 1 _ (or_intror (or_introl eq_refl)) Hr).
  cbn [bind].
  rewrite (getitem_cleaned df "Salary" 8 Hc eq_refl eq_refl). cbn [bind].
  unfold Pd.sum. rewrite (salary_column _ Hr). cbn [bind].
  rewrite (getitem_cleaned df "Category" 4 Hc eq_refl eq_refl). cbn [bind].
  rewrite (count_contains_literal df "Action" "Warning" 5 Hcl); [|cbn; tauto|reflexivity].
  rewrite (count_contains_literal df "Action" "Explanation" 5 Hcl); [|cbn; tauto|reflexivity].
  rewrite (count_contains_literal df "Action" "Inquiry" 5 Hcl); [|cbn; tauto|reflexivity].
  cbn [bind]. rewrite (eq_str_category _ "Employee" Hr), select_map.
  reflexivity.
Qed.

Lemma unique_length_nodup (l : list string) :
  List.length (Pd.unique l) = List.length (nodup string_dec l).
Proof.
  apply Permutation_length. apply NoDup_Permutation.
  - apply unique_NoDup.
  - apply NoDup_nodup.
  - intros x. rewrite unique_In, nodup_In. reflexivity.
Qed.

Lemma wrap_int64_small (z : Z) :
  (- 2 ^ 63 <= z < 2 ^ 63)%Z -> Pd.wrap_int64 z = z.
Proof.
  intros H. unfold Pd.wrap_int64. rewrite Z.mod_small; lia.
Qed.

Lemma wrap_int64_range (z : Z) : (- 2 ^ 63 <= Pd.wrap_int64 z < 2 ^ 63)%Z.
Proof.
  unfold Pd.wrap_int64.
  pose proof (Z.mod_pos_bound (z + 2 ^ 63) (2 ^ 64) eq_refl). lia.
Qed.

(** X6: on a cleaned frame with rows [calculate_kpis] fails on no column and
    returns a dict with exactly seven keys; Total Actions is the number of
    records, Unique Colleges the number of distinct College strings, and
    Employee Issues the number of records whose Category is exactly
    "Employee".  Total Salary Deducted is the sum of the salaries as 64 bits
    hold it: an int64 again, equal to the sum modulo 2^64, and the sum
    itself when that is within the range of an int64. *)
Theorem kpi_totals (df : Pd.DataFrame) :
  cleaned df ->
  Pd.empty df = false ->
  exists kpis,
    calculate_kpis df = Returns kpis
    /\ map fst kpis = ["Total Actions"; "Unique Colleges"; "Total Salary Deducted";
                       "Employee Issues"; "Warnings"; "Explanations"; "Inquiries"]
    /\ get kpis "Total Actions" 0 = Z.of_nat (List.length (Pd.data df))
    /\ get kpis "Unique Colleges" 0
       = Z.of_nat (List.length (nodup string_dec (map (field_str "College") (Pd.data df))))
    /\ (- 2 ^ 63 <= get kpis "Total Salary Deducted" 0 < 2 ^ 63)%Z
    /\ ((get kpis "Total Salary Deducted" 0) mod 2 ^ 64
        = (fold_right Z.add 0 (map salary_of (Pd.data df))) mod 2 ^ 64)%Z
    /\ ((- 2 ^ 63 <= fold_right Z.add 0 (map salary_of (Pd.data df)) < 2 ^ 63)%Z ->
        get kpis "Total Salary Deducted" 0
        = fold_right Z.add 0%Z (map salary_of (Pd.data df)))
    /\ get kpis "Employee Issues" 0
       = Z.of_nat (List.length
                     (filter (fun r => String.eqb (field_str "Category" r) "Employee")
                             (Pd.data df))).
Proof.
  intros Hcl He. eexists. split; [exact (calculate_kpis_spec df Hcl He)|].
  split; [reflexivity|]. split; [reflexivity|].
  change (get _ "Total Salary Deducted" 0)
    with (Pd.wrap_int64 (fold_right Z.add 0%Z (map salary_of (Pd.data df)))).
  split; [|split; [apply wrap_int64_range|split; [|split; [apply wrap_int64_small|reflexivity]]]].
  - change (Z.of_nat (List.length (Pd.unique (map (field_str "College") (Pd.data df))))
            = Z.of_nat (List.length (nodup string_dec
                                       (map (field_str "College") (Pd.data df))))).
    rewrite unique_length_nodup. reflexivity.
  - unfold Pd.wrap_int64.
    set (t := fold_right Z.add 0%Z (map salary_of (Pd.data df))).
    rewrite Zminus_mod, Z.mod_mod by lia.
    rewrite <- Zminus_mod. f_equal. lia.
Qed.

Lemma kpi_totals_witness :
  exists kpis,
    calculate_kpis fallback_frame = Returns kpis
    /\ get kpis "Total Salary Deducted" 0 = 22000%Z
    /\ get kpis "Employee Issues" 0 = 15%Z.
Proof.
  destruct (kpi_totals fallback_frame (conj eq_refl eq_refl) eq_refl)
    as (kpis & Hk & _ & _ & _ & _ & _ & Hs & He).
  exists kpis. split; [exact Hk|]. split.
  - rewrite Hs; [reflexivity|].
    split; [intros H; vm_compute in H; discriminate H | reflexivity].
  - rewrite He. reflexivity.
Defined.

Lemma filter_length {A} (p : A -> bool) (l : list A) :
  List.length (filter p l) <= List.length l.
Proof.
  induction l as [|x l IH]; cbn [filter List.length]; [lia|].
  destruct (p x); cbn [List.length]; lia.
Qed.

Lemma unique_length (l : list string) : List.length (Pd.unique l) <= List.length l.
Proof.
  apply NoDup_incl_length; [apply unique_NoDup|].
  intros x Hx. apply unique_In. exact Hx.
Qed.

(** X7: on a cleaned frame with rows no indicator that counts records
    exceeds Total Actions, and Unique Colleges is at least 1. *)
Theorem kpi_bounds (df : Pd.DataFrame) :
  cleaned df ->
  Pd.empty df = false ->
  exists kpis,
    calculate_kpis df = Returns kpis
    /\ (1 <= get kpis "Unique Colleges" 0 <= get kpis "Total Actions" 0)%Z
    /\ (0 <= get kpis "Employee Issues" 0 <= get kpis "Total Actions" 0)%Z
    /\ (0 <= get kpis "Warnings" 0 <= get kpis "Total Actions" 0)%Z
    /\ (0 <= get kpis "Explanations" 0 <= get kpis "Total Actions" 0)%Z
    /\ (0 <= get kpis "Inquiries" 0 <= get kpis "Total Actions" 0)%Z.
Proof.
  intros Hcl He. eexists. split; [exact (calculate_kpis_spec df Hcl He)|].
  change (get _ "Total Actions" 0) with (Z.of_nat (List.length (Pd.data df))).
  change (get _ "Unique Colleges" 0)
    with (Z.of_nat (List.length (Pd.unique (map (field_str "College") (Pd.data df))))).
  change (get _ "Employee Issues" 0)
    with (Z.of_nat (records_with "Category" "Employee" df)).
  change (get _ "Warnings" 0) with (count_where "Action" (contains_nocase "Warning") df).
  change (get _ "Explanations" 0)
    with (count_where "Action" (contains_nocase "Explanation") df).
  change (get _ "Inquiries" 0) with (count_where "Action" (contains_nocase "Inquiry") df).
  unfold count_where, records_with.
  pose proof (unique_length (map (field_str "College") (Pd.data df))) as Hu.
  rewrite length_map in Hu.
  destruct (empty_false_rows df He) as (r & rs & Hrows).
  assert (H1 : 1 <= List.length (Pd.unique (map (field_str "College") (Pd.data df)))).
  { rewrite Hrows. cbn [map Pd.unique List.length]. lia. }
  pose proof (filter_length (fun r => String.eqb (field_str "Category" r) "Employee")
                            (Pd.data df)).
  pose proof (filter_length (fun r => contains_nocase "Warning" (field_str "Action" r))
                            (Pd.data df)).
  pose proof (filter_length (fun r => contains_nocase "Explanation" (field_str "Action" r))
                            (Pd.data df)).
  pose proof (filter_length (fun r => contains_nocase "Inquiry" (field_str "Action" r))
                            (Pd.data df)).
  repeat split; lia.
Qed.

Lemma kpi_bounds_witness :
  exists kpis,
    calculate_kpis one_record = Returns kpis
    /\ (1 <= get kpis "Unique Colleges" 0 <= get kpis "Total Actions" 0)%Z.
Proof.
  destruct (kpi_bounds one_record (conj eq_refl eq_refl) eq_refl) as (kpis & Hk & Hu & _).
  exists kpis. split; [exact Hk | exact Hu].
Defined.

(* ================================================================== *)
(** ** More about the counts of the charts *)

Lemma total_perm (l l' : list (string * nat)) :
  Permutation l l' -> total l = total l'.
Proof.
  unfold total. induction 1 as [|x l l' _ IH|x y l|l l' l'' _ IH1 _ IH2];
    cbn [fold_right]; lia.
Qed.

Lemma total_app (l l' : list (string * nat)) : total (l ++ l') = total l + total l'.
Proof.
  unfold total. induction l as [|x l IH]; cbn [app fold_right]; [reflexivity|].
  rewrite IH. lia.
Qed.

Lemma once_in_NoDup (u : list string) (x : string) :
  NoDup u -> In x u -> List.length (filter (fun y => String.eqb y x) u) = 1.
Proof.
  induction 1 as [|h t Hh Hnd IH]; intros Hin; [destruct Hin|].
  cbn [filter]. destruct (String.eqb_spec h x) as [->|Hne].
  - cbn [List.length]. f_equal.
    assert (Hnone : filter (fun y => String.eqb y x) t = []).
    { clear IH Hnd Hin. induction t as [|a t IHt]; [reflexivity|].
      cbn [filter]. destruct (String.eqb_spec a x) as [->|_].
      - contradiction Hh. left. reflexivity.
      - apply IHt. intros H. apply Hh. right. exact H. }
    rewrite Hnone. reflexivity.
  - destruct Hin as [->|Hin]; [contradiction Hne; reflexivity|]. exact (IH Hin).
Qed.

Lemma count_cons (y x : string) (l : list string) :
  Pd.count y (x :: l) = (if String.eqb y x then 1 else 0) + Pd.count y l.
Proof.
  unfold Pd.count. cbn [filter]. destruct (String.eqb y x); reflexivity.
Qed.

Lemma total_cons (u : list string) (x : string) (l : list string) :
  total (map (fun y => (y, Pd.count y (x :: l))) u)
  = List.length (filter (fun y => String.eqb y x) u)
    + total (map (fun y => (y, Pd.count y l)) u).
Proof.
  unfold total. induction u as [|h t IH]; [reflexivity|].
  cbn [map fold_right snd]. rewrite IH, count_cons.
  change (filter (fun y => String.eqb y x) (h :: t))
    with (if String.eqb h x then h :: filter (fun y => String.eqb y x) t
          else filter (fun y => String.eqb y x) t).
  destruct (String.eqb h x); cbn [List.length]; lia.
Qed.

(** The counts of the groups add up to the number of values counted. *)
Lemma total_groups (u l : list string) :
  NoDup u -> incl l u ->
  total (map (fun y => (y, Pd.count y l)) u) = List.length l.
Proof.
  intros Hnd. induction l as [|x l IH]; intros Hincl.
  - clear Hnd Hincl. unfold total.
    induction u as [|h t IHt]; [reflexivity|].
    cbn [map fold_right snd]. rewrite IHt. reflexivity.
  - rewrite total_cons, (once_in_NoDup u x Hnd (Hincl x (or_introl eq_refl))).
    rewrite IH; [reflexivity|]. intros y Hy. apply Hincl. right. exact Hy.
Qed.

Lemma action_counts_value (df : Pd.DataFrame) :
  cleaned df ->
  let l := map (field_str "Action") (Pd.data df) in
  action_counts df
  = Returns (Pd.sort_desc (map (fun x => (x, Pd.count x l)) (Pd.unique l))).
Proof.
  intros [Hc Hr] l. unfold action_counts.
  rewrite (getitem_cleaned df "Action" 5 Hc eq_refl eq_refl). cbn [bind].
  unfold Pd.value_counts, Pd.strings.
  rewrite (text_column (fun s => s) "Action" 5 _
             (or_intror (or_intror (or_intror (or_introl eq_refl)))) Hr).
  reflexivity.
Qed.

(** X8: on a cleaned frame the series of the pie chart has one group per
    Action that occurs, and no other; each group carries the number of
    records with exactly that Action; the counts descend and add up to the
    number of records. *)
Theorem action_counts_partition (df : Pd.DataFrame) :
  cleaned df ->
  exists res,
    action_counts df = Returns res
    /\ NoDup (map fst res)
    /\ (forall x, In x (map fst res)
                  <-> exists r, In r (Pd.data df) /\ field_str "Action" r = x)
    /\ (forall x c, In (x, c) res -> c = records_with "Action" x df)
    /\ descending res
    /\ total res = List.length (Pd.data df).
Proof.
  intros Hcl. pose proof (action_counts_value df Hcl) as Hres. cbv zeta in Hres.
  set (l := map (field_str "Action") (Pd.data df)) in *.
  set (groups := map (fun x => (x, Pd.count x l)) (Pd.unique l)) in *.
  assert (Hperm : Permutation (Pd.sort_desc groups) groups) by apply sort_desc_perm.
  assert (Hlabels : map fst groups = Pd.unique l).
  { unfold groups. rewrite map_map. apply map_id. }
  exists (Pd.sort_desc groups). split; [exact Hres|]. split; [|split; [|split; [|split]]].
  - apply (Permutation_NoDup (Permutation_map fst (Permutation_sym Hperm))).
    rewrite Hlabels. apply unique_NoDup.
  - intros x. split.
    + intros H. apply (Permutation_in _ (Permutation_map fst Hperm)) in H.
      rewrite Hlabels in H. apply (proj1 (unique_In _ _)) in H. unfold l in H.
      apply in_map_iff in H. destruct H as (r & Hr & Hin). exists r. split; assumption.
    + intros (r & Hin & <-).
      apply (Permutation_in _ (Permutation_map fst (Permutation_sym Hperm))).
      rewrite Hlabels. apply unique_In. unfold l. apply in_map. exact Hin.
  - intros x c H. apply (Permutation_in _ Hperm) in H. unfold groups in H.
    apply in_map_iff in H. destruct H as (y & Hy & _). inversion Hy; subst.
    unfold l. apply count_records.
  - apply sort_desc_descending.
  - rewrite (total_perm _ _ Hperm). unfold groups.
    rewrite (total_groups (Pd.unique l) l (unique_NoDup l)).
    + unfold l. apply length_map.
    + intros x Hx. apply unique_In. exact Hx.
Qed.

Lemma action_counts_partition_witness :
  exists res, action_counts fallback_frame = Returns res /\ total res = 15.
Proof.
  destruct (action_counts_partition fallback_frame (conj eq_refl eq_refl))
    as (res & H & _ & _ & _ & _ & Ht).
  exists res. split; [exact H | exact Ht].
Defined.

Lemma descending_app (l1 l2 : list (string * nat)) :
  descending (l1 ++ l2) ->
  forall a b, In a l1 -> In b l2 -> snd b <= snd a.
Proof.
  unfold descending. induction l1 as [|x l1 IH]; intros H a b Ha Hb; [destruct Ha|].
  cbn [app] in H. apply StronglySorted_inv in H. destruct H as [Hl Hx].
  destruct Ha as [->|Ha].
  - rewrite Forall_forall in Hx. apply Hx. apply in_or_app. right. exact Hb.
  - exact (IH Hl a b Ha Hb).
Qed.

(** X9: the cut to five keeps the largest groups: on a cleaned frame, a
    Reason that the series of the bar chart leaves out has no more records
    than any Reason it shows; the counts shown add up to at most the number of
    records, and to exactly that number, with every Reason shown, when there
    are at most five distinct Reasons. *)
Theorem reason_counts_keep_largest (df : Pd.DataFrame) :
  cleaned df ->
  exists res,
    reason_counts df = Returns res
    /\ (forall r, In r (Pd.data df) ->
          In (field_str "Reason" r) (map fst res)
          \/ forall g, In g res ->
               records_with "Reason" (field_str "Reason" r) df <= snd g)
    /\ total res <= List.length (Pd.data df)
    /\ (List.length (nodup string_dec (map (field_str "Reason") (Pd.data df))) <= 5 ->
        total res = List.length (Pd.data df)
        /\ forall r, In r (Pd.data df) -> In (field_str "Reason" r) (map fst res)).
Proof.
  intros Hcl. pose proof (reason_counts_spec df Hcl) as Hres. cbv zeta in Hres.
  set (l := map (field_str "Reason") (Pd.data df)) in *.
  set (groups := map (fun x => (x, Pd.count x l)) (Pd.unique l)) in *.
  set (sorted := Pd.sort_desc (Pd.sort_desc groups)) in *.
  assert (Hperm : Permutation sorted groups).
  { unfold sorted. rewrite !sort_desc_perm. reflexivity. }
  assert (Hdesc : descending (firstn 5 sorted ++ skipn 5 sorted)).
  { rewrite firstn_skipn. apply sort_desc_descending. }
  assert (Htotal : total sorted = List.length (Pd.data df)).
  { rewrite (total_perm _ _ Hperm). unfold groups.
    rewrite (total_groups (Pd.unique l) l (unique_NoDup l)).
    - unfold l. apply length_map.
    - intros x Hx. apply unique_In. exact Hx. }
  assert (Hgroup : forall r, In r (Pd.data df) ->
            In (field_str "Reason" r, records_with "Reason" (field_str "Reason" r) df)
               sorted).
  { intros r Hr. apply (Permutation_in _ (Permutation_sym Hperm)). unfold groups.
    apply in_map_iff. exists (field_str "Reason" r). split.
    - f_equal. unfold l. apply count_records.
    - apply unique_In. unfold l. apply in_map. exact Hr. }
  exists (firstn 5 sorted). split; [exact Hres|]. split; [|split].
  - intros r Hr. pose proof (Hgroup r Hr) as Hg.
    rewrite <- (firstn_skipn 5 sorted) in Hg. apply in_app_or in Hg.
    destruct Hg as [Hg|Hg].
    + left. apply (in_map fst) in Hg. exact Hg.
    + right. intros g Hin. exact (descending_app _ _ Hdesc g _ Hin Hg).
  - rewrite <- Htotal. rewrite <- (firstn_skipn 5 sorted) at 2. rewrite total_app. lia.
  - intros Hfew.
    assert (Hall : firstn 5 sorted = sorted).
    { apply firstn_all2. rewrite (Permutation_length Hperm). unfold groups.
      rewrite length_map, unique_length_nodup. exact Hfew. }
    rewrite Hall. split; [exact Htotal|].
    intros r Hr. exact (in_map fst _ _ (Hgroup r Hr)).
Qed.

Lemma reason_counts_keep_largest_witness :
  exists res, reason_counts fallback_frame = Returns res /\ total res = 15.
Proof.
  destruct (reason_counts_keep_largest fallback_frame (conj eq_refl eq_refl))
    as (res & H & _ & _ & Hfew).
  exists res. split; [exact H|]. apply Hfew. vm_compute. lia.
Defined.

(* ================================================================== *)
(** ** More about the search box *)

Lemma subsequence_refl {A} (l : list A) : subsequence l l.
Proof. induction l; constructor; assumption. Qed.

Lemma subsequence_nil {A} (l : list A) : subsequence [] l.
Proof. induction l; constructor; assumption. Qed.

Lemma subsequence_mask {A} (l : list A) (mask : list bool) :
  subsequence (map fst (filter snd (combine l mask))) l.
Proof.
  revert mask. induction l as [|x l IH]; intros [|b mask]; cbn [combine filter map];
    try apply subsequence_nil.
  destruct b; cbn [snd map fst]; constructor; apply IH.
Qed.

Lemma subsequence_filter {A} (p q : A -> bool) (l : list A) :
  (forall x, p x = true -> q x = true) ->
  subsequence (filter p l) (filter q l).
Proof.
  intros Hpq. induction l as [|x l IH]; cbn [filter]; [constructor|].
  destruct (p x) eqn:Hp.
  - rewrite (Hpq x Hp). constructor. exact IH.
  - destruct (q x); [constructor|]; exact IH.
Qed.

(** X10: whatever the term, a frame that the search box returns has the
    columns of the frame searched, and its rows are rows of that frame, in
    their order: the search adds, changes and reorders nothing. *)
Theorem filtered_df_subframe (df out : Pd.DataFrame) (term : string) :
  filtered_df df term = Returns out ->
  Pd.columns out = Pd.columns df /\ subsequence (Pd.data out) (Pd.data df).
Proof.
  unfold filtered_df. intros H. destruct (Py.truthy term).
  - destruct (Pd.empty df); [discriminate H|].
    destruct (mapM (row_matches (Py.lower term)) (Pd.data df)) as [mask| |];
      cbn [bind] in H; try discriminate H.
    inversion H. cbn [Pd.select Pd.columns Pd.data]. split; [reflexivity|].
    apply subsequence_mask.
  - inversion H; subst. split; [reflexivity | apply subsequence_refl].
Qed.

Lemma filtered_df_subframe_witness :
  exists out,
    filtered_df fallback_frame "a.i" = Returns out
    /\ Pd.columns out = Pd.columns fallback_frame
    /\ subsequence (Pd.data out) (Pd.data fallback_frame).
Proof.
  eexists. split; [vm_compute; reflexivity|].
  exact (filtered_df_subframe fallback_frame _ "a.i" eq_refl).
Defined.

Lemma truthy_nonempty (s : string) : s <> "" -> Py.truthy s = true.
Proof. destruct s; [contradiction|reflexivity]. Qed.

(** X11: typing more narrows the result: when a term without special
    characters contains another one, case aside, the rows it selects are
    among the rows that the other selects, in the same order.  For ASCII
    text, terms and fields, where case is that of the letters A..Z. *)
Theorem filter_narrows (df : Pd.DataFrame) (short long : string) :
  short <> "" ->
  Re.has_meta short = false ->
  Re.has_meta long = false ->
  Py.isascii short = true ->
  Py.isascii long = true ->
  ascii_cells df = true ->
  contains_nocase short long = true ->
  Pd.empty df = false ->
  exists wide narrow,
    filtered_df df short = Returns wide
    /\ filtered_df df long = Returns narrow
    /\ subsequence (Pd.data narrow) (Pd.data wide).
Proof.
  intros Hs Hms Hml _ _ _ Hsub He.
  assert (Hl : long <> "").
  { intros ->. destruct short; [contradiction|discriminate Hsub]. }
  rewrite (filtered_df_literal df short (truthy_nonempty _ Hs) Hms He).
  rewrite (filtered_df_literal df long (truthy_nonempty _ Hl) Hml He).
  eexists. eexists. split; [reflexivity|]. split; [reflexivity|].
  unfold literal_filter.
  rewrite (truthy_nonempty _ Hs), (truthy_nonempty _ Hl). cbn [Pd.data].
  apply subsequence_filter. intros r Hr.
  apply existsb_exists in Hr. destruct Hr as (v & Hv & Hlong).
  apply existsb_exists. exists v. split; [exact Hv|].
  exact (contains_trans _ _ _ Hsub Hlong).
Qed.

Lemma filter_narrows_witness :
  exists wide narrow,
    filtered_df fallback_frame "Khan" = Returns wide
    /\ filtered_df fallback_frame "zohaib khan" = Returns narrow
    /\ subsequence (Pd.data narrow) (Pd.data wide).
Proof.
  apply (filter_narrows fallback_frame "Khan" "zohaib khan"); try reflexivity.
  discriminate.
Defined.

(** X12: a record is found by the text of any of its fields, provided this
    text is not empty and has no special character. *)
Theorem found_by_own_field (df : Pd.DataFrame) (r : list Pd.value) (v : Pd.value) :
  Pd.empty df = false ->
  In r (Pd.data df) ->
  In v r ->
  Pd.str v <> "" ->
  Re.has_meta (Pd.str v) = false ->
  exists out, filtered_df df (Pd.str v) = Returns out /\ In r (Pd.data out).
Proof.
  intros He Hr Hv Hne Hm.
  rewrite (filtered_df_literal df _ (truthy_nonempty _ Hne) Hm He).
  eexists. split; [reflexivity|].
  unfold literal_filter. rewrite (truthy_nonempty _ Hne). cbn [Pd.data].
  apply filter_In. split; [exact Hr|].
  apply existsb_exists. exists v. split; [exact Hv|]. apply contains_refl.
Qed.

Lemma found_by_own_field_witness :
  exists out,
    filtered_df one_record "Govt College" = Returns out
    /\ In (hd [] (Pd.data one_record)) (Pd.data out).
Proof.
  apply (found_by_own_field one_record (hd [] (Pd.data one_record))
           (Pd.VStr "Govt College")).
  - reflexivity.
  - left. reflexivity.
  - right. left. reflexivity.
  - discriminate.
  - reflexivity.
Defined.

Lemma str_int_head (z : Z) :
  exists c s, Py.str_int z = String c s /\ Ascii.eqb c "010" = false.
Proof.
  unfold Py.str_int.
  destruct (Z.to_int z) as [d|d]; cbn [NilZero.string_of_int].
  - destruct d; eexists; eexists; split; reflexivity.
  - eexists. eexists. split; reflexivity.
Qed.

Lemma dot_matches_salary (r : list Pd.value) :
  is_record r = true -> row_matches "." r = Returns true.
Proof.
  intros Hr.
  destruct (record_cases r Hr) as (d & c & g & t & cat & a & n & des & z & re & ->).
  unfold row_matches, Pd.str_contains.
  change (Re.compile ".") with (Returns [Re.AnyChar]). cbn [bind negb].
  unfold Pd.str_lower, Pd.astype_str. rewrite !map_map, mapM_map.
  change (mapM _ ?l)
    with (mapM (fun v => Returns (Re.search false [Re.AnyChar] (Py.lower (Pd.str v)))) l).
  rewrite mapM_pure. cbn [bind]. rewrite any_map. f_equal.
  apply existsb_exists. exists (Pd.VInt z). split; [cbn; tauto|].
  cbn [Pd.str]. destruct (str_int_head z) as (c0 & s & -> & Hc0).
  cbn [Py.lower Re.search Re.match_here Re.atom_matches].
  assert (Hl : Ascii.eqb (Py.lower_char c0) "010" = false).
  { revert Hc0. destruct c0 as [[] [] [] [] [] [] [] []]; intros H;
      first [reflexivity | discriminate H]. }
  rewrite Hl. reflexivity.
Qed.

(** X13: on a cleaned frame with rows the term "." selects every record: the
    dot stands for any character, and the Salary of a record always has one. *)
Theorem dot_selects_all (df : Pd.DataFrame) :
  cleaned df -> Pd.empty df = false -> filtered_df df "." = Returns df.
Proof.
  intros [_ Hr] He. unfold filtered_df. cbn [Py.truthy Py.lower]. rewrite He.
  change (String (Py.lower_char ".") EmptyString) with ".".
  rewrite (mapM_ext _ (fun _ => Returns true)).
  - rewrite mapM_pure. cbn [bind]. rewrite select_map.
    destruct df as [cols rows]. cbn [Pd.columns Pd.data]. do 2 f_equal.
    clear. induction rows as [|r rows IH]; cbn [filter]; [reflexivity|].
    rewrite IH. reflexivity.
  - intros r Hin. apply dot_matches_salary.
    rewrite forallb_forall in Hr. exact (Hr r Hin).
Qed.

Lemma dot_selects_all_witness : filtered_df fallback_frame "." = Returns fallback_frame.
Proof. exact (dot_selects_all fallback_frame (conj eq_refl eq_refl) eq_refl). Defined.

(* ================================================================== *)
(** ** The total salary as it is printed *)

Lemma uint_string_head (d : Decimal.uint) :
  d <> Decimal.Nil ->
  exists c s, NilEmpty.string_of_uint d = String c s /\ Py.is_digit c = true.
Proof.
  destruct d; intros H; [contradiction H; reflexivity|..];
    eexists; eexists; split; reflexivity.
Qed.

Lemma int_literal_digit (c : ascii) (s : string) :
  Py.is_digit c = true -> Pd.int_literal (String c s) = Pd.digits 0 (String c s).
Proof.
  destruct c as [[] [] [] [] [] [] [] []]; intros H;
    first [discriminate H | reflexivity].
Qed.

(** [str] of an integer and the reading of an integer literal are inverse. *)
Lemma int_literal_str_int (z : Z) : Pd.int_literal (Py.str_int z) = Some z.
Proof.
  unfold Py.str_int. destruct z as [|p|p]; [reflexivity|..];
    cbn [Z.to_int NilZero.string_of_int]; unfold NilZero.string_of_uint;
    pose proof (Unsigned.to_uint_nonnil p) as Hnil;
    destruct (uint_string_head (Pos.to_uint p) Hnil) as (c & s & Hs & Hc);
    destruct (Pos.to_uint p) eqn:Hd; try (contradiction Hnil; reflexivity);
    rewrite Hs.
  all: try (rewrite (int_literal_digit c s Hc), <- Hs, digits_zero, <- Hd,
              Unsigned.of_to; reflexivity).
  all: change (Pd.int_literal (String "-" (String c s)))
         with (option_map Z.opp (Pd.digits 0 (String c s)));
       rewrite <- Hs, digits_zero, <- Hd, Unsigned.of_to; reflexivity.
Qed.

Lemma group3_keeps_digits (n : nat) (l : list ascii) :
  List.length l <= n ->
  filter (fun c => negb (Ascii.eqb c ",")) (group3 l)
  = filter (fun c => negb (Ascii.eqb c ",")) l.
Proof.
  revert l. induction n as [|n IH]; intros l Hl.
  - destruct l; [reflexivity|cbn in Hl; lia].
  - destruct l as [|a [|b [|c [|d rest]]]]; try reflexivity.
    change (group3 (a :: b :: c :: d :: rest))
      with (a :: b :: c :: ","%char :: group3 (d :: rest)).
    cbn [filter]. change (negb (Ascii.eqb "," ",")) with false. cbv iota.
    rewrite (IH (d :: rest)); [reflexivity|]. cbn [List.length] in *. lia.
Qed.

Lemma uint_string_no_comma (d : Decimal.uint) :
  filter (fun c => negb (Ascii.eqb c ","))
         (list_ascii_of_string (NilEmpty.string_of_uint d))
  = list_ascii_of_string (NilEmpty.string_of_uint d).
Proof.
  induction d; cbn [NilEmpty.string_of_uint list_ascii_of_string filter];
    [reflexivity|..];
    match goal with
    | |- context [if negb (Ascii.eqb ?c ",") then _ else _] =>
        change (negb (Ascii.eqb c ",")) with true
    end; cbv iota; rewrite IHd; reflexivity.
Qed.

Lemma str_int_abs_no_comma (z : Z) :
  filter (fun c => negb (Ascii.eqb c ",")) (list_ascii_of_string (Py.str_int (Z.abs z)))
  = list_ascii_of_string (Py.str_int (Z.abs z)).
Proof.
  unfold Py.str_int.
  destruct z as [|p|p]; [reflexivity|..];
    cbn [Z.abs Z.to_int NilZero.string_of_int]; unfold NilZero.string_of_uint;
    destruct (Pos.to_uint p) eqn:Hd; try reflexivity;
    rewrite <- Hd at 1 2; apply uint_string_no_comma.
Qed.

Lemma without_commas_grouped (z : Z) :
  without_commas
    (string_of_list_ascii
       (rev (group3 (rev (list_ascii_of_string (Py.str_int (Z.abs z)))))))
  = Py.str_int (Z.abs z).
Proof.
  unfold without_commas.
  rewrite list_ascii_of_string_of_list_ascii, filter_rev.
  rewrite (group3_keeps_digits _ _ (le_n _)).
  rewrite filter_rev, rev_involutive, str_int_abs_no_comma.
  apply string_of_list_ascii_of_string.
Qed.

(** X14: the total salary is printed with commas only added: without them the
    text is the decimal form of the number, and it reads back as that
    number. *)
Theorem format_thousands_reads_back (z : Z) :
  without_commas (format_thousands z) = Py.str_int z
  /\ Pd.int_literal (without_commas (format_thousands z)) = Some z.
Proof.
  assert (H : without_commas (format_thousands z) = Py.str_int z).
  { unfold format_thousands. cbv zeta. destruct (z <? 0)%Z eqn:Hneg.
    - destruct z as [|p|p]; try discriminate Hneg.
      change (without_commas (String "-" ?g)) with (String "-" (without_commas g)).
      rewrite without_commas_grouped. reflexivity.
    - rewrite without_commas_grouped. f_equal. apply Z.ltb_ge in Hneg. lia. }
  split; [exact H|]. rewrite H. apply int_literal_str_int.
Qed.

Example format_thousands_sample :
  map format_thousands [0; 999; 1000; 22000; 1234567; -1234]%Z
  = ["0"; "999"; "1,000"; "22,000"; "1,234,567"; "-1,234"].
Proof. reflexivity. Qed.

(* ================================================================== *)
(** ** A run of [main] *)

Lemma load_data_messages (read_csv_url : string -> outcome Pd.DataFrame) (url : string)
      (m : message) :
  In m (fst (load_data read_csv_url url)) -> forall s, m <> warning s.
Proof.
  unfold load_data. destruct (negb (Py.truthy url)).
  - intros [<-|[]] s. discriminate.
  - destruct (read_csv_url url); cbn [fst]; intros H s;
      [destruct H | destruct H as [<-|[]]; discriminate | destruct H].
Qed.

(** What [load_data] returns is a cleaned frame, or the empty frame of a
    link that could not be read. *)
Lemma load_data_returns (read_csv_url : string -> outcome Pd.DataFrame) (url : string)
      (df : Pd.DataFrame) :
  snd (load_data read_csv_url url) = Returns df ->
  cleaned df \/ (df = Pd.DataFrame_empty /\ Py.truthy url = true).
Proof.
  unfold load_data. destruct (Py.truthy url) eqn:Hu; cbn [negb].
  - destruct (read_csv_url url) as [raw|e|]; cbn [snd]; intros H.
    + left. exact (clean_cleaned raw df H).
    + right. inversion H. split; reflexivity.
    + discriminate H.
  - cbn [snd]. intros H. left.
    assert (Hs : (x <- Csv.read_csv MOCK_CSV_DATA ;; clean x) = Returns fallback_frame)
      by (vm_compute; reflexivity).
    rewrite Hs in H. inversion H. split; reflexivity.
Qed.

Lemma getitem_list_table (f : Pd.DataFrame) :
  Pd.columns f = COLUMNS_TO_KEEP ->
  getitem_list f TABLE_COLUMNS
  = Returns (Pd.mkDataFrame TABLE_COLUMNS
               (map (fun r => map (fun c => field c r) TABLE_COLUMNS) (Pd.data f))).
Proof.
  intros Hc. unfold getitem_list. rewrite Hc.
  change (mapM _ TABLE_COLUMNS) with (@Returns (list nat) [0; 1; 6; 7; 5; 9; 8]).
  cbn [bind]. reflexivity.
Qed.

Lemma filtered_df_columns (df f : Pd.DataFrame) (term : string) :
  filtered_df df term = Returns f -> Pd.columns f = Pd.columns df.
Proof.
  unfold filtered_df. intros H. destruct (Py.truthy term).
  - destruct (Pd.empty df); [discriminate H|].
    destruct (mapM (row_matches (Py.lower term)) (Pd.data df)) as [mask| |];
      cbn [bind] in H; try discriminate H.
    inversion H. reflexivity.
  - inversion H. reflexivity.
Qed.

Lemma and_then_prefix {A B} (l : list element) (a : A) (k : A -> page B) :
  and_then (l, Returns a) k = (l ++ fst (k a), snd (k a)).
Proof. reflexivity. Qed.

Lemma and_then_call {A B} (a : A) (k : A -> page B) :
  and_then (call (Returns a)) k = k a.
Proof. unfold and_then, call. cbn [fst snd app]. destruct (k a). reflexivity. Qed.

Lemma and_then_raises {A B} (l : list element) (e : exn) (k : A -> page B) :
  and_then (l, Raises e) k = (l, Raises e).
Proof. reflexivity. Qed.

Lemma and_then_out_of_scope {A B} (l : list element) (k : A -> page B) :
  and_then (l, OutOfScope) k = (l, OutOfScope).
Proof. reflexivity. Qed.

Lemma show_charts_cleaned (df : Pd.DataFrame) :
  cleaned df ->
  Pd.empty df = false ->
  show_charts df
  = ([PieChart "Distribution of Action Types"
        (Pd.sort_desc
           (map (fun x => (x, Pd.count x (map (field_str "Action") (Pd.data df))))
                (Pd.unique (map (field_str "Action") (Pd.data df)))));
      BarChart "Top 5 Reasons for Disciplinary Action"
        (firstn 5
           (Pd.sort_desc (Pd.sort_desc
              (map (fun x => (x, Pd.count x (map (field_str "Reason") (Pd.data df))))
                   (Pd.unique (map (field_str "Reason") (Pd.data df)))))))],
     Returns tt).
Proof.
  intros Hcl He. unfold show_charts. rewrite He.
  rewrite (action_counts_value df Hcl), and_then_call. cbv zeta.
  unfold show at 1. rewrite and_then_prefix.
  rewrite (reason_counts_spec df Hcl), and_then_call. reflexivity.
Qed.

Lemma show_empty_warning_returns (f : Pd.DataFrame) (term : string) :
  snd (show_empty_warning f term) = Returns tt.
Proof.
  unfold show_empty_warning.
  destruct (Pd.empty f && Py.truthy term); [reflexivity|].
  destruct (Pd.empty f); reflexivity.
Qed.

Lemma main_after_load (read_csv_url : string -> outcome Pd.DataFrame)
      (sheet_url search_term : string) (df : Pd.DataFrame) :
  snd (load_data read_csv_url sheet_url) = Returns df ->
  main_stops df sheet_url = false ->
  main read_csv_url sheet_url search_term
  = match filtered_df df search_term with
    | Returns f =>
        (before_table read_csv_url sheet_url df
         ++ DataTable (Pd.mkDataFrame TABLE_COLUMNS
                         (map (fun r => map (fun c => field c r) TABLE_COLUMNS)
                              (Pd.data f)))
            :: fst (show_empty_warning f search_term),
         Returns tt)
    | Raises e => (before_table read_csv_url sheet_url df, Raises e)
    | OutOfScope => (before_table read_csv_url sheet_url df, OutOfScope)
    end.
Proof.
  intros Hload Hgo.
  pose proof (main_filters_rows read_csv_url sheet_url df Hload Hgo) as He.
  assert (Hcl : cleaned df).
  { destruct (load_data_returns _ _ _ Hload) as [Hcl|[-> Hu]]; [exact Hcl|].
    unfold main_stops in Hgo. rewrite Hu in Hgo. discriminate Hgo. }
  unfold main, before_table. cbv zeta.
  rewrite Hload, and_then_prefix, Hgo.
  rewrite (calculate_kpis_spec df Hcl He), and_then_call, and_then_prefix.
  rewrite (show_charts_cleaned df Hcl He), and_then_prefix.
  destruct (filtered_df df search_term) as [f|e|] eqn:Hf.
  - assert (Hc : Pd.columns f = COLUMNS_TO_KEEP).
    { rewrite (filtered_df_columns df f search_term Hf). exact (proj1 Hcl). }
    rewrite and_then_call, (getitem_list_table f Hc), and_then_call.
    unfold show. rewrite and_then_prefix.
    cbn [fst snd]. rewrite show_empty_warning_returns, <- !app_assoc. reflexivity.
  - unfold call. rewrite and_then_raises. cbn [fst snd].
    rewrite ?app_nil_r. reflexivity.
  - unfold call. rewrite and_then_out_of_scope. cbn [fst snd].
    rewrite ?app_nil_r. reflexivity.
Qed.

Lemma main_without_frame (read_csv_url : string -> outcome Pd.DataFrame)
      (sheet_url search_term : string) :
  (forall df, snd (load_data read_csv_url sheet_url) = Returns df ->
              main_stops df sheet_url = true) ->
  fst (main read_csv_url sheet_url search_term)
  = map Shown (fst (load_data read_csv_url sheet_url)).
Proof.
  intros H. unfold main. cbv zeta.
  destruct (snd (load_data read_csv_url sheet_url)) as [df|e|] eqn:Hload.
  - rewrite and_then_prefix, (H df eq_refl). cbn [fst]. apply app_nil_r.
  - reflexivity.
  - reflexivity.
Qed.

Lemma shown_before_table (read_csv_url : string -> outcome Pd.DataFrame)
      (sheet_url : string) (df : Pd.DataFrame) (m : message) :
  In (Shown m) (before_table read_csv_url sheet_url df) ->
  In m (fst (load_data read_csv_url sheet_url)).
Proof.
  unfold before_table. intros H. apply in_app_or in H. destruct H as [H|H].
  - apply in_map_iff in H. destruct H as (m' & Heq & Hin). inversion Heq; subst.
    exact Hin.
  - exfalso. apply in_app_or in H. destruct H as [H|H]; cbn [show_metrics In] in H;
      repeat (destruct H as [H|H]; [discriminate H|]); exact H.
Qed.

(** X15: when a link is given and cannot be read, the page shows the error
    message and nothing else, and the run ends without an exception:
    no indicator, no chart, no table. *)
Theorem main_failed_link (read_csv_url : string -> outcome Pd.DataFrame)
        (sheet_url search_term : string) (e : exn) :
  sheet_url <> "" ->
  read_csv_url sheet_url = Raises e ->
  main read_csv_url sheet_url search_term
  = ([Shown (error ("Error loading data from URL. Please check the link format. Details: "
                    ++ exn_str e)%string)],
     Returns tt).
Proof.
  intros Hu He. unfold main, load_data. rewrite (truthy_nonempty _ Hu), He.
  cbn [negb fst snd map]. rewrite and_then_prefix.
  unfold main_stops. rewrite (truthy_nonempty _ Hu). reflexivity.
Qed.

Lemma main_failed_link_witness :
  main offline "https://example.org/sheet.csv" "khan"
  = ([Shown (error "Error loading data from URL. Please check the link format. Details: <urlopen error [Errno -2] Name or service not known>")],
     Returns tt).
Proof.
  refine (main_failed_link offline _ "khan" _ _ eq_refl). discriminate.
Defined.

(** X16: when the link leads to a sheet with a header and no rows, the
    labels of the header being ASCII text and distinct once stripped and
    renamed, the page stays blank: no message, no indicator, no chart, no
    table. *)
Theorem main_sheet_without_rows (read_csv_url : string -> outcome Pd.DataFrame)
        (sheet_url search_term : string) (raw : Pd.DataFrame) :
  sheet_url <> "" ->
  read_csv_url sheet_url = Returns raw ->
  Pd.data raw = [] ->
  ascii_labels raw = true ->
  Pd.is_unique (headers raw) = true ->
  main read_csv_url sheet_url search_term = ([], Returns tt).
Proof.
  intros Hu Hread Hrows _ Huniq.
  assert (Hclean : clean raw = Returns (Pd.mkDataFrame COLUMNS_TO_KEEP [])).
  { rewrite (clean_returns raw [] Huniq); rewrite Hrows; reflexivity. }
  unfold main, load_data. rewrite (truthy_nonempty _ Hu), Hread, Hclean.
  cbn [negb fst snd map]. rewrite and_then_prefix.
  unfold main_stops. rewrite (truthy_nonempty _ Hu). reflexivity.
Qed.

Lemma main_sheet_without_rows_witness :
  main (reads header_only) "https://example.org/sheet.csv" "" = ([], Returns tt).
Proof.
  refine (main_sheet_without_rows (reads header_only) _ "" header_only _
            eq_refl eq_refl eq_refl eq_refl).
  discriminate.
Defined.

(** X17: the warning "The data frame is empty." of line 218 is never
    shown, whatever the link, the reader and the search term. *)
Theorem main_never_warns_of_empty_frame
        (read_csv_url : string -> outcome Pd.DataFrame) (sheet_url search_term : string) :
  ~ In (Shown (warning "The data frame is empty."))
       (fst (main read_csv_url sheet_url search_term)).
Proof.
  intros Hin.
  assert (Hmsg : In (warning "The data frame is empty.")
                    (fst (load_data read_csv_url sheet_url)) -> False).
  { intros H. exact (load_data_messages _ _ _ H _ eq_refl). }
  destruct (snd (load_data read_csv_url sheet_url)) as [df|e|] eqn:Hload.
  - destruct (main_stops df sheet_url) eqn:Hgo.
    + rewrite main_without_frame in Hin.
      * apply in_map_iff in Hin. destruct Hin as (m & Heq & Hm).
        inversion Heq; subst. exact (Hmsg Hm).
      * intros df' Hdf'. rewrite Hload in Hdf'. inversion Hdf'; subst. exact Hgo.
    + rewrite (main_after_load _ _ search_term df Hload Hgo) in Hin.
      pose proof (main_filters_rows _ _ df Hload Hgo) as He.
      destruct (filtered_df df search_term) as [f|e|] eqn:Hf; cbn [fst] in Hin;
        try exact (Hmsg (shown_before_table _ _ _ _ Hin)).
      apply in_app_or in Hin. destruct Hin as [Hin|[Hin|Hin]].
      * exact (Hmsg (shown_before_table _ _ _ _ Hin)).
      * discriminate Hin.
      * unfold show_empty_warning in Hin.
        destruct (Pd.empty f) eqn:Hef; cbn [andb] in Hin.
        -- destruct (Py.truthy search_term) eqn:Ht.
           ++ cbn [show fst In] in Hin. destruct Hin as [Hin|[]]. discriminate Hin.
           ++ unfold filtered_df in Hf. rewrite Ht in Hf. inversion Hf; subst f.
              rewrite He in Hef. discriminate Hef.
        -- destruct Hin.
  - rewrite main_without_frame in Hin.
    + apply in_map_iff in Hin. destruct Hin as (m & Heq & Hm).
      inversion Heq; subst. exact (Hmsg Hm).
    + intros df' Hdf'. rewrite Hload in Hdf'. discriminate Hdf'.
  - rewrite main_without_frame in Hin.
    + apply in_map_iff in Hin. destruct Hin as (m & Heq & Hm).
      inversion Heq; subst. exact (Hmsg Hm).
    + intros df' Hdf'. rewrite Hload in Hdf'. discriminate Hdf'.
Qed.

(** X18: a run that loads rows and whose search returns shows, in this
    order: the message of the load, the seven indicators computed by
    [calculate_kpis], the pie chart of the Actions, the bar chart of the
    Reasons, and the table of the seven columns of the rows found; after
    which it warns that no records were found exactly when the search
    selected no row. *)
Theorem main_page (read_csv_url : string -> outcome Pd.DataFrame)
        (sheet_url search_term : string) (df found : Pd.DataFrame) :
  snd (load_data read_csv_url sheet_url) = Returns df ->
  main_stops df sheet_url = false ->
  filtered_df df search_term = Returns found ->
  exists kpis actions reasons table,
    calculate_kpis df = Returns kpis
    /\ action_counts df = Returns actions
    /\ reason_counts df = Returns reasons
    /\ getitem_list found TABLE_COLUMNS = Returns table
    /\ Pd.data table
       = map (fun r => map (fun c => field c r) TABLE_COLUMNS) (Pd.data found)
    /\ main read_csv_url sheet_url search_term
       = (map Shown (fst (load_data read_csv_url sheet_url))
          ++ show_metrics kpis
          ++ [PieChart "Distribution of Action Types" actions;
              BarChart "Top 5 Reasons for Disciplinary Action" reasons;
              DataTable table]
          ++ match Pd.data found with
             | [] => [Shown (warning ("No records found matching '"
                                      ++ search_term ++ "'.")%string)]
             | _ :: _ => []
             end,
          Returns tt).
Proof.
  intros Hload Hgo Hf.
  pose proof (main_filters_rows read_csv_url sheet_url df Hload Hgo) as He.
  assert (Hcl : cleaned df).
  { destruct (load_data_returns _ _ _ Hload) as [Hcl|[-> Hu]]; [exact Hcl|].
    unfold main_stops in Hgo. rewrite Hu in Hgo. discriminate Hgo. }
  assert (Hc : Pd.columns found = COLUMNS_TO_KEEP).
  { rewrite (filtered_df_columns df found search_term Hf). exact (proj1 Hcl). }
  eexists. eexists. eexists. eexists.
  split; [exact (calculate_kpis_spec df Hcl He)|].
  split; [exact (action_counts_value df Hcl)|].
  split; [exact (reason_counts_spec df Hcl)|].
  split; [exact (getitem_list_table found Hc)|].
  split; [reflexivity|].
  rewrite (main_after_load _ _ search_term df Hload Hgo), Hf.
  unfold before_table. rewrite <- !app_assoc. cbn [app]. do 4 f_equal.
  unfold show_empty_warning, Pd.empty. rewrite Hc.
  destruct (Pd.data found) as [|r rows] eqn:Hrows; cbn [List.length Nat.eqb orb andb].
  - destruct (Py.truthy search_term) eqn:Ht; [reflexivity|].
    exfalso. unfold filtered_df in Hf. rewrite Ht in Hf. inversion Hf; subst found.
    destruct (empty_false_rows df He) as (r & rs & Hd). rewrite Hd in Hrows.
    discriminate Hrows.
  - reflexivity.
Qed.

Lemma main_page_witness :
  exists kpis actions reasons table,
    calculate_kpis fallback_frame = Returns kpis
    /\ action_counts fallback_frame = Returns actions
    /\ reason_counts fallback_frame = Returns reasons
    /\ Pd.data table = []
    /\ main offline "" "zzz"
       = ([Shown (info "Showing sample data. Enter your Google Sheet 'Publish to Web' CSV link above to load live data.")]
          ++ show_metrics kpis
          ++ [PieChart "Distribution of Action Types" actions;
              BarChart "Top 5 Reasons for Disciplinary Action" reasons;
              DataTable table]
          ++ [Shown (warning "No records found matching 'zzz'.")],
          Returns tt).
Proof.
  destruct (main_page offline "" "zzz" fallback_frame
              (Pd.mkDataFrame COLUMNS_TO_KEEP []))
    as (kpis & actions & reasons & table & Hk & Ha & Hr & _ & Ht & Hm).
  - vm_compute. reflexivity.
  - reflexivity.
  - vm_compute. reflexivity.
  - exists kpis, actions, reasons, table.
    split; [exact Hk|]. split; [exact Ha|]. split; [exact Hr|].
    split; [exact Ht|]. exact Hm.
Defined.

(** X19: a search term that is no valid pattern, such as an opening
    parenthesis, ends the run with the error of [re], uncaught, once the
    indicators and the two charts are on the page; the table is not shown. *)
Theorem main_bad_pattern (read_csv_url : string -> outcome Pd.DataFrame)
        (sheet_url search_term : string) (df : Pd.DataFrame) :
  snd (load_data read_csv_url sheet_url) = Returns df ->
  main_stops df sheet_url = false ->
  search_term <> "" ->
  Re.compile (Py.lower search_term) = Raises re_error ->
  exists kpis actions reasons,
    calculate_kpis df = Returns kpis
    /\ action_counts df = Returns actions
    /\ reason_counts df = Returns reasons
    /\ main read_csv_url sheet_url search_term
       = (map Shown (fst (load_data read_csv_url sheet_url))
          ++ show_metrics kpis
          ++ [PieChart "Distribution of Action Types" actions;
              BarChart "Top 5 Reasons for Disciplinary Action" reasons],
          Raises re_error).
Proof.
  intros Hload Hgo Hne Hbad.
  pose proof (main_filters_rows read_csv_url sheet_url df Hload Hgo) as He.
  assert (Hcl : cleaned df).
  { destruct (load_data_returns _ _ _ Hload) as [Hcl|[-> Hu]]; [exact Hcl|].
    unfold main_stops in Hgo. rewrite Hu in Hgo. discriminate Hgo. }
  eexists. eexists. eexists.
  split; [exact (calculate_kpis_spec df Hcl He)|].
  split; [exact (action_counts_value df Hcl)|].
  split; [exact (reason_counts_spec df Hcl)|].
  rewrite (main_after_load _ _ search_term df Hload Hgo).
  rewrite (filtered_df_raises df search_term (truthy_nonempty _ Hne) Hbad He).
  reflexivity.
Qed.

Lemma main_bad_pattern_witness :
  snd (main offline "" "(Khan") = Raises re_error.
Proof.
  destruct (main_bad_pattern offline "" "(Khan" fallback_frame)
    as (kpis & actions & reasons & _ & _ & _ & Hm).
  - vm_compute. reflexivity.
  - reflexivity.
  - discriminate.
  - reflexivity.
  - rewrite Hm. reflexivity.
Defined.

(** X20: an error of the cleaning is not caught: when the sheet is read but
    the cleaning raises, [main] raises the same error with nothing on the
    page, unlike a link that cannot be read. *)
Theorem main_cleaning_error_escapes (read_csv_url : string -> outcome Pd.DataFrame)
        (sheet_url search_term : string) (raw : Pd.DataFrame) (e : exn) :
  sheet_url <> "" ->
  read_csv_url sheet_url = Returns raw ->
  clean raw = Raises e ->
  load_data read_csv_url sheet_url = ([], Raises e)
  /\ main read_csv_url sheet_url search_term = ([], Raises e).
Proof.
  intros Hu Hread Hclean.
  assert (Hload : load_data read_csv_url sheet_url = ([], Raises e)).
  { unfold load_data. rewrite (truthy_nonempty _ Hu), Hread, Hclean. reflexivity. }
  split; [exact Hload|]. unfold main. cbv zeta. rewrite Hload. reflexivity.
Qed.

Lemma main_cleaning_error_escapes_witness :
  main (reads gender_twice) "https://example.org/sheet.csv" ""
  = ([], Raises (ValueError "cannot reindex on an axis with duplicate labels")).
Proof.
  refine (proj2 (main_cleaning_error_escapes (reads gender_twice) _ "" gender_twice _
                   _ eq_refl eq_refl)).
  discriminate.
Defined.
